(** * comotion.dash: chunked upload of tabular data to Dash

    A shallow embedding of [src/comotion/dash.py] and the properties of
    its four functions:

    - [upload_csv_to_dash]
    - [create_gzipped_csv_stream_from_df]
    - [read_and_upload_file_to_dash]
    - [upload_dataframe]

    The module is a thin layer over pandas, requests, gzip, logging and
    os.path.  The parts of those libraries the module calls are embedded
    next to the code that calls them, each with a note on what is kept and
    what is left out.

    Conventions.  A Python [str] is a [string] holding the UTF-8 encoding of
    the text, so [str.encode("utf-8")] is the identity on the underlying
    bytes; every character the code inspects (quote, comma, slash, percent,
    digits, newline) is ASCII and never occurs inside a multi-byte UTF-8
    sequence.  A Python [int] is a [Z].  [bytes] is [list byte].

    Scope.  The exceptions followed are those the module's own logic
    depends on: the HTTP error of [raise_for_status], a failed cast, a bad
    chunk size.  The network always answers with a response, the file
    system accepts every write, and the CSV source parses: a transport
    error, an unwritable directory or a malformed source would end a call
    at the library call that meets it and are not modelled.  Paths and line
    ends are those of POSIX.  Cells are integers or strings. *)

From Stdlib Require Import ZArith List String Ascii Lia Bool.
From Stdlib Require Import Strings.Byte.
From Stdlib Require Import Decimal DecimalString DecimalZ.
From stdpp Require Import gmap strings list.

Local Open Scope Z_scope.

Definition bytes := list byte.

(* ===================================================================== *)
(** * Python built-ins used by the module *)
(* ===================================================================== *)

Module Py.

(** [str(i)] for an int. *)
Definition str (i : Z) : string := NilZero.string_of_int (Z.to_int i).

(** [len(range(start, stop, step))], as CPython computes it; [None] is the
    [ValueError] of a zero step. *)
Definition range_len (start stop step : Z) : option Z :=
  if step =? 0 then None
  else if 0 <? step
       then Some (if start <? stop then (stop - start - 1) / step + 1 else 0)
       else Some (if stop <? start then (start - stop - 1) / (- step) + 1 else 0).

(** [list(range(start, stop, step))]. *)
Definition range (start stop step : Z) : option (list Z) :=
  match range_len start stop step with
  | None => None
  | Some n => Some (List.map (fun k => start + Z.of_nat k * step)
                             (List.seq 0 (Z.to_nat n)))
  end.

(** A slice bound is taken from the end when negative and clamped to the
    length ([PySlice_AdjustIndices], step 1). *)
Definition adjust_index (len i : Z) : Z :=
  if i <? 0 then Z.max 0 (i + len) else Z.min i len.

(** [l[i:j]]. *)
Definition slice {A} (l : list A) (i j : Z) : list A :=
  let len := Z.of_nat (length l) in
  let lo := adjust_index len i in
  let hi := adjust_index len j in
  firstn (Z.to_nat (hi - lo)) (skipn (Z.to_nat lo) l).

(** [enumerate(l)]. *)
Definition enumerate {A} (l : list A) : list (Z * A) :=
  combine (List.map Z.of_nat (List.seq 0 (length l))) l.

(** [os.path.join(a, b)] of posixpath, two arguments: an absolute [b]
    replaces [a]; otherwise a separator is put between the two unless [a]
    is empty or already ends with one. *)
Definition last_char (s : string) : option ascii :=
  String.get (String.length s - 1) s.

Definition startswith_sep (s : string) : bool :=
  match s with
  | String c _ => Ascii.eqb c "/"
  | EmptyString => false
  end.

Definition endswith_sep (s : string) : bool :=
  match s with
  | EmptyString => false
  | _ => match last_char s with
         | Some c => Ascii.eqb c "/"
         | None => false
         end
  end.

Definition join (a b : string) : string :=
  if startswith_sep b then b
  else if (String.eqb a EmptyString || endswith_sep a)%bool then a +:+ b
  else a +:+ "/" +:+ b.

End Py.

(* ===================================================================== *)
(** * Exceptions *)
(* ===================================================================== *)

(** The exceptions the module lets through, by the library that raises
    them. *)
Inductive Exn : Type :=
  | HTTPError (status_code : Z)   (* requests: raise_for_status *)
  | ValueError                    (* int() of a non-number; chunksize < 1; range step 0 *)
  | OverflowError                 (* astype: value outside int64 *)
  | KeyError.                     (* astype: dtypes names a missing column *)

Inductive result (A : Type) : Type :=
  | Ok (a : A)
  | Raise (e : Exn).
Arguments Ok {A} a.
Arguments Raise {A} e.

Definition rbind {A B} (r : result A) (k : A -> result B) : result B :=
  match r with
  | Ok a => k a
  | Raise e => Raise e
  end.

(** Left-to-right traversal that stops at the first exception. *)
Fixpoint rmap {A B} (f : A -> result B) (l : list A) : result (list B) :=
  match l with
  | [] => Ok []
  | a :: l' => rbind (f a) (fun b => rbind (rmap f l') (fun bs => Ok (b :: bs)))
  end.

(* ===================================================================== *)
(** * datetime *)
(* ===================================================================== *)

Record datetime : Type := {
  year : Z; month : Z; day : Z;
  hour : Z; minute : Z; second : Z; microsecond : Z
}.

Fixpoint zeros (n : nat) : string :=
  match n with
  | O => EmptyString
  | S n' => String "0" (zeros n')
  end.

(** [str(n).zfill(width)] for a non-negative field. *)
Definition zfill (width : nat) (n : Z) : string :=
  let s := Py.str n in
  zeros (width - String.length s) +:+ s.

(** One conversion of [strftime]; a character that is not one of the
    conversions below is left in place behind its percent sign. *)
Definition strftime_directive (d : datetime) (c : ascii) : string :=
  match c with
  | "Y"%char => zfill 4 (year d)
  | "m"%char => zfill 2 (month d)
  | "d"%char => zfill 2 (day d)
  | "H"%char => zfill 2 (hour d)
  | "M"%char => zfill 2 (minute d)
  | "S"%char => zfill 2 (second d)
  | "f"%char => zfill 6 (microsecond d)
  | "%"%char => "%"
  | _ => String "%" (String c EmptyString)
  end.

(** [d.strftime(fmt)]. *)
Fixpoint strftime (d : datetime) (fmt : string) : string :=
  match fmt with
  | EmptyString => EmptyString
  | String c rest =>
      match c, rest with
      | "%"%char, String k rest' => strftime_directive d k +:+ strftime d rest'
      | _, _ => String c (strftime d rest)
      end
  end.

(* ===================================================================== *)
(** * int(str) *)
(* ===================================================================== *)

Module PyInt.

(** The whitespace [int] skips in an ASCII string ([Py_ISSPACE]): tab to
    carriage return, and the space.  The separators 28..31, which
    [str.isspace] accepts, are not skipped. *)
Definition is_space (c : ascii) : bool :=
  let n := N_of_ascii c in
  ((9 <=? n) && (n <=? 13) || (n =? 32))%N.

Definition digit_of (c : ascii) : option Z :=
  let n := N_of_ascii c in
  if ((48 <=? n) && (n <=? 57))%N then Some (Z.of_N n - 48) else None.

Fixpoint lstrip (s : string) : string :=
  match s with
  | String c s' => if is_space c then lstrip s' else s
  | EmptyString => EmptyString
  end.

Fixpoint rstrip (s : string) : string :=
  match s with
  | String c s' =>
      match rstrip s' with
      | EmptyString => if is_space c then EmptyString else String c EmptyString
      | t => String c t
      end
  | EmptyString => EmptyString
  end.

(** Digits, with single underscores allowed between two digits.
    [after_digit] says whether the previous character was a digit. *)
Fixpoint digits (s : string) (acc : Z) (after_digit : bool) : option Z :=
  match s with
  | EmptyString => if after_digit then Some acc else None
  | String c s' =>
      match digit_of c with
      | Some d => digits s' (10 * acc + d) true
      | None =>
          if (Ascii.eqb c "_" && after_digit)%bool then digits s' acc false
          else None
      end
  end.

(** [int(s)], base 10, for ASCII input: surrounding whitespace, an
    optional sign, digits. *)
Definition parse (s : string) : option Z :=
  match rstrip (lstrip s) with
  | String "-" s' => option_map Z.opp (digits s' 0 false)
  | String "+" s' => digits s' 0 false
  | s' => digits s' 0 false
  end.

End PyInt.

(* ===================================================================== *)
(** * pandas: the DataFrame *)
(* ===================================================================== *)

(** A cell.  Integers stand for the numeric dtypes, strings for object
    columns; floating-point cells are outside the embedding. *)
Inductive Value : Type :=
  | VInt (z : Z)
  | VStr (s : string).

(** The table: column labels and the rows in index order, each row holding
    one cell per column. *)
Record DataFrame : Type := {
  df_columns : list string;
  df_rows : list (list Value)
}.

Definition well_formed (df : DataFrame) : Prop :=
  Forall (fun r => length r = length (df_columns df)) (df_rows df).

(** [df.shape[0]]. *)
Definition shape0 (df : DataFrame) : Z := Z.of_nat (length (df_rows df)).

(** [df[i:j]]: a slice of the rows, columns kept. *)
Definition df_slice (df : DataFrame) (i j : Z) : DataFrame :=
  {| df_columns := df_columns df; df_rows := Py.slice (df_rows df) i j |}.

Definition has_column (key : string) (df : DataFrame) : bool :=
  existsb (String.eqb key) (df_columns df).

(** Put [v] under every label equal to [key]. *)
Fixpoint overwrite (key : string) (v : Value) (cols : list string)
    (r : list Value) : list Value :=
  match cols, r with
  | c :: cols', x :: r' =>
      (if String.eqb c key then v else x) :: overwrite key v cols' r'
  | _, _ => r
  end.

(** [df[key] = v] for a scalar [v]: an existing column of that label is
    overwritten in place, a new label is appended as the last column. *)
Definition setitem (key : string) (v : Value) (df : DataFrame) : DataFrame :=
  if has_column key df
  then {| df_columns := df_columns df;
          df_rows := List.map (overwrite key v (df_columns df)) (df_rows df) |}
  else {| df_columns := df_columns df ++ [key];
          df_rows := List.map (fun r => r ++ [v]) (df_rows df) |}.

(** The dtypes the embedding knows: ["int"] (int64) and ["str"]. *)
Inductive DType : Type := DInt | DStr.

Definition int64_min : Z := - 2 ^ 63.
Definition int64_max : Z := 2 ^ 63 - 1.

(** Cast of one cell. *)
Definition cast (t : DType) (v : Value) : result Value :=
  match t, v with
  | DInt, VInt z => Ok (VInt z)
  | DInt, VStr s =>
      match PyInt.parse s with
      | None => Raise ValueError
      | Some z =>
          if (int64_min <=? z) && (z <=? int64_max) then Ok (VInt z)
          else Raise OverflowError
      end
  | DStr, VInt z => Ok (VStr (Py.str z))
  | DStr, VStr s => Ok (VStr s)
  end.

(** Cast of the column at position [j], top to bottom. *)
Definition cast_column (j : nat) (t : DType) (rs : list (list Value))
    : result (list (list Value)) :=
  rmap (fun r : list Value =>
          match r !! j with
          | Some v => rbind (cast t v) (fun v' => Ok (<[j := v']> r))
          | None => Ok r
          end) rs.

Fixpoint astype_columns (dtype : gmap string DType) (j : nat)
    (cols : list string) (rs : list (list Value)) : result (list (list Value)) :=
  match cols with
  | [] => Ok rs
  | c :: cols' =>
      match dtype !! c with
      | Some t => rbind (cast_column j t rs) (astype_columns dtype (S j) cols')
      | None => astype_columns dtype (S j) cols'  rs
      end
  end.

(** [df.astype(dtype=dtype)] for a label-to-dtype dict: every key must be
    a column; the columns are cast left to right; the result is a new
    frame. *)
Definition astype (dtype : gmap string DType) (df : DataFrame) : result DataFrame :=
  if forallb (fun k => has_column k df) (map_to_list dtype).*1
  then rbind (astype_columns dtype 0 (df_columns df) (df_rows df))
             (fun rs => Ok {| df_columns := df_columns df; df_rows := rs |})
  else Raise KeyError.

(* ===================================================================== *)
(** * pandas: to_csv with csv.QUOTE_NONNUMERIC *)
(* ===================================================================== *)

Module Csv.

Definition dquote : ascii := "034"%char.
Definition comma : ascii := ","%char.
Definition newline : ascii := "010"%char.

(** [os.linesep] on POSIX, the default line terminator of [to_csv]. *)
Definition lineterminator : string := String newline EmptyString.

(** [doublequote=True]: a quote character inside a field is written
    twice. *)
Fixpoint escape (s : string) : string :=
  match s with
  | EmptyString => EmptyString
  | String c s' =>
      if Ascii.eqb c dquote then String dquote (String dquote (escape s'))
      else String c (escape s')
  end.

Definition quoted (s : string) : string :=
  String dquote (escape s +:+ String dquote EmptyString).

(** QUOTE_NONNUMERIC: numbers as they print, everything else quoted. *)
Definition field (v : Value) : string :=
  match v with
  | VInt z => Py.str z
  | VStr s => quoted s
  end.

Fixpoint join_fields (fs : list string) : string :=
  match fs with
  | [] => EmptyString
  | [f] => f
  | f :: fs' => f +:+ String comma (join_fields fs')
  end.

Definition writerow (fs : list string) : string :=
  join_fields fs +:+ lineterminator.

Fixpoint writerows (rs : list (list Value)) : string :=
  match rs with
  | [] => EmptyString
  | r :: rs' => writerow (List.map field r) +:+ writerows rs'
  end.

(** [df.to_csv(index=False, quoting=csv.QUOTE_NONNUMERIC)]: the header
    line of column labels, then one line per row; no index column. *)
Definition to_csv (df : DataFrame) : string :=
  writerow (List.map quoted (df_columns df)) +:+ writerows (df_rows df).

End Csv.

(* ===================================================================== *)
(** * pandas: chunked reading and row slicing *)
(* ===================================================================== *)

(** The iterator [pd.read_csv(file, chunksize=c)] returns.  The source is
    represented by the table pandas parses from it: the header labels and
    the data rows not yet handed out.  [tfr_first_chunk] is the parser's
    flag of the same name: the first read of a source that has no data
    rows returns an empty frame instead of stopping, as for a read without
    chunksize. *)
Record TextFileReader : Type := {
  tfr_columns : list string;
  tfr_rows : list (list Value);
  tfr_chunksize : nat;
  tfr_first_chunk : bool
}.

(** [pd.read_csv(file, chunksize=chunksize)]: chunksize must be an integer
    >= 1. *)
Definition read_csv (file : DataFrame) (chunksize : Z) : result TextFileReader :=
  if chunksize <? 1 then Raise ValueError
  else Ok {| tfr_columns := df_columns file;
             tfr_rows := df_rows file;
             tfr_chunksize := Z.to_nat chunksize;
             tfr_first_chunk := true |}.

(** [next(file_reader)]; [None] is StopIteration. *)
Definition reader_next (r : TextFileReader) : option (DataFrame * TextFileReader) :=
  match tfr_rows r with
  | [] =>
      if tfr_first_chunk r
      then Some ({| df_columns := tfr_columns r; df_rows := [] |},
                 {| tfr_columns := tfr_columns r; tfr_rows := [];
                    tfr_chunksize := tfr_chunksize r; tfr_first_chunk := false |})
      else None
  | _ =>
      Some ({| df_columns := tfr_columns r;
               df_rows := firstn (tfr_chunksize r) (tfr_rows r) |},
            {| tfr_columns := tfr_columns r;
               tfr_rows := skipn (tfr_chunksize r) (tfr_rows r);
               tfr_chunksize := tfr_chunksize r; tfr_first_chunk := false |})
  end.

(** The chunks [for file_df in file_reader] goes through, with at most
    [fuel] calls of next. *)
Fixpoint reader_iter (fuel : nat) (r : TextFileReader) : list DataFrame :=
  match fuel with
  | O => []
  | S fuel' =>
      match reader_next r with
      | None => []
      | Some (chunk, r') => chunk :: reader_iter fuel' r'
      end
  end.

(** Each call of next but the last consumes a row, so two calls more than
    there are rows reach StopIteration ([reader_iter_stable]). *)
Definition reader_chunks (r : TextFileReader) : list DataFrame :=
  reader_iter (2 + length (tfr_rows r)) r.

(** [[dataframe[i:i+chunksize] for i in range(0, dataframe.shape[0], chunksize)]]. *)
Definition data_chunks (dataframe : DataFrame) (chunksize : Z) : result (list DataFrame) :=
  match Py.range 0 (shape0 dataframe) chunksize with
  | None => Raise ValueError
  | Some starts =>
      Ok (List.map (fun i => df_slice dataframe i (i + chunksize)) starts)
  end.

(* ===================================================================== *)
(** * gzip *)
(* ===================================================================== *)

(** zlib's DEFLATE coder is not part of the module; the embedding is
    parametric in it. *)
Record Zlib : Type := {
  deflate : bytes -> bytes;
  inflate : bytes -> option bytes
}.

Definition zlib_correct (zl : Zlib) : Prop :=
  forall data, inflate zl (deflate zl data) = Some data.

Module Gzip.

Definition byte_of_Z (z : Z) : byte :=
  match Byte.of_N (Z.to_N (z mod 256)) with
  | Some b => b
  | None => x00
  end.

Definition Z_of_byte (b : byte) : Z := Z.of_N (Byte.to_N b).

(** [struct.pack("<L", z)]. *)
Definition le32 (z : Z) : bytes :=
  [byte_of_Z z; byte_of_Z (Z.shiftr z 8);
   byte_of_Z (Z.shiftr z 16); byte_of_Z (Z.shiftr z 24)].

(** [struct.unpack("<L", bs)]. *)
Definition le32_decode (bs : bytes) : option Z :=
  match bs with
  | [b0; b1; b2; b3] =>
      Some (Z_of_byte b0 + Z.shiftl (Z_of_byte b1) 8
            + Z.shiftl (Z_of_byte b2) 16 + Z.shiftl (Z_of_byte b3) 24)
  | _ => None
  end.

(** CRC-32 (polynomial 0xEDB88320, reflected), bit by bit. *)
Definition crc_step (c : Z) : Z :=
  if Z.testbit c 0 then Z.lxor (Z.shiftr c 1) 0xEDB88320 else Z.shiftr c 1.

Definition crc_byte (c : Z) (b : byte) : Z :=
  Nat.iter 8 crc_step (Z.lxor c (Z_of_byte b)).

Definition crc32 (data : bytes) : Z :=
  Z.lxor (fold_left crc_byte data 0xFFFFFFFF) 0xFFFFFFFF.

(** The ten-byte member header [GzipFile] writes for a stream without a
    name at compression level 9: magic, method 8 (deflate), no flags,
    MTIME, XFL 2, OS 255. *)
Definition header (mtime : Z) : bytes :=
  [x1f; x8b; x08; x00] ++ le32 mtime ++ [x02; xff].

(** CRC-32 and length (mod 2^32) of the uncompressed data. *)
Definition trailer (data : bytes) : bytes :=
  le32 (crc32 data) ++ le32 (Z.of_nat (length data)).

(** The member [GzipFile(fileobj=buf, mode="wb")] leaves in [buf] after
    [data] is written and the file is closed; [mtime] is the value of
    [time.time()] when the file is opened. *)
Definition compress (zl : Zlib) (mtime : Z) (data : bytes) : bytes :=
  header mtime ++ deflate zl data ++ trailer data.

(** [gzip.decompress]: one member without optional header fields. *)
Definition decompress (zl : Zlib) (buf : bytes) : option bytes :=
  match buf with
  | b0 :: b1 :: b2 :: b3 :: _ :: _ :: _ :: _ :: _ :: _ :: rest =>
      if (Byte.eqb b0 x1f && Byte.eqb b1 x8b && Byte.eqb b2 x08 && Byte.eqb b3 x00)%bool
      then
        let n := (length rest - 8)%nat in
        match inflate zl (firstn n rest) with
        | Some data =>
            match le32_decode (firstn 4 (skipn n rest)),
                  le32_decode (skipn 4 (skipn n rest)) with
            | Some crc, Some isize =>
                if (crc =? crc32 data) && (isize =? Z.of_nat (length data) mod 2 ^ 32)
                then Some data else None
            | _, _ => None
            end
        | None => None
        end
      else None
  | _ => None
  end.

(** The MTIME field of a member. *)
Definition mtime_of (buf : bytes) : option Z :=
  le32_decode (firstn 4 (skipn 4 buf)).

End Gzip.

(* ===================================================================== *)
(** * The world the module acts on *)
(* ===================================================================== *)

Record Request : Type := {
  req_method : string;
  req_url : string;
  req_headers : list (string * string);
  req_data : bytes
}.

Record Response : Type := {
  status_code : Z;
  text : string
}.

(** What a call leaves behind, in the order it happens. *)
Inductive Event : Type :=
  | Sent (req : Request) (resp : Response)        (* requests.request *)
  | FileWritten (path : string) (content : bytes) (* open(path, "wb"); f.write(content) *)
  | LogOpened (path : string)                     (* logging.FileHandler(path) *)
  | LogLine (path : string) (line : string).      (* a record emitted to a handler *)

(** What the module cannot decide: the answer of the Dash API to a request
    (it may depend on everything that happened before) and what the clock
    shows at each reading ([datetime.now()] and [time.time()]). *)
Record Env : Type := {
  server : list Event -> Request -> Response;
  now : nat -> datetime;
  time : nat -> Z
}.

(** - [heap]: the DataFrame objects alive, by identity; a Python variable
      holding a frame holds a key of this map, so that two names for one
      object see each other's mutations;
    - [handlers]: the file handlers attached to the module's logger, which
      is process-wide and outlives a call;
    - [trace]: the events so far, oldest first;
    - [ticks]: how often the clock was read. *)
Record World : Type := {
  heap : gmap nat DataFrame;
  handlers : list string;
  trace : list Event;
  ticks : nat
}.

Definition emit (evs : list Event) (w : World) : World :=
  {| heap := heap w; handlers := handlers w;
     trace := trace w ++ evs; ticks := ticks w |}.

Definition tick (w : World) : World :=
  {| heap := heap w; handlers := handlers w;
     trace := trace w; ticks := S (ticks w) |}.

Definition set_heap (h : gmap nat DataFrame) (w : World) : World :=
  {| heap := h; handlers := handlers w; trace := trace w; ticks := ticks w |}.

Definition add_handler (path : string) (w : World) : World :=
  {| heap := heap w; handlers := handlers w ++ [path];
     trace := trace w; ticks := ticks w |}.

(** The requests sent, the chunk files written and the log lines, read off
    a trace. *)
Definition sent (tr : list Event) : list (Request * Response) :=
  omap (fun ev => match ev with Sent q r => Some (q, r) | _ => None end) tr.

Definition files_written (tr : list Event) : list (string * bytes) :=
  omap (fun ev => match ev with FileWritten p c => Some (p, c) | _ => None end) tr.

Definition log_lines (tr : list Event) : list (string * string) :=
  omap (fun ev => match ev with LogLine p l => Some (p, l) | _ => None end) tr.

(** ** Computations: state passing with exceptions

    A computation takes the world and returns the world it leaves and
    either a value or the exception that ended it.  The world is returned
    in both cases: what was done before an exception stays done. *)

Definition M (A : Type) : Type := World -> World * result A.

Definition ret {A} (a : A) : M A := fun w => (w, Ok a).

Definition bind {A B} (m : M A) (k : A -> M B) : M B :=
  fun w =>
    match m w with
    | (w', Ok a) => k a w'
    | (w', Raise e) => (w', Raise e)
    end.

Definition lift {A} (r : result A) : M A := fun w => (w, r).

Declare Scope comp_scope.
Delimit Scope comp_scope with comp.
Notation "x <- m ;; k" := (bind m (fun x => k))
  (at level 100, m at next level, right associativity) : comp_scope.
Notation "m ;;; k" := (bind m (fun _ => k))
  (at level 100, right associativity) : comp_scope.

(** [for x in l: acc = body(acc, x)], ended by the first exception. *)
Fixpoint for_each {A S} (body : S -> A -> M S) (l : list A) (acc : S) : M S :=
  match l with
  | [] => ret acc
  | x :: l' => bind (body acc x) (for_each body l')
  end.

(* ===================================================================== *)
(** * src/comotion/dash.py *)
(* ===================================================================== *)

Section Dash.

Variable zl : Zlib.
Variable env : Env.

Local Open Scope comp_scope.

(** ** Library calls with an effect *)

(** [datetime.now()]. *)
Definition datetime_now : M datetime :=
  fun w => (tick w, Ok (now env (ticks w))).

(** [time.time()], in whole seconds. *)
Definition time_time : M Z :=
  fun w => (tick w, Ok (time env (ticks w))).

(** [requests.request(method, url, headers=headers, data=data)]. *)
Definition requests_request (method url : string)
    (headers : list (string * string)) (data : bytes) : M Response :=
  fun w =>
    let req := {| req_method := method; req_url := url;
                  req_headers := headers; req_data := data |} in
    let resp := server env (trace w) req in
    (emit [Sent req resp] w, Ok resp).

(** [response.raise_for_status()]: HTTPError for a client error (4xx) or a
    server error (5xx), nothing otherwise. *)
Definition raise_for_status (response : Response) : M unit :=
  let s := status_code response in
  if ((400 <=? s) && (s <? 500))%bool then lift (Raise (HTTPError s))
  else if ((500 <=? s) && (s <? 600))%bool then lift (Raise (HTTPError s))
  else ret tt.

(** [with open(path, "wb") as f: f.write(content)]. *)
Definition write_file (path : string) (content : bytes) : M unit :=
  fun w => (emit [FileWritten path content] w, Ok tt).

(** [logger.addHandler(logging.FileHandler(path))]: the file is opened for
    appending and the handler stays attached to the logger. *)
Definition logger_addHandler (path : string) : M unit :=
  fun w => (add_handler path (emit [LogOpened path] w), Ok tt).

Definition ljust (width : nat) (s : string) : string :=
  s +:+ string_of_list_ascii (repeat " "%char (width - String.length s)).

(** [__name__] of the module. *)
Definition logger_name : string := "comotion.dash".

(** The formatter of [upload_dataframe]:
    ['%(asctime)s - %(name)-12s %(levelname)-8s %(message)s'] with
    [datefmt='%Y-%m-%d,%H:%M:%S']. *)
Definition format_record (created : datetime) (levelname message : string) : string :=
  strftime created "%Y-%m-%d,%H:%M:%S" +:+ " - " +:+ ljust 12 logger_name
    +:+ " " +:+ ljust 8 levelname +:+ " " +:+ message.

(** [logger.info(message)] at level INFO: the record is stamped with the
    time and goes to every handler attached. *)
Definition logger_info (message : string) : M unit :=
  created <- datetime_now ;;
  fun w =>
    let line := format_record created "INFO" message in
    (emit (List.map (fun p => LogLine p line) (handlers w)) w, Ok tt).

(** Reading, replacing and creating frame objects. *)
Definition heap_get (ref : nat) : M DataFrame :=
  fun w => (w, Ok (default {| df_columns := []; df_rows := [] |} (heap w !! ref))).

Definition heap_set (ref : nat) (df : DataFrame) : M unit :=
  fun w => (set_heap (<[ref := df]> (heap w)) w, Ok tt).

Definition heap_new (df : DataFrame) : M nat :=
  fun w =>
    let ref := fresh (dom (heap w)) in
    (set_heap (<[ref := df]> (heap w)) w, Ok ref).

(** ** upload_csv_to_dash *)

Definition url : string := "https://api.comodash.io/v1/data-input-file".

Definition upload_csv_to_dash (dash_orgname dash_api_key dash_table : string)
    (csv_gz_stream : bytes) : M Response :=
  let headers :=
    [("Content-Type", "application/gzip");
     ("service_client_id", "0");
     ("x-api-key", dash_api_key);
     ("org-name", dash_orgname);
     ("table-name", dash_table)] in
  dash_response <- requests_request "POST" url headers csv_gz_stream ;;
  raise_for_status dash_response ;;;
  ret dash_response.

(** ** create_gzipped_csv_stream_from_df

    [df.to_csv(csv_stream, compression="gzip", encoding="utf-8",
    index=False, quoting=csv.QUOTE_NONNUMERIC)]: pandas wraps the stream in
    a [GzipFile] opened without an mtime, which therefore stamps the
    member with the current time, and writes the encoded CSV text into
    it.  The value is the content of the stream. *)
Definition create_gzipped_csv_stream_from_df (df : DataFrame) : M bytes :=
  mtime <- time_time ;;
  ret (Gzip.compress zl mtime (list_byte_of_string (Csv.to_csv df))).

(** ** read_and_upload_file_to_dash

    [file] is the table the CSV source holds.  [modify_lambda] changes the
    chunk it is given in place and its return value is dropped, so it is
    a function from the chunk before to the chunk after. *)

Definition chunk_file_name (dash_table : string) (i : Z) : string :=
  dash_table +:+ "." +:+ Py.str i +:+ ".csv.gz".

Definition read_and_upload_file_to_dash_body
    (dash_table dash_orgname dash_api_key : string)
    (modify_lambda : option (DataFrame -> DataFrame))
    (path_to_output_for_dryrun : option string)
    (st : Z * list string) (file_df : DataFrame) : M (Z * list string) :=
  let '(i, responses) := st in
  let file_df := match modify_lambda with
                 | Some f => f file_df
                 | None => file_df
                 end in
  csv_stream <- create_gzipped_csv_stream_from_df file_df ;;
  responses <-
    match path_to_output_for_dryrun with
    | None =>
        response <- upload_csv_to_dash dash_orgname dash_api_key dash_table csv_stream ;;
        ret (responses ++ [text response])
    | Some dir =>
        write_file (Py.join dir (chunk_file_name dash_table i)) csv_stream ;;;
        ret responses
    end ;;
  ret (i + 1, responses).

Definition read_and_upload_file_to_dash
    (file : DataFrame) (dash_table dash_orgname dash_api_key : string)
    (chunksize : Z)
    (modify_lambda : option (DataFrame -> DataFrame))
    (path_to_output_for_dryrun : option string) : M (list string) :=
  file_reader <- lift (read_csv file chunksize) ;;
  st <- for_each
          (read_and_upload_file_to_dash_body dash_table dash_orgname dash_api_key
             modify_lambda path_to_output_for_dryrun)
          (reader_chunks file_reader) (1, []) ;;
  ret (snd st).

(** ** upload_dataframe

    [dataframe] is the caller's frame object.  [if dtypes:] holds for a
    dict that is neither None nor empty.  The progress bar of [tqdm] goes
    to the terminal and hands the chunks through unchanged. *)

Definition truthy (dtypes : option (gmap string DType)) : option (gmap string DType) :=
  match dtypes with
  | Some d => if decide (d = ∅) then None else Some d
  | None => None
  end.

Definition snapshot_format : string := "%Y-%m-%d %H:%M:%S.%f".

Definition upload_dataframe_body
    (dash_table dash_orgname dash_api_key : string)
    (path_to_output_for_dryrun : option string)
    (_ : unit) (item : Z * DataFrame) : M unit :=
  let '(i, chunk) := item in
  csv_stream <- create_gzipped_csv_stream_from_df chunk ;;
  match path_to_output_for_dryrun with
  | None =>
      response <- upload_csv_to_dash dash_orgname dash_api_key dash_table csv_stream ;;
      logger_info (text response)
  | Some dir =>
      write_file (Py.join dir (chunk_file_name dash_table i)) csv_stream
  end.

Definition upload_dataframe
    (dataframe : nat) (dash_table dash_orgname dash_api_key : string)
    (dtypes : option (gmap string DType)) (chunksize : Z)
    (path_to_output_for_dryrun : option string)
    (include_snapshot : bool) : M unit :=
  snapshot_timestamp <- datetime_now ;;
  let log_file :=
    dash_table +:+ "_" +:+ strftime snapshot_timestamp "%Y%m%d%H%M" +:+ ".log" in
  logger_addHandler log_file ;;;
  dataframe <-
    match truthy dtypes with
    | Some d =>
        df <- heap_get dataframe ;;
        df' <- lift (astype d df) ;;
        heap_new df'
    | None => ret dataframe
    end ;;
  (if include_snapshot
   then df <- heap_get dataframe ;;
        heap_set dataframe
          (setitem "snapshot_timestamp"
             (VStr (strftime snapshot_timestamp snapshot_format)) df)
   else ret tt) ;;;
  df <- heap_get dataframe ;;
  chunks <- lift (data_chunks df chunksize) ;;
  for_each
    (upload_dataframe_body dash_table dash_orgname dash_api_key
       path_to_output_for_dryrun)
    (Py.enumerate chunks) tt.

End Dash.

(* ===================================================================== *)
(** * A DEFLATE coder to run the embedding with *)
(* ===================================================================== *)

(** DEFLATE restricted to stored blocks (RFC 1951, 3.2.4): the stream zlib
    produces at level 0.  pandas asks for level 9, whose output is a
    different encoding of the same data; this coder is used where a
    statement is evaluated on concrete input. *)
Module Stored.

Definition block_max : Z := 65535.

Definition le16 (z : Z) : bytes :=
  [Gzip.byte_of_Z z; Gzip.byte_of_Z (Z.shiftr z 8)].

Definition le16_decode (b0 b1 : byte) : Z :=
  Gzip.Z_of_byte b0 + Z.shiftl (Gzip.Z_of_byte b1) 8.

Fixpoint blocks (fuel : nat) (data : bytes) : bytes :=
  match fuel with
  | O => []
  | S fuel' =>
      let len := Z.of_nat (length data) in
      if len <=? block_max
      then x01 :: le16 len ++ le16 (block_max - len) ++ data
      else x00 :: le16 block_max ++ le16 0
             ++ firstn (Z.to_nat block_max) data
             ++ blocks fuel' (skipn (Z.to_nat block_max) data)
  end.

Definition deflate (data : bytes) : bytes := blocks (S (length data)) data.

Fixpoint unblocks (fuel : nat) (buf : bytes) : option bytes :=
  match fuel with
  | O => None
  | S fuel' =>
      match buf with
      | h :: l0 :: l1 :: n0 :: n1 :: rest =>
          let len := le16_decode l0 l1 in
          if negb (len + le16_decode n0 n1 =? block_max) then None
          else if Byte.eqb h x01
          then if Z.of_nat (length rest) =? len then Some rest else None
          else if Byte.eqb h x00
          then if len <=? Z.of_nat (length rest)
               then option_map (app (firstn (Z.to_nat len) rest))
                               (unblocks fuel' (skipn (Z.to_nat len) rest))
               else None
          else None
      | _ => None
      end
  end.

Definition inflate (buf : bytes) : option bytes := unblocks (length buf) buf.

Definition zlib : Zlib := Build_Zlib deflate inflate.

End Stored.

(* ===================================================================== *)
(** * The embedding on concrete inputs *)
(* ===================================================================== *)

(* ===================================================================== *)
(** * Vocabulary of the statements *)
(* ===================================================================== *)

(** [ceil(n / c)] for [c > 0]. *)
Definition ceil_div (n c : Z) : Z := (n + c - 1) / c.

(** The request [upload_csv_to_dash] sends for a payload. *)
Definition dash_request (dash_orgname dash_api_key dash_table : string)
    (payload : bytes) : Request :=
  {| req_method := "POST";
     req_url := "https://api.comodash.io/v1/data-input-file";
     req_headers := [("Content-Type", "application/gzip");
                     ("service_client_id", "0");
                     ("x-api-key", dash_api_key);
                     ("org-name", dash_orgname);
                     ("table-name", dash_table)];
     req_data := payload |}.

(** The statuses [raise_for_status] turns into an exception. *)
Definition is_error (s : Z) : bool := (400 <=? s) && (s <? 600).

Definition is_2xx (s : Z) : bool := (200 <=? s) && (s <? 300).

(** A computation leaves an observation of the world as it found it. *)
Definition keeps {T A} (obs : World -> T) (m : M A) : Prop :=
  forall w, obs (fst (m w)) = obs w.

Definition requests_of (w : World) : list (Request * Response) := sent (trace w).
Definition files_of (w : World) : list (string * bytes) := files_written (trace w).

(** ** Frames and worlds to evaluate the embedding in *)

(** One column [a] holding 0, 1, ..., n - 1. *)
Definition counting_frame (n : nat) : DataFrame :=
  {| df_columns := ["a"];
     df_rows := List.map (fun k => [VInt (Z.of_nat k)]) (List.seq 0 n) |}.

Definition chunk_sizes (cs : list DataFrame) : list nat :=
  List.map (fun c => length (df_rows c)) cs.

(** A clock that advances one second per reading. *)
Definition test_now (n : nat) : datetime :=
  {| year := 2024; month := 3; day := 9; hour := 7; minute := 5;
     second := Z.of_nat n; microsecond := 42 |}.

Definition test_time (n : nat) : Z := 1700000000 + Z.of_nat n.

(** A server that answers every request with the same status. *)
Definition constant_server (status : Z) : Env :=
  {| server := fun _ _ => {| status_code := status; text := "body" |};
     now := test_now; time := test_time |}.

(** A server that accepts the first [n] requests and answers the others
    with 500. *)
Definition failing_after (n : nat) : Env :=
  {| server := fun tr _ =>
       if (length (sent tr) <? n)%nat
       then {| status_code := 200;
               text := "ok " +:+ Py.str (Z.of_nat (length (sent tr))) |}
       else {| status_code := 500; text := "error" |};
     now := test_now; time := test_time |}.

Definition empty_world : World :=
  {| heap := ∅; handlers := []; trace := []; ticks := 0 |}.

(** A world where the caller holds [df] under the name [ref]. *)
Definition world_with (ref : nat) (df : DataFrame) : World :=
  {| heap := {[ref := df]}; handlers := []; trace := []; ticks := 0 |}.

(** ** Chunking *)

(** The rows [k*c, (k+1)*c) of [l], as far as they exist. *)
Definition nth_chunk_rows {A} (c : nat) (l : list A) (k : nat) : list A :=
  firstn c (skipn (k * c) l).

(** [cs] cuts [df] into consecutive pieces of at most [c] rows: every
    chunk has the columns of [df], the k-th chunk holds the rows from
    [k*c] on, and the chunks put end to end are the rows of [df]. *)
Definition cuts (df : DataFrame) (c : Z) (cs : list DataFrame) : Prop :=
  Forall (fun chunk => df_columns chunk = df_columns df /\
                       Z.of_nat (length (df_rows chunk)) <= c) cs /\
  (forall k chunk, cs !! k = Some chunk ->
                   df_rows chunk = nth_chunk_rows (Z.to_nat c) (df_rows df) k) /\
  concat (List.map df_rows cs) = df_rows df.

(** ** Reading CSV text back

    The reader of the [csv] module with QUOTE_NONNUMERIC, written as the
    state machine over the characters it is: a field in quotes is a string
    (a doubled quote inside stands for one), a field without quotes is a
    number.  It is the reference against which the text [to_csv] writes is
    judged; the module itself never reads CSV text other than through
    pandas. *)
Module CsvReader.

Inductive State : Type :=
  | StartRecord                      (* at the beginning of a line *)
  | StartField                       (* after a comma *)
  | InQuoted (acc : string)          (* inside quotes *)
  | QuoteInQuoted (acc : string)     (* after a quote inside quotes *)
  | InUnquoted (acc : string).       (* inside a field without quotes *)

(** The state, the fields of the current line, the lines read. *)
Definition Config : Type := State * list Value * list (list Value).

Definition snoc (s : string) (c : ascii) : string := s +:+ String c EmptyString.

Definition number (s : string) : option Value :=
  option_map (fun d => VInt (Z.of_int d)) (NilZero.int_of_string s).

(** The field that ends where the state is left by a separator. *)
Definition complete (st : State) : option Value :=
  match st with
  | QuoteInQuoted acc => Some (VStr acc)
  | InUnquoted acc => number acc
  | _ => None
  end.

Definition step (cfg : Config) (c : ascii) : option Config :=
  let '(st, row, rows) := cfg in
  if Ascii.eqb c Csv.dquote then
    match st with
    | StartRecord | StartField => Some (InQuoted EmptyString, row, rows)
    | InQuoted acc => Some (QuoteInQuoted acc, row, rows)
    | QuoteInQuoted acc => Some (InQuoted (snoc acc c), row, rows)
    | InUnquoted _ => None
    end
  else if Ascii.eqb c Csv.comma then
    match st with
    | InQuoted acc => Some (InQuoted (snoc acc c), row, rows)
    | _ => option_map (fun v => (StartField, row ++ [v], rows)) (complete st)
    end
  else if Ascii.eqb c Csv.newline then
    match st with
    | InQuoted acc => Some (InQuoted (snoc acc c), row, rows)
    | StartRecord => Some (StartRecord, [], rows ++ [row])
    | _ => option_map (fun v => (StartRecord, [], rows ++ [row ++ [v]])) (complete st)
    end
  else
    match st with
    | StartRecord | StartField => Some (InUnquoted (String c EmptyString), row, rows)
    | InQuoted acc => Some (InQuoted (snoc acc c), row, rows)
    | QuoteInQuoted _ => None
    | InUnquoted acc => Some (InUnquoted (snoc acc c), row, rows)
    end.

Fixpoint run (s : string) (cfg : Config) : option Config :=
  match s with
  | EmptyString => Some cfg
  | String c s' =>
      match step cfg c with
      | Some cfg' => run s' cfg'
      | None => None
      end
  end.

(** The states in which a field begins. *)
Definition at_start (st : State) : Prop := st = StartRecord \/ st = StartField.

(** All lines of a text; every line must be terminated. *)
Definition records (s : string) : option (list (list Value)) :=
  match run s (StartRecord, [], []) with
  | Some (StartRecord, [], rows) => Some rows
  | _ => None
  end.

Fixpoint labels (row : list Value) : option (list string) :=
  match row with
  | [] => Some []
  | VStr s :: row' => option_map (cons s) (labels row')
  | VInt _ :: _ => None
  end.

(** The table of a text: the first line holds the labels, in quotes. *)
Definition read (s : string) : option DataFrame :=
  match records s with
  | Some (header :: rows) =>
      option_map (fun cols => {| df_columns := cols; df_rows := rows |})
                 (labels header)
  | _ => None
  end.

End CsvReader.

(** A character that neither opens a quoted field nor ends a field. *)
Definition plain (c : ascii) : bool :=
  negb (Ascii.eqb c Csv.dquote) && negb (Ascii.eqb c Csv.comma)
  && negb (Ascii.eqb c Csv.newline).

Fixpoint all_plain (s : string) : bool :=
  match s with
  | EmptyString => true
  | String c s' => plain c && all_plain s'
  end.

(** ** What a call does, as lists

    The statements about the two entry points say what a call adds to the
    trace.  The lists below spell that out chunk by chunk; the theorems
    show that the code produces them. *)

(** The chunk after [modify_lambda] has seen it. *)
Definition modified (modify_lambda : option (DataFrame -> DataFrame))
    (chunk : DataFrame) : DataFrame :=
  match modify_lambda with
  | Some f => f chunk
  | None => chunk
  end.

Definition file_event (f : string * bytes) : Event := FileWritten (fst f) (snd f).

Section Runs.

Variable zl : Zlib.
Variable env : Env.

(** The payload of a chunk serialized when the clock has been read [t]
    times. *)
Definition payload (t : nat) (chunk : DataFrame) : bytes :=
  Gzip.compress zl (time env t) (list_byte_of_string (Csv.to_csv chunk)).

(** Dry run: one file per chunk, numbered from [i] on. *)
Fixpoint chunk_files (dir table : string) (i : Z) (t : nat)
    (chunks : list DataFrame) : list (string * bytes) :=
  match chunks with
  | [] => []
  | chunk :: chunks' =>
      (Py.join dir (table +:+ "." +:+ Py.str i +:+ ".csv.gz"), payload t chunk)
      :: chunk_files dir table (i + 1) (S t) chunks'
  end.

(** Upload: a request per chunk up to and including the first that is
    answered with an error status.  [logs t resp] are the events that
    follow an accepted request and [stride] the clock readings per
    accepted chunk. *)
Fixpoint upload_events (org key table : string)
    (logs : nat -> Response -> list Event) (stride : nat)
    (tr : list Event) (t : nat) (chunks : list DataFrame) : list Event :=
  match chunks with
  | [] => []
  | chunk :: chunks' =>
      let req := dash_request org key table (payload t chunk) in
      let resp := server env tr req in
      if is_error (status_code resp) then [Sent req resp]
      else (Sent req resp :: logs t resp)
             ++ upload_events org key table logs stride
                  (tr ++ Sent req resp :: logs t resp) (t + stride) chunks'
  end.

Definition failed (x : Request * Response) : bool := is_error (status_code (snd x)).

(** The exception a run of uploads ends with, if any. *)
Definition upload_error (evs : list Event) : option Exn :=
  option_map (fun x => HTTPError (status_code (snd x))) (List.find failed (sent evs)).

(** The clock readings of a run of uploads. *)
Definition upload_ticks (stride : nat) (evs : list Event) : nat :=
  length (sent evs)
  + (stride - 1) * length (List.filter (fun x => negb (failed x)) (sent evs)).

Definition no_logs (t : nat) (resp : Response) : list Event := [].

(** The lines [logger.info(response.text)] adds, one per handler. *)
Definition info_logs (hs : list string) (t : nat) (resp : Response) : list Event :=
  List.map (fun p => LogLine p (format_record (now env (S t)) "INFO" (text resp))) hs.

(** The frame [upload_dataframe] cuts into chunks: cast when dtypes is
    given, then the snapshot column when asked for. *)
Definition snapshot_value (snapshot : datetime) : Value :=
  VStr (strftime snapshot "%Y-%m-%d %H:%M:%S.%f").

Definition prepared (snapshot : datetime) (dtypes : option (gmap string DType))
    (include_snapshot : bool) (df : DataFrame) : result DataFrame :=
  rbind (match truthy dtypes with
         | Some d => astype d df
         | None => Ok df
         end)
        (fun df1 => Ok (if include_snapshot
                        then setitem "snapshot_timestamp" (snapshot_value snapshot) df1
                        else df1)).

(** The frame objects after the preparation: a cast makes a new object,
    the snapshot column goes into the object at hand. *)
Definition heap_prepared (ref : nat) (dtypes : option (gmap string DType))
    (include_snapshot : bool) (df' : DataFrame) (h : gmap nat DataFrame)
    : gmap nat DataFrame :=
  match truthy dtypes with
  | Some _ => <[fresh (dom h) := df']> h
  | None => if include_snapshot then <[ref := df']> h else h
  end.

Definition log_file_name (table : string) (snapshot : datetime) : string :=
  table +:+ "_" +:+ strftime snapshot "%Y%m%d%H%M" +:+ ".log".

(** The frame the caller's name [ref] stands for. *)
Definition frame_at (ref : nat) (w : World) : DataFrame :=
  default {| df_columns := []; df_rows := [] |} (heap w !! ref).

End Runs.

(** The world [upload_dataframe] enters its loop in: the clock was read
    once, the log file is open and its handler attached, the frame is
    prepared. *)
Definition world_prepared (env : Env) (ref : nat) (table : string)
    (dtypes : option (gmap string DType)) (include_snapshot : bool)
    (df' : DataFrame) (w : World) : World :=
  let log := log_file_name table (now env (ticks w)) in
  {| heap := heap_prepared ref dtypes include_snapshot df' (heap w);
     handlers := handlers w ++ [log];
     trace := trace w ++ [LogOpened log];
     ticks := S (ticks w) |}.

(** The requests sent since the trace was [tr0]. *)
Definition requests_since (tr0 tr : list Event) : list (Request * Response) :=
  drop (length (sent tr0)) (sent tr).

(** The files written since the trace was [tr0]. *)
Definition files_since (tr0 tr : list Event) : list (string * bytes) :=
  drop (length (files_written tr0)) (files_written tr).

(** ** Text to compare what is written with *)

(** [s] between quotation marks. *)
Definition in_quotes (s : string) : string :=
  String "034" (s +:+ String "034" EmptyString).

(** Lines, each ended by a newline. *)
Definition lines (ls : list string) : string :=
  String.concat EmptyString (List.map (fun l => l +:+ String "010" EmptyString) ls).

(** Two string columns, [a] holding digits. *)
Definition digits_frame : DataFrame :=
  {| df_columns := ["a"; "b"];
     df_rows := [[VStr "1"; VStr "x"]; [VStr "2"; VStr "y"]] |}.

(** The decompressed text of the files written. *)
Definition texts_written (zl : Zlib) (w : World) : list (string * option string) :=
  List.map (fun f => (fst f, option_map string_of_list_byte (Gzip.decompress zl (snd f))))
           (files_written (trace w)).

(** ** Well-formed UTF-8

    The decoder of RFC 3629 as a state machine over bytes: shortest
    encodings only, no surrogates, nothing above U+10FFFF.  A [string]
    stands for Python text when it is accepted. *)
Module Utf8.

Inductive State : Type :=
  | Start                   (* between characters *)
  | Cont1 | Cont2 | Cont3   (* that many continuation bytes to come *)
  | AfterE0 | AfterED       (* first continuation byte restricted, one more to come *)
  | AfterF0 | AfterF4.      (* first continuation byte restricted, two more to come *)

Definition between (lo hi b : N) : bool := ((lo <=? b) && (b <=? hi))%N.

Definition step (st : State) (c : ascii) : option State :=
  let b := N_of_ascii c in
  match st with
  | Start =>
      if between 0 127 b then Some Start
      else if between 194 223 b then Some Cont1
      else if between 224 224 b then Some AfterE0
      else if (between 225 236 b || between 238 239 b)%bool then Some Cont2
      else if between 237 237 b then Some AfterED
      else if between 240 240 b then Some AfterF0
      else if between 241 243 b then Some Cont3
      else if between 244 244 b then Some AfterF4
      else None
  | Cont1 => if between 128 191 b then Some Start else None
  | Cont2 => if between 128 191 b then Some Cont1 else None
  | Cont3 => if between 128 191 b then Some Cont2 else None
  | AfterE0 => if between 160 191 b then Some Cont1 else None
  | AfterED => if between 128 159 b then Some Cont1 else None
  | AfterF0 => if between 144 191 b then Some Cont2 else None
  | AfterF4 => if between 128 143 b then Some Cont2 else None
  end.

Fixpoint run (st : State) (s : string) : option State :=
  match s with
  | EmptyString => Some st
  | String c s' =>
      match step st c with
      | Some st' => run st' s'
      | None => None
      end
  end.

Definition valid (s : string) : Prop := run Start s = Some Start.

Definition valid_cell (v : Value) : Prop :=
  match v with
  | VInt _ => True
  | VStr s => valid s
  end.

(** The labels and the string cells of a frame are text. *)
Definition valid_frame (df : DataFrame) : Prop :=
  Forall valid (df_columns df) /\ Forall (Forall valid_cell) (df_rows df).

Fixpoint all_ascii (s : string) : bool :=
  match s with
  | EmptyString => true
  | String c s' => between 0 127 (N_of_ascii c) && all_ascii s'
  end.

End Utf8.

(* ===================================================================== *)
(** * Vocabulary of the further properties *)
(* ===================================================================== *)

(** The events of the logging module. *)
Definition is_log_event (ev : Event) : bool :=
  match ev with
  | LogOpened _ | LogLine _ _ => true
  | _ => false
  end.

Definition log_events (tr : list Event) : list Event := List.filter is_log_event tr.

(** The log lines added since the trace was [tr0]. *)
Definition log_lines_since (tr0 tr : list Event) : list (string * string) :=
  drop (length (log_lines tr0)) (log_lines tr).

(** The requests that were accepted. *)
Definition accepted (xs : list (Request * Response)) : list (Request * Response) :=
  List.filter (fun x => negb (failed x)) xs.

(** The text a gzipped buffer holds. *)
Definition text_of (zl : Zlib) (content : bytes) : option string :=
  option_map string_of_list_byte (Gzip.decompress zl content).

(** The headers of every request to Dash. *)
Definition dash_headers (dash_orgname dash_api_key dash_table : string)
    : list (string * string) :=
  [("Content-Type", "application/gzip");
   ("service_client_id", "0");
   ("x-api-key", dash_api_key);
   ("org-name", dash_orgname);
   ("table-name", dash_table)].

(** A frame with a column of labels and one of numbers in text. *)
Definition stock_frame : DataFrame :=
  {| df_columns := ["item"; "count"];
     df_rows := [[VStr "nuts"; VStr "12"]; [VStr "bolts"; VStr "7"];
                 [VStr "gears"; VStr "30"]] |}.


(** The texts the bodies of a list of requests hold. *)
Definition bodies_texts (zl : Zlib) (made : list (Request * Response))
    : list (option string) :=
  List.map (fun x => text_of zl (req_data (fst x))) made.


(** [frames] hold an initial stretch of the rows of [df], under the
    columns of [df]. *)
Definition initial_rows (df : DataFrame) (frames : list DataFrame) : Prop :=
  Forall (fun f => df_columns f = df_columns df) frames /\
  exists rest, concat (List.map df_rows frames) ++ rest = df_rows df.

(** [frames] hold the rows of [df], all of them and in order. *)
Definition all_rows (df : DataFrame) (frames : list DataFrame) : Prop :=
  Forall (fun f => df_columns f = df_columns df) frames /\
  concat (List.map df_rows frames) = df_rows df.

(** The request is a POST to the data-input endpoint of Dash with the
    headers of the organisation, the key and the table. *)
Definition to_dash (org key table : string) (q : Request) : Prop :=
  req_method q = "POST"%string /\
  req_url q = "https://api.comodash.io/v1/data-input-file"%string /\
  req_headers q = dash_headers org key table.

Definition is_http_error (e : Exn) : bool :=
  match e with
  | HTTPError _ => true
  | _ => false
  end.

(** Of the requests [made], the last was answered with the error status
    [s] and none before it with an error status. *)
Definition refused_last (s : Z) (made : list (Request * Response)) : Prop :=
  is_error s = true /\
  (exists q resp, last made = Some (q, resp) /\ status_code resp = s) /\
  forall j x, made !! j = Some x -> (S j < length made)%nat ->
              is_error (status_code (snd x)) = false.

(** The call returned, or ended with the HTTPError of a refused chunk. *)
Definition returned_or_refused (r : result unit) : Prop :=
  r = Ok tt \/ exists s, r = Raise (HTTPError s).

(* ===================================================================== *)
(** * The embedding on concrete inputs *)
(* ===================================================================== *)

Example str_examples :
  Py.str 0 = "0" /\ Py.str 12 = "12" /\ Py.str (-7) = "-7".
Proof. repeat split. Qed.

Example range_examples :
  Py.range 0 7 3 = Some [0; 3; 6] /\ Py.range 0 6 3 = Some [0; 3] /\
  Py.range 0 0 3 = Some [] /\ Py.range 0 5 0 = None /\
  Py.range 0 5 (-2) = Some [].
Proof. repeat split. Qed.

Example slice_examples :
  Py.slice [1; 2; 3; 4; 5] 3 6 = [4; 5] /\
  Py.slice [1; 2; 3; 4; 5] 0 2 = [1; 2] /\
  Py.slice [1; 2; 3; 4; 5] (-2) 9 = [4; 5].
Proof. repeat split. Qed.

Example join_examples :
  Py.join "out" "t.1.csv.gz" = "out/t.1.csv.gz" /\
  Py.join "out/" "t.1.csv.gz" = "out/t.1.csv.gz" /\
  Py.join EmptyString "t.1.csv.gz" = "t.1.csv.gz" /\
  Py.join "out" "/t.1.csv.gz" = "/t.1.csv.gz".
Proof. repeat split. Qed.

Example strftime_examples :
  let d := {| year := 2024; month := 3; day := 9; hour := 7; minute := 5;
              second := 1; microsecond := 42 |} in
  strftime d "%Y-%m-%d %H:%M:%S.%f" = "2024-03-09 07:05:01.000042" /\
  strftime d "%Y%m%d%H%M" = "202403090705" /\
  strftime d "%Y-%m-%d,%H:%M:%S" = "2024-03-09,07:05:01".
Proof. repeat split. Qed.

Example int_examples :
  PyInt.parse "1" = Some 1 /\ PyInt.parse " -42 " = Some (-42) /\
  PyInt.parse "1_000" = Some 1000 /\ PyInt.parse "1__0" = None /\
  PyInt.parse "1.5" = None /\ PyInt.parse EmptyString = None /\
  PyInt.parse "x" = None /\ PyInt.parse "+" = None.
Proof. repeat split. Qed.

Example astype_examples :
  let df := {| df_columns := ["a"; "b"];
               df_rows := [[VStr "1"; VStr "x"]; [VStr "2"; VStr "y"]] |} in
  astype {["a" := DInt]} df
    = Ok {| df_columns := ["a"; "b"];
            df_rows := [[VInt 1; VStr "x"]; [VInt 2; VStr "y"]] |} /\
  astype {["b" := DInt]} df = Raise ValueError /\
  astype {["c" := DInt]} df = Raise KeyError.
Proof. repeat split. Qed.

Example setitem_examples :
  let df := {| df_columns := ["a"; "b"];
               df_rows := [[VInt 1; VStr "x"]; [VInt 2; VStr "y"]] |} in
  setitem "c" (VStr "t") df
    = {| df_columns := ["a"; "b"; "c"];
         df_rows := [[VInt 1; VStr "x"; VStr "t"]; [VInt 2; VStr "y"; VStr "t"]] |} /\
  setitem "b" (VStr "t") df
    = {| df_columns := ["a"; "b"];
         df_rows := [[VInt 1; VStr "t"]; [VInt 2; VStr "t"]] |}.
Proof. repeat split. Qed.

Example to_csv_example :
  string_of_list_ascii (List.filter (fun c => negb (Ascii.eqb c Csv.dquote))
    (list_ascii_of_string
       (Csv.to_csv {| df_columns := ["a"; "b"];
                      df_rows := [[VInt 1; VStr "x"]; [VInt (-2); VStr "y"]] |})))
  = String.concat Csv.lineterminator ["a,b"; "1,x"; "-2,y"; EmptyString] /\
  String.length
    (Csv.to_csv {| df_columns := ["a"; "b"];
                   df_rows := [[VInt 1; VStr "x"]; [VInt (-2); VStr "y"]] |})
  = 21%nat.
Proof. repeat split. Qed.

Example reader_chunks_examples :
  (exists r, read_csv (counting_frame 5) 2 = Ok r /\
             chunk_sizes (reader_chunks r) = [2; 2; 1]%nat) /\
  (exists r, read_csv (counting_frame 4) 2 = Ok r /\
             chunk_sizes (reader_chunks r) = [2; 2]%nat) /\
  (exists r, read_csv (counting_frame 0) 2 = Ok r /\
             chunk_sizes (reader_chunks r) = [0]%nat) /\
  read_csv (counting_frame 5) 0 = Raise ValueError.
Proof. repeat split; eexists; split; reflexivity. Qed.

Example data_chunks_examples :
  (exists cs, data_chunks (counting_frame 5) 2 = Ok cs /\
              chunk_sizes cs = [2; 2; 1]%nat) /\
  (exists cs, data_chunks (counting_frame 4) 2 = Ok cs /\
              chunk_sizes cs = [2; 2]%nat) /\
  data_chunks (counting_frame 0) 2 = Ok [] /\
  data_chunks (counting_frame 5) 0 = Raise ValueError /\
  data_chunks (counting_frame 5) (-1) = Ok [].
Proof. repeat split; eexists; split; reflexivity. Qed.

Example crc32_check :
  Gzip.crc32 (list_byte_of_string "123456789") = 0xCBF43926.
Proof. vm_compute. reflexivity. Qed.

Example le32_example :
  Gzip.le32 0x01020304 = [x04; x03; x02; x01] /\
  Gzip.le32_decode [x04; x03; x02; x01] = Some 0x01020304.
Proof. split; reflexivity. Qed.

Example stored_example :
  Stored.deflate [x61; x62] = [x01; x02; x00; xfd; xff; x61; x62] /\
  Stored.inflate (Stored.deflate [x61; x62]) = Some [x61; x62].
Proof. split; vm_compute; reflexivity. Qed.

(* ===================================================================== *)
(** * Computations: equations and frame rules *)
(* ===================================================================== *)

Lemma sent_app tr1 tr2 : sent (tr1 ++ tr2) = sent tr1 ++ sent tr2.
Proof. apply omap_app. Qed.

Lemma files_written_app tr1 tr2 :
  files_written (tr1 ++ tr2) = files_written tr1 ++ files_written tr2.
Proof. apply omap_app. Qed.

Lemma log_lines_app tr1 tr2 : log_lines (tr1 ++ tr2) = log_lines tr1 ++ log_lines tr2.
Proof. apply omap_app. Qed.

Lemma bind_ok {A B} (m : M A) (k : A -> M B) w w' a :
  m w = (w', Ok a) -> bind m k w = k a w'.
Proof. unfold bind. intros ->. reflexivity. Qed.

Lemma bind_raise {A B} (m : M A) (k : A -> M B) w w' e :
  m w = (w', Raise e) -> bind m k w = (w', Raise e).
Proof. unfold bind. intros ->. reflexivity. Qed.

Lemma for_each_app {A S} (body : S -> A -> M S) l1 l2 acc w :
  for_each body (l1 ++ l2) acc w
  = bind (for_each body l1 acc) (for_each body l2) w.
Proof.
  revert acc w. induction l1 as [|x l1 IH]; intros acc w; simpl.
  - reflexivity.
  - unfold bind in *. destruct (body acc x w) as [w1 [acc1|e]]; [apply IH | reflexivity].
Qed.

Section Frame.

Context {T : Type} (obs : World -> T).

Lemma keeps_ret {A} (a : A) : keeps obs (ret a).
Proof. intros w. reflexivity. Qed.

Lemma keeps_lift {A} (r : result A) : keeps obs (lift r).
Proof. intros w. reflexivity. Qed.

Lemma keeps_bind {A B} (m : M A) (k : A -> M B) :
  keeps obs m -> (forall a, keeps obs (k a)) -> keeps obs (bind m k).
Proof.
  intros Hm Hk w. unfold bind. specialize (Hm w).
  destruct (m w) as [w1 [a|e]]; simpl in *.
  - rewrite Hk. exact Hm.
  - exact Hm.
Qed.

Lemma keeps_for_each {A S} (body : S -> A -> M S) l :
  (forall acc x, keeps obs (body acc x)) ->
  forall acc, keeps obs (for_each body l acc).
Proof.
  intros Hbody. induction l as [|x l IH]; intros acc; simpl.
  - apply keeps_ret.
  - apply keeps_bind; auto.
Qed.

End Frame.

Create HintDb keeps discriminated.
#[local] Hint Resolve keeps_ret keeps_lift : keeps.

(** A primitive that touches the trace only by events the observation
    does not see. *)
Ltac keeps_primitive :=
  intros w; cbv [requests_of files_of]; simpl;
  rewrite ?sent_app, ?files_written_app; simpl;
  rewrite ?app_nil_r; reflexivity.

(** A computation built from primitives that keep the observation. *)
Ltac keeps_step :=
  lazymatch goal with
  | |- keeps _ (bind _ _) => apply keeps_bind; [|intros]
  | |- keeps _ (for_each _ _ _) => apply keeps_for_each; intros
  | |- keeps _ (match ?x with Some _ => _ | None => _ end) => destruct x
  | |- keeps _ (if ?b then _ else _) => destruct b
  | |- keeps _ (let (_, _) := ?p in _) => destruct p
  | |- keeps _ _ => solve [auto with keeps]
  end.

Ltac solve_keeps := repeat keeps_step.

Section Primitives.

Variable zl : Zlib.
Variable env : Env.

(** Only [requests_request] adds to the requests sent and only
    [write_file] to the files written. *)

Lemma keeps_requests_datetime_now : keeps requests_of (datetime_now env).
Proof. keeps_primitive. Qed.

Lemma keeps_files_datetime_now : keeps files_of (datetime_now env).
Proof. keeps_primitive. Qed.

Lemma keeps_requests_time_time : keeps requests_of (time_time env).
Proof. keeps_primitive. Qed.

Lemma keeps_files_time_time : keeps files_of (time_time env).
Proof. keeps_primitive. Qed.

Lemma keeps_requests_write_file p c : keeps requests_of (write_file p c).
Proof. keeps_primitive. Qed.

Lemma keeps_files_requests_request m u h d :
  keeps files_of (requests_request env m u h d).
Proof. keeps_primitive. Qed.

Lemma keeps_requests_addHandler p : keeps requests_of (logger_addHandler p).
Proof. keeps_primitive. Qed.

Lemma keeps_files_addHandler p : keeps files_of (logger_addHandler p).
Proof. keeps_primitive. Qed.

Lemma sent_log_lines (hs : list string) line :
  sent (List.map (fun p => LogLine p line) hs) = [].
Proof. induction hs; simpl; auto. Qed.

Lemma files_written_log_lines (hs : list string) line :
  files_written (List.map (fun p => LogLine p line) hs) = [].
Proof. induction hs; simpl; auto. Qed.

Lemma keeps_requests_logger_info msg : keeps requests_of (logger_info env msg).
Proof.
  intros w. unfold requests_of, logger_info, bind, datetime_now. simpl.
  rewrite sent_app, sent_log_lines. apply app_nil_r.
Qed.

Lemma keeps_files_logger_info msg : keeps files_of (logger_info env msg).
Proof.
  intros w. unfold files_of, logger_info, bind, datetime_now. simpl.
  rewrite files_written_app, files_written_log_lines. apply app_nil_r.
Qed.

Lemma keeps_requests_heap_get ref : keeps requests_of (heap_get ref).
Proof. keeps_primitive. Qed.

Lemma keeps_files_heap_get ref : keeps files_of (heap_get ref).
Proof. keeps_primitive. Qed.

Lemma keeps_requests_heap_set ref df : keeps requests_of (heap_set ref df).
Proof. keeps_primitive. Qed.

Lemma keeps_files_heap_set ref df : keeps files_of (heap_set ref df).
Proof. keeps_primitive. Qed.

Lemma keeps_requests_heap_new df : keeps requests_of (heap_new df).
Proof. keeps_primitive. Qed.

Lemma keeps_files_heap_new df : keeps files_of (heap_new df).
Proof. keeps_primitive. Qed.

Lemma keeps_files_raise_for_status r : keeps files_of (raise_for_status r).
Proof. unfold raise_for_status. solve_keeps. Qed.

End Primitives.

#[local] Hint Resolve
  keeps_requests_datetime_now keeps_files_datetime_now
  keeps_requests_time_time keeps_files_time_time
  keeps_requests_write_file keeps_files_requests_request
  keeps_requests_addHandler keeps_files_addHandler
  keeps_requests_logger_info keeps_files_logger_info
  keeps_requests_heap_get keeps_files_heap_get
  keeps_requests_heap_set keeps_files_heap_set
  keeps_requests_heap_new keeps_files_heap_new
  keeps_files_raise_for_status : keeps.

Section Composites.

Variable zl : Zlib.
Variable env : Env.

Lemma keeps_files_upload_csv_to_dash org key table buf :
  keeps files_of (upload_csv_to_dash env org key table buf).
Proof. unfold upload_csv_to_dash. solve_keeps. Qed.

Lemma keeps_requests_create df :
  keeps requests_of (create_gzipped_csv_stream_from_df zl env df).
Proof. unfold create_gzipped_csv_stream_from_df. solve_keeps. Qed.

Lemma keeps_files_create df :
  keeps files_of (create_gzipped_csv_stream_from_df zl env df).
Proof. unfold create_gzipped_csv_stream_from_df. solve_keeps. Qed.

End Composites.

#[local] Hint Resolve
  keeps_files_upload_csv_to_dash keeps_requests_create keeps_files_create : keeps.

(* ===================================================================== *)
(** * upload_csv_to_dash *)
(* ===================================================================== *)

Lemma is_2xx_not_error s : is_2xx s = true -> is_error s = false.
Proof. unfold is_2xx, is_error. lia. Qed.

Lemma raise_for_status_eq resp w :
  raise_for_status resp w
  = (w, if is_error (status_code resp)
        then Raise (HTTPError (status_code resp)) else Ok tt).
Proof.
  unfold raise_for_status, is_error.
  destruct (400 <=? status_code resp) eqn:H4,
           (status_code resp <? 500) eqn:H5,
           (500 <=? status_code resp) eqn:H6,
           (status_code resp <? 600) eqn:H7; simpl; try reflexivity; lia.
Qed.

Lemma upload_csv_to_dash_eq env org key table buf w :
  let req := dash_request org key table buf in
  let resp := server env (trace w) req in
  upload_csv_to_dash env org key table buf w
  = (emit [Sent req resp] w,
     if is_error (status_code resp)
     then Raise (HTTPError (status_code resp)) else Ok resp).
Proof.
  intros req resp. subst req resp.
  unfold upload_csv_to_dash, bind, requests_request, dash_request, url.
  rewrite raise_for_status_eq.
  destruct (is_error _); reflexivity.
Qed.

(** C2 (as amended).  A call sends one POST to the fixed URL with the five
    headers and the buffer as body, and nothing else happens.  The
    response is returned for a 2xx status and for every other status
    outside 400..599; HTTPError is raised exactly for 400..599.  There is
    no second request. *)
Theorem upload_csv_to_dash_spec env org key table buf w :
  let req :=
    {| req_method := "POST";
       req_url := "https://api.comodash.io/v1/data-input-file";
       req_headers := [("Content-Type", "application/gzip");
                       ("service_client_id", "0");
                       ("x-api-key", key);
                       ("org-name", org);
                       ("table-name", table)];
       req_data := buf |} in
  let resp := server env (trace w) req in
  let s := status_code resp in
  let out := upload_csv_to_dash env org key table buf w in
  trace (fst out) = trace w ++ [Sent req resp] /\
  heap (fst out) = heap w /\ handlers (fst out) = handlers w /\
  ticks (fst out) = ticks w /\
  snd out = (if is_2xx s then Ok resp
             else if (400 <=? s) && (s <? 600) then Raise (HTTPError s)
             else Ok resp).
Proof.
  intros req resp s out. subst out.
  rewrite upload_csv_to_dash_eq.
  change (dash_request org key table buf) with req. fold resp. fold s.
  simpl. repeat split.
  fold (is_error s). destruct (is_2xx s) eqn:H2; [|reflexivity].
  rewrite (is_2xx_not_error _ H2). reflexivity.
Qed.

(** C2, as stated, fails: status 304 is not 2xx and nothing is raised. *)
Lemma upload_csv_to_dash_304_returns :
  is_2xx 304 = false /\
  snd (upload_csv_to_dash (constant_server 304) "org" "key" "table" [] empty_world)
  = Ok {| status_code := 304; text := "body" |}.
Proof. split; reflexivity. Qed.

(* ===================================================================== *)
(** * Dry run against upload *)
(* ===================================================================== *)

Section DryRun.

Variable zl : Zlib.
Variable env : Env.

Lemma keeps_requests_file_body table org key modify dir st chunk :
  keeps requests_of
    (read_and_upload_file_to_dash_body zl env table org key modify (Some dir) st chunk).
Proof. unfold read_and_upload_file_to_dash_body. solve_keeps. Qed.

Lemma keeps_files_file_body table org key modify st chunk :
  keeps files_of
    (read_and_upload_file_to_dash_body zl env table org key modify None st chunk).
Proof. unfold read_and_upload_file_to_dash_body. solve_keeps. Qed.

Lemma keeps_requests_frame_body table org key dir u item :
  keeps requests_of (upload_dataframe_body zl env table org key (Some dir) u item).
Proof. unfold upload_dataframe_body. solve_keeps. Qed.

Lemma keeps_files_frame_body table org key u item :
  keeps files_of (upload_dataframe_body zl env table org key None u item).
Proof. unfold upload_dataframe_body. solve_keeps. Qed.

Hint Resolve keeps_requests_file_body keeps_files_file_body
  keeps_requests_frame_body keeps_files_frame_body : keeps.

Lemma keeps_requests_read_and_upload file table org key chunksize modify dir :
  keeps requests_of
    (read_and_upload_file_to_dash zl env file table org key chunksize modify (Some dir)).
Proof. unfold read_and_upload_file_to_dash. solve_keeps. Qed.

Lemma keeps_files_read_and_upload file table org key chunksize modify :
  keeps files_of
    (read_and_upload_file_to_dash zl env file table org key chunksize modify None).
Proof. unfold read_and_upload_file_to_dash. solve_keeps. Qed.

Lemma keeps_requests_upload_dataframe ref table org key dtypes chunksize dir snap :
  keeps requests_of
    (upload_dataframe zl env ref table org key dtypes chunksize (Some dir) snap).
Proof. unfold upload_dataframe. solve_keeps. Qed.

Lemma keeps_files_upload_dataframe ref table org key dtypes chunksize snap :
  keeps files_of
    (upload_dataframe zl env ref table org key dtypes chunksize None snap).
Proof. unfold upload_dataframe. solve_keeps. Qed.

(** C4.  With a dry-run directory neither entry point sends a request;
    without one neither writes a chunk file.  This holds for every call,
    whether it returns or raises. *)
Theorem dry_run_sends_nothing_upload_writes_nothing
    file ref table org key chunksize modify dtypes snap dir w :
  sent (trace (fst (read_and_upload_file_to_dash zl env file table org key
                      chunksize modify (Some dir) w)))
    = sent (trace w) /\
  sent (trace (fst (upload_dataframe zl env ref table org key dtypes
                      chunksize (Some dir) snap w)))
    = sent (trace w) /\
  files_written (trace (fst (read_and_upload_file_to_dash zl env file table org key
                               chunksize modify None w)))
    = files_written (trace w) /\
  files_written (trace (fst (upload_dataframe zl env ref table org key dtypes
                               chunksize None snap w)))
    = files_written (trace w).
Proof.
  repeat split.
  - apply (keeps_requests_read_and_upload file table org key chunksize modify dir w).
  - apply (keeps_requests_upload_dataframe ref table org key dtypes chunksize dir snap w).
  - apply (keeps_files_read_and_upload file table org key chunksize modify w).
  - apply (keeps_files_upload_dataframe ref table org key dtypes chunksize snap w).
Qed.

End DryRun.

(* ===================================================================== *)
(** * Chunking *)
(* ===================================================================== *)

Lemma ceil_div_bounds n c :
  0 < c -> 0 <= n -> c * (ceil_div n c - 1) < n <= c * ceil_div n c.
Proof.
  intros Hc Hn. unfold ceil_div.
  pose proof (Z.div_mod (n + c - 1) c ltac:(lia)) as Hdm.
  pose proof (Z.mod_pos_bound (n + c - 1) c Hc). lia.
Qed.

Lemma ceil_div_0 c : 0 < c -> ceil_div 0 c = 0.
Proof. intros. unfold ceil_div. apply Z.div_small. lia. Qed.

Lemma ceil_div_small n c : 0 < n <= c -> ceil_div n c = 1.
Proof.
  intros. unfold ceil_div. replace (n + c - 1) with ((n - 1) + 1 * c) by lia.
  rewrite Z.div_add by lia. rewrite Z.div_small; lia.
Qed.

Lemma ceil_div_step n c : 0 < c -> ceil_div (n + c) c = ceil_div n c + 1.
Proof.
  intros. unfold ceil_div. replace (n + c + c - 1) with ((n + c - 1) + 1 * c) by lia.
  rewrite Z.div_add by lia. reflexivity.
Qed.

Lemma ceil_div_nonneg n c : 0 < c -> 0 <= n -> 0 <= ceil_div n c.
Proof. intros. unfold ceil_div. apply Z.div_pos; lia. Qed.

Lemma slice_firstn_skipn {A} (l : list A) i c :
  0 <= i -> 0 <= c ->
  Py.slice l i (i + c) = firstn (Z.to_nat c) (skipn (Z.to_nat i) l).
Proof.
  intros Hi Hc. unfold Py.slice, Py.adjust_index.
  destruct (Z.ltb_spec i 0); [lia|]. destruct (Z.ltb_spec (i + c) 0); [lia|].
  set (len := Z.of_nat (length l)).
  destruct (Z.le_gt_cases i len) as [Hle|Hgt].
  - rewrite (Z.min_l i len) by lia.
    destruct (Z.le_gt_cases (i + c) len).
    + rewrite Z.min_l by lia. f_equal. lia.
    + rewrite Z.min_r by lia.
      rewrite !firstn_all2; try reflexivity; rewrite length_skipn; subst len; lia.
  - rewrite !Z.min_r by lia. replace (len - len) with 0 by lia. simpl.
    rewrite (skipn_all2 (n := Z.to_nat i)) by (subst len; lia).
    symmetry. apply firstn_nil.
Qed.

Lemma range_from_zero n c :
  0 < c -> 0 <= n ->
  Py.range 0 n c
  = Some (List.map (fun k => Z.of_nat k * c) (List.seq 0 (Z.to_nat (ceil_div n c)))).
Proof.
  intros Hc Hn. unfold Py.range, Py.range_len.
  destruct (Z.eqb_spec c 0); [lia|]. destruct (Z.ltb_spec 0 c); [|lia].
  f_equal. destruct (Z.ltb_spec 0 n).
  - replace ((n - 0 - 1) / c + 1) with (ceil_div n c).
    + apply map_ext. intros; lia.
    + unfold ceil_div. replace (n + c - 1) with ((n - 0 - 1) + 1 * c) by lia.
      rewrite Z.div_add by lia. reflexivity.
  - replace n with 0 by lia. rewrite ceil_div_0 by lia. reflexivity.
Qed.

Lemma concat_nth_chunk_rows {A} (c : nat) (l : list A) n :
  concat (List.map (nth_chunk_rows c l) (List.seq 0 n)) = firstn (n * c) l.
Proof.
  induction n as [|n IH].
  - reflexivity.
  - rewrite seq_S, List.map_app, concat_app, IH. simpl.
    rewrite app_nil_r. unfold nth_chunk_rows.
    replace (c + n * c)%nat with (n * c + c)%nat by lia.
    rewrite <- (firstn_skipn (n * c) (firstn (n * c + c) l)).
    rewrite firstn_firstn, Nat.min_l by lia. f_equal.
    rewrite skipn_firstn_comm. f_equal. lia.
Qed.

Lemma length_nth_chunk_rows {A} (c : nat) (l : list A) k :
  (length (nth_chunk_rows c l k) <= c)%nat.
Proof. unfold nth_chunk_rows. apply firstn_le_length. Qed.

(** The pieces [0 .. ceil(N/c) - 1] cut a frame. *)
Lemma cuts_nth_chunks df c :
  0 < c ->
  cuts df c
    (List.map (fun k => {| df_columns := df_columns df;
                           df_rows := nth_chunk_rows (Z.to_nat c) (df_rows df) k |})
       (List.seq 0 (Z.to_nat (ceil_div (shape0 df) c)))).
Proof.
  intros Hc. unfold cuts. split; [|split].
  - apply List.Forall_forall. intros chunk Hin. apply in_map_iff in Hin as [k [<- _]].
    simpl. split; [reflexivity|].
    pose proof (length_nth_chunk_rows (Z.to_nat c) (df_rows df) k). lia.
  - intros k chunk Hk. rewrite list_lookup_fmap in Hk.
    destruct (List.seq 0 _ !! k) as [k'|] eqn:Hseq; [|discriminate].
    apply lookup_seq in Hseq as [-> _]. simpl in Hk. injection Hk as <-. reflexivity.
  - rewrite List.map_map. simpl.
    rewrite (concat_nth_chunk_rows (Z.to_nat c) (df_rows df)).
    apply firstn_all2.
    pose proof (ceil_div_bounds (shape0 df) c Hc ltac:(unfold shape0; lia)).
    unfold shape0 in *. nia.
Qed.

Lemma data_chunks_eq df c :
  0 < c ->
  data_chunks df c
  = Ok (List.map (fun k => {| df_columns := df_columns df;
                              df_rows := nth_chunk_rows (Z.to_nat c) (df_rows df) k |})
          (List.seq 0 (Z.to_nat (ceil_div (shape0 df) c)))).
Proof.
  intros Hc. unfold data_chunks.
  rewrite range_from_zero by (unfold shape0; lia).
  f_equal. rewrite List.map_map. apply map_ext. intros k.
  unfold df_slice. f_equal.
  rewrite slice_firstn_skipn by lia. unfold nth_chunk_rows.
  do 2 f_equal. lia.
Qed.

Lemma reader_iter_rows fuel cols l c :
  (1 <= c)%nat -> (length l < fuel)%nat ->
  reader_iter fuel {| tfr_columns := cols; tfr_rows := l;
                      tfr_chunksize := c; tfr_first_chunk := false |}
  = List.map (fun k => {| df_columns := cols; df_rows := nth_chunk_rows c l k |})
      (List.seq 0 (Z.to_nat (ceil_div (Z.of_nat (length l)) (Z.of_nat c)))).
Proof.
  intros Hc. revert l. induction fuel as [|fuel IH]; intros l Hlen; [lia|].
  destruct l as [|x l].
  - simpl. rewrite ceil_div_0 by lia. reflexivity.
  - cbn [reader_iter reader_next tfr_rows tfr_first_chunk tfr_columns tfr_chunksize].
    rewrite IH by (rewrite length_skipn; simpl in *; lia).
    set (l' := x :: l) in *.
    assert (Hn : Z.to_nat (ceil_div (Z.of_nat (length l')) (Z.of_nat c))
                 = S (Z.to_nat (ceil_div (Z.of_nat (length (skipn c l'))) (Z.of_nat c)))).
    { rewrite length_skipn.
      destruct (Nat.le_gt_cases (length l') c) as [Hle|Hgt].
      - replace (length l' - c)%nat with 0%nat by lia.
        rewrite ceil_div_0 by lia.
        rewrite ceil_div_small by (subst l'; simpl length in *; lia). reflexivity.
      - replace (Z.of_nat (length l'))
          with (Z.of_nat (length l' - c) + Z.of_nat c) by lia.
        rewrite ceil_div_step by lia.
        pose proof (ceil_div_nonneg (Z.of_nat (length l' - c)) (Z.of_nat c)).
        lia. }
    rewrite Hn. cbn [List.seq List.map].
    rewrite <- seq_shift, List.map_map. f_equal.
    apply map_ext. intros k.
    unfold nth_chunk_rows. rewrite skipn_skipn. do 3 f_equal. lia.
Qed.

Lemma reader_iter_first fuel cols l c :
  l <> [] ->
  reader_iter fuel {| tfr_columns := cols; tfr_rows := l;
                      tfr_chunksize := c; tfr_first_chunk := true |}
  = reader_iter fuel {| tfr_columns := cols; tfr_rows := l;
                        tfr_chunksize := c; tfr_first_chunk := false |}.
Proof. intros Hl. destruct fuel, l; try reflexivity. contradiction. Qed.

(** The chunks a reader hands out: one empty frame for a source without
    data rows, the pieces of [chunksize] rows otherwise.  Any number of
    calls of next above [length rows + 1] gives the same list: the loop
    ends by StopIteration. *)
Lemma reader_iter_stable fuel df c r :
  read_csv df c = Ok r -> (2 + length (df_rows df) <= fuel)%nat ->
  reader_iter fuel r
  = match df_rows df with
    | [] => [{| df_columns := df_columns df; df_rows := [] |}]
    | _ => List.map (fun k => {| df_columns := df_columns df;
                                 df_rows := nth_chunk_rows (Z.to_nat c) (df_rows df) k |})
             (List.seq 0 (Z.to_nat (ceil_div (shape0 df) c)))
    end.
Proof.
  unfold read_csv. destruct (Z.ltb_spec c 1); [discriminate|].
  intros [= <-] Hfuel. destruct (df_rows df) as [|x l] eqn:Hrows.
  - destruct fuel as [|[|fuel]]; simpl in Hfuel; try lia. reflexivity.
  - rewrite reader_iter_first by discriminate.
    rewrite reader_iter_rows by (simpl in *; lia).
    unfold shape0. rewrite Hrows. rewrite Z2Nat.id by lia. reflexivity.
Qed.

Lemma reader_chunks_eq df c r :
  read_csv df c = Ok r ->
  reader_chunks r
  = match df_rows df with
    | [] => [{| df_columns := df_columns df; df_rows := [] |}]
    | _ => List.map (fun k => {| df_columns := df_columns df;
                                 df_rows := nth_chunk_rows (Z.to_nat c) (df_rows df) k |})
             (List.seq 0 (Z.to_nat (ceil_div (shape0 df) c)))
    end.
Proof.
  intros Hr. unfold reader_chunks. apply reader_iter_stable; [exact Hr|].
  unfold read_csv in Hr. destruct (c <? 1); [discriminate|].
  injection Hr as <-. simpl. lia.
Qed.

Lemma read_csv_ok df c : 0 < c -> exists r, read_csv df c = Ok r.
Proof.
  intros Hc. unfold read_csv. destruct (Z.ltb_spec c 1); [lia|]. eauto.
Qed.

(** C1 (as amended).  For a positive chunk size both entry points cut the
    dataset into consecutive chunks of at most C rows which, put end to
    end in processing order, are the rows of the dataset.
    [upload_dataframe] makes ceil(N/C) chunks.
    [read_and_upload_file_to_dash] makes ceil(N/C) chunks when the source
    has data rows and one chunk without rows when it has none.
    [ceil_div N C] is the least number of pieces of C rows that hold N
    rows. *)
Theorem chunking_cuts_the_dataset df c :
  0 < c ->
  c * (ceil_div (shape0 df) c - 1) < shape0 df <= c * ceil_div (shape0 df) c /\
  (exists cs, data_chunks df c = Ok cs /\ cuts df c cs /\
              Z.of_nat (length cs) = ceil_div (shape0 df) c) /\
  (exists r, read_csv df c = Ok r /\ cuts df c (reader_chunks r) /\
             Z.of_nat (length (reader_chunks r))
             = Z.max 1 (ceil_div (shape0 df) c)).
Proof.
  intros Hc. split; [apply ceil_div_bounds; unfold shape0; lia|]. split.
  - eexists. split; [apply data_chunks_eq; exact Hc|]. split.
    + apply cuts_nth_chunks. exact Hc.
    + rewrite length_map, length_seq.
      pose proof (ceil_div_nonneg (shape0 df) c Hc ltac:(unfold shape0; lia)). lia.
  - destruct (read_csv_ok df c Hc) as [r Hr]. exists r. split; [exact Hr|].
    rewrite (reader_chunks_eq df c r Hr).
    destruct (df_rows df) as [|x l] eqn:Hrows.
    + split.
      * unfold cuts. rewrite Hrows. split; [|split].
        -- constructor; [|constructor]. simpl. split; [reflexivity|lia].
        -- intros [|k] chunk Hk; [|discriminate]. injection Hk as <-.
           unfold nth_chunk_rows. simpl. symmetry. apply firstn_nil.
        -- reflexivity.
      * unfold shape0. rewrite Hrows. simpl. rewrite ceil_div_0 by lia. reflexivity.
    + rewrite <- Hrows. split.
      * apply cuts_nth_chunks. exact Hc.
      * rewrite length_map, length_seq.
        pose proof (ceil_div_bounds (shape0 df) c Hc ltac:(unfold shape0; lia)).
        assert (0 < shape0 df) by (unfold shape0; rewrite Hrows; simpl; lia).
        assert (1 <= ceil_div (shape0 df) c) by nia. lia.
Qed.

Lemma chunking_cuts_the_dataset_witness :
  2 * (ceil_div (shape0 (counting_frame 5)) 2 - 1) < shape0 (counting_frame 5)
    <= 2 * ceil_div (shape0 (counting_frame 5)) 2 /\
  (exists cs, data_chunks (counting_frame 5) 2 = Ok cs /\ cuts (counting_frame 5) 2 cs /\
              Z.of_nat (length cs) = ceil_div (shape0 (counting_frame 5)) 2) /\
  (exists r, read_csv (counting_frame 5) 2 = Ok r /\
             cuts (counting_frame 5) 2 (reader_chunks r) /\
             Z.of_nat (length (reader_chunks r))
             = Z.max 1 (ceil_div (shape0 (counting_frame 5)) 2)).
Proof. apply (chunking_cuts_the_dataset (counting_frame 5) 2). lia. Defined.

(** C1, as stated, fails for the file entry point on a source without
    data rows: ceil(0/1) = 0, yet one chunk is processed and uploaded. *)
Lemma header_only_source_is_one_chunk :
  ceil_div (shape0 (counting_frame 0)) 1 = 0 /\
  (exists r, read_csv (counting_frame 0) 1 = Ok r /\ length (reader_chunks r) = 1%nat) /\
  length (sent (trace (fst (read_and_upload_file_to_dash Stored.zlib (constant_server 200)
                              (counting_frame 0) "table" "org" "key" 1 None None
                              empty_world)))) = 1%nat.
Proof.
  split; [reflexivity|]. split; [eexists; split; reflexivity|].
  vm_compute. reflexivity.
Qed.

(* ===================================================================== *)
(** * CSV text: what is written reads back *)
(* ===================================================================== *)

Lemma append_cons c s1 s2 : String c s1 +:+ s2 = String c (s1 +:+ s2).
Proof. reflexivity. Qed.

Lemma append_nil_l s : EmptyString +:+ s = s.
Proof. reflexivity. Qed.

Lemma append_nil_r s : s +:+ EmptyString = s.
Proof. induction s as [|c s IH]; [reflexivity|]. rewrite append_cons, IH. reflexivity. Qed.

Lemma append_assoc s1 s2 s3 : (s1 +:+ s2) +:+ s3 = s1 +:+ (s2 +:+ s3).
Proof.
  induction s1 as [|c s1 IH]; [reflexivity|].
  rewrite !append_cons, IH. reflexivity.
Qed.

Lemma snoc_append acc c s :
  CsvReader.snoc acc c +:+ s = acc +:+ String c s.
Proof. unfold CsvReader.snoc. rewrite append_assoc, append_cons, append_nil_l. reflexivity. Qed.

Module CsvFacts.
Import CsvReader.

Lemma run_app s1 s2 cfg :
  run (s1 +:+ s2) cfg
  = match run s1 cfg with Some cfg' => run s2 cfg' | None => None end.
Proof.
  revert cfg. induction s1 as [|c s1 IH]; intros cfg.
  - reflexivity.
  - rewrite append_cons. simpl. destruct (step cfg c); [apply IH | reflexivity].
Qed.

Lemma step_in_quoted acc row rows c :
  Ascii.eqb c Csv.dquote = false ->
  step (InQuoted acc, row, rows) c = Some (InQuoted (snoc acc c), row, rows).
Proof.
  intros H. unfold step. rewrite H.
  destruct (Ascii.eqb c Csv.comma), (Ascii.eqb c Csv.newline); reflexivity.
Qed.

Lemma run_escape s acc row rows :
  run (Csv.escape s) (InQuoted acc, row, rows)
  = Some (InQuoted (acc +:+ s), row, rows).
Proof.
  revert acc. induction s as [|c s IH]; intros acc; simpl.
  - rewrite append_nil_r. reflexivity.
  - destruct (Ascii.eqb c Csv.dquote) eqn:Hc.
    + apply Ascii.eqb_eq in Hc. subst c.
      cbn [run]. cbn [step Ascii.eqb Csv.dquote Csv.comma Csv.newline Bool.eqb].
      rewrite IH, snoc_append. reflexivity.
    + cbn [run]. rewrite step_in_quoted by exact Hc.
      rewrite IH, snoc_append. reflexivity.
Qed.

Lemma run_quoted s st row rows :
  at_start st ->
  run (Csv.quoted s) (st, row, rows) = Some (QuoteInQuoted s, row, rows).
Proof.
  intros Hst. unfold Csv.quoted. cbn [run].
  assert (Hstep : step (st, row, rows) Csv.dquote = Some (InQuoted EmptyString, row, rows))
    by (destruct Hst; subst st; reflexivity).
  rewrite Hstep, run_app, run_escape. reflexivity.
Qed.

Lemma step_plain_start st row rows c :
  at_start st -> plain c = true ->
  step (st, row, rows) c = Some (InUnquoted (String c EmptyString), row, rows).
Proof.
  unfold plain. intros Hst Hc.
  apply andb_prop in Hc as [Hc H3]. apply andb_prop in Hc as [H1 H2].
  apply negb_true_iff in H1, H2, H3. unfold step. rewrite H1, H2, H3.
  destruct Hst; subst st; reflexivity.
Qed.

Lemma step_plain_unquoted acc row rows c :
  plain c = true ->
  step (InUnquoted acc, row, rows) c = Some (InUnquoted (snoc acc c), row, rows).
Proof.
  unfold plain. intros Hc.
  apply andb_prop in Hc as [Hc H3]. apply andb_prop in Hc as [H1 H2].
  apply negb_true_iff in H1, H2, H3. unfold step. rewrite H1, H2, H3. reflexivity.
Qed.

Lemma run_plain s acc row rows :
  all_plain s = true ->
  run s (InUnquoted acc, row, rows) = Some (InUnquoted (acc +:+ s), row, rows).
Proof.
  revert acc. induction s as [|c s IH]; intros acc H; cbn [run all_plain] in *.
  - rewrite append_nil_r. reflexivity.
  - apply andb_prop in H as [Hc Hs].
    rewrite step_plain_unquoted by exact Hc. rewrite IH by exact Hs.
    rewrite snoc_append. reflexivity.
Qed.

Lemma run_plain_start s st row rows :
  at_start st -> s <> EmptyString -> all_plain s = true ->
  run s (st, row, rows) = Some (InUnquoted s, row, rows).
Proof.
  intros Hst Hne H. destruct s as [|c s]; [contradiction|]. cbn [run all_plain] in *.
  apply andb_prop in H as [Hc Hs].
  rewrite step_plain_start by assumption. rewrite run_plain by exact Hs.
  reflexivity.
Qed.

Lemma all_plain_uint d : all_plain (NilEmpty.string_of_uint d) = true.
Proof. induction d; simpl; auto. Qed.

Lemma all_plain_str z : all_plain (Py.str z) = true.
Proof.
  unfold Py.str. destruct (Z.to_int z) as [d|d]; simpl.
  - destruct d; try reflexivity; apply (all_plain_uint (_ _)).
  - destruct d; try reflexivity; apply (all_plain_uint (_ _)).
Qed.

Lemma str_nonempty z : Py.str z <> EmptyString.
Proof.
  unfold Py.str. destruct (Z.to_int z) as [d|d]; simpl.
  - destruct d; discriminate.
  - discriminate.
Qed.

Lemma number_str z : number (Py.str z) = Some (VInt z).
Proof.
  unfold number, Py.str. rewrite NilZero.isi.
  - simpl. rewrite DecimalZ.of_to. reflexivity.
  - destruct z; simpl; try discriminate.
    intros [= H]. exact (DecimalPos.Unsigned.to_uint_nonnil _ H).
  - destruct z; simpl; try discriminate.
    intros [= H]. exact (DecimalPos.Unsigned.to_uint_nonnil _ H).
Qed.

(** After a field is written the reader is one separator away from
    having read it. *)
Lemma run_field v st row rows :
  at_start st ->
  exists st', run (Csv.field v) (st, row, rows) = Some (st', row, rows) /\
              complete st' = Some v /\
              (forall acc, st' <> InQuoted acc) /\ st' <> StartRecord.
Proof.
  intros Hst. destruct v as [z|s]; simpl.
  - exists (InUnquoted (Py.str z)). split; [|split; [|split]].
    + apply run_plain_start; auto using str_nonempty, all_plain_str.
    + apply number_str.
    + discriminate.
    + discriminate.
  - exists (QuoteInQuoted s). split; [|split; [|split]].
    + apply run_quoted. exact Hst.
    + reflexivity.
    + discriminate.
    + discriminate.
Qed.

Lemma step_comma st row rows v :
  complete st = Some v -> (forall acc, st <> InQuoted acc) ->
  step (st, row, rows) Csv.comma = Some (StartField, row ++ [v], rows).
Proof.
  intros Hc Hq. unfold step. cbn [Ascii.eqb Csv.comma Csv.dquote Bool.eqb].
  destruct st; try (rewrite Hc; reflexivity). exfalso. eapply Hq. reflexivity.
Qed.

Lemma step_newline st row rows v :
  complete st = Some v -> (forall acc, st <> InQuoted acc) -> st <> StartRecord ->
  step (st, row, rows) Csv.newline = Some (StartRecord, [], rows ++ [row ++ [v]]).
Proof.
  intros Hc Hq Hs. unfold step.
  cbn [Ascii.eqb Csv.comma Csv.dquote Csv.newline Bool.eqb].
  destruct st; try (rewrite Hc; reflexivity).
  - contradiction.
  - exfalso. eapply Hq. reflexivity.
Qed.

Lemma run_fields v r st row rows :
  at_start st ->
  run (Csv.writerow (List.map Csv.field (v :: r))) (st, row, rows)
  = Some (StartRecord, [], rows ++ [row ++ v :: r]).
Proof.
  revert v st row. induction r as [|v' r IH]; intros v st row Hst.
  - unfold Csv.writerow, Csv.lineterminator. cbn [List.map Csv.join_fields].
    rewrite run_app.
    destruct (run_field v st row rows Hst) as (st' & -> & Hc & Hq & Hs).
    cbn [run]. rewrite (step_newline _ _ _ _ Hc Hq Hs). reflexivity.
  - unfold Csv.writerow in *.
    change (Csv.join_fields (List.map Csv.field (v :: v' :: r)))
      with (Csv.field v +:+ String Csv.comma
              (Csv.join_fields (List.map Csv.field (v' :: r)))).
    rewrite append_assoc, run_app.
    destruct (run_field v st row rows Hst) as (st' & -> & Hc & Hq & Hs).
    rewrite append_cons. cbn [run]. rewrite (step_comma _ _ _ _ Hc Hq).
    rewrite IH by (right; reflexivity).
    rewrite <- app_assoc. reflexivity.
Qed.

Lemma run_writerow r rows :
  run (Csv.writerow (List.map Csv.field r)) (StartRecord, [], rows)
  = Some (StartRecord, [], rows ++ [r]).
Proof.
  destruct r as [|v r].
  - reflexivity.
  - rewrite run_fields by (left; reflexivity). reflexivity.
Qed.

Lemma run_writerows rs rows :
  run (Csv.writerows rs) (StartRecord, [], rows)
  = Some (StartRecord, [], rows ++ rs).
Proof.
  revert rows. induction rs as [|r rs IH]; intros rows; simpl.
  - rewrite app_nil_r. reflexivity.
  - rewrite run_app, run_writerow, IH, <- app_assoc. reflexivity.
Qed.

Lemma quoted_is_field s : Csv.quoted s = Csv.field (VStr s).
Proof. reflexivity. Qed.

Lemma labels_strings cols : labels (List.map VStr cols) = Some cols.
Proof. induction cols as [|c cols IH]; simpl; [|rewrite IH]; reflexivity. Qed.

(** The text [to_csv] writes is read back as the frame it was written
    from: labels in the first line, the rows below, strings in quotes
    and numbers bare. *)
Lemma read_to_csv df : read (Csv.to_csv df) = Some df.
Proof.
  unfold read, records, Csv.to_csv.
  replace (List.map Csv.quoted (df_columns df))
    with (List.map Csv.field (List.map VStr (df_columns df)))
    by (rewrite List.map_map; reflexivity).
  rewrite run_app, run_writerow, run_writerows. simpl.
  rewrite labels_strings. destruct df; reflexivity.
Qed.

End CsvFacts.

(* ===================================================================== *)
(** * CSV text: UTF-8 in, UTF-8 out *)
(* ===================================================================== *)

Module Utf8Facts.
Import Utf8.

Lemma utf8_run_app st s1 s2 :
  run st (s1 +:+ s2)
  = match run st s1 with Some st' => run st' s2 | None => None end.
Proof.
  revert st. induction s1 as [|c s1 IH]; intros st.
  - reflexivity.
  - rewrite append_cons. simpl. destruct (step st c); [apply IH|reflexivity].
Qed.

Lemma valid_app s1 s2 : valid s1 -> valid s2 -> valid (s1 +:+ s2).
Proof. unfold valid. intros H1 H2. rewrite utf8_run_app, H1. exact H2. Qed.

Lemma valid_nil : valid EmptyString.
Proof. reflexivity. Qed.

(** An ASCII byte is a character by itself and cannot continue one. *)
Lemma step_ascii st c :
  between 0 127 (N_of_ascii c) = true ->
  step st c = match st with Start => Some Start | _ => None end.
Proof.
  intros H. unfold step. destruct st; [rewrite H; reflexivity| ..];
    unfold between in *; apply andb_prop in H as [_ H]; apply N.leb_le in H;
    match goal with
    | |- (if (?lo <=? ?b)%N && _ then _ else _) = _ =>
        replace (lo <=? b)%N with false by (symmetry; apply N.leb_gt; lia);
        reflexivity
    end.
Qed.

Lemma valid_ascii s : all_ascii s = true -> valid s.
Proof.
  unfold valid. induction s as [|c s IH]; intros H; cbn [run all_ascii] in *; [reflexivity|].
  apply andb_prop in H as [Hc Hs]. rewrite (step_ascii Start c Hc). auto.
Qed.

Lemma utf8_run_escape st s : run st (Csv.escape s) = run st s.
Proof.
  revert st. induction s as [|c s IH]; intros st; simpl; [reflexivity|].
  destruct (Ascii.eqb c Csv.dquote) eqn:Hc.
  - apply Ascii.eqb_eq in Hc. subst c. cbn [run].
    rewrite (step_ascii st Csv.dquote) by reflexivity.
    destruct st; try reflexivity.
    rewrite (step_ascii Start Csv.dquote) by reflexivity. apply IH.
  - cbn [run]. destruct (step st c); [apply IH|reflexivity].
Qed.

Lemma valid_quoted s : valid s -> valid (Csv.quoted s).
Proof.
  intros H. unfold Csv.quoted.
  change (String Csv.dquote (Csv.escape s +:+ String Csv.dquote EmptyString))
    with (String Csv.dquote EmptyString +:+ (Csv.escape s +:+ String Csv.dquote EmptyString)).
  apply valid_app; [reflexivity|]. apply valid_app; [|reflexivity].
  unfold valid. rewrite utf8_run_escape. exact H.
Qed.

Lemma all_ascii_uint d : all_ascii (NilEmpty.string_of_uint d) = true.
Proof. induction d; simpl; auto. Qed.

Lemma all_ascii_str z : all_ascii (Py.str z) = true.
Proof.
  unfold Py.str. destruct (Z.to_int z) as [d|d]; simpl.
  - destruct d; try reflexivity; apply (all_ascii_uint (_ _)).
  - destruct d; try reflexivity; apply (all_ascii_uint (_ _)).
Qed.

Lemma valid_field v : valid_cell v -> valid (Csv.field v).
Proof.
  destruct v as [z|s]; simpl.
  - intros _. apply valid_ascii, all_ascii_str.
  - apply valid_quoted.
Qed.

Lemma valid_join_fields fs : Forall valid fs -> valid (Csv.join_fields fs).
Proof.
  induction 1 as [|f fs Hf Hfs IH]; [reflexivity|].
  destruct fs as [|f' fs]; [exact Hf|].
  change (Csv.join_fields (f :: f' :: fs))
    with (f +:+ (String Csv.comma EmptyString +:+ Csv.join_fields (f' :: fs))).
  apply valid_app; [exact Hf|]. apply valid_app; [reflexivity|exact IH].
Qed.

Lemma valid_writerow fs : Forall valid fs -> valid (Csv.writerow fs).
Proof.
  intros H. unfold Csv.writerow. apply valid_app; [|reflexivity].
  apply valid_join_fields. exact H.
Qed.

Lemma valid_writerows rs : Forall (Forall valid_cell) rs -> valid (Csv.writerows rs).
Proof.
  induction 1 as [|r rs Hr Hrs IH]; [reflexivity|]. simpl.
  apply valid_app; [|exact IH]. apply valid_writerow.
  induction Hr; constructor; auto using valid_field.
Qed.

(** The CSV text of a frame of text is well-formed UTF-8. *)
Lemma valid_to_csv df : valid_frame df -> valid (Csv.to_csv df).
Proof.
  intros [Hcols Hrows]. unfold Csv.to_csv. apply valid_app.
  - apply valid_writerow. induction Hcols; constructor; auto using valid_quoted.
  - apply valid_writerows. exact Hrows.
Qed.

End Utf8Facts.

(* ===================================================================== *)
(** * gzip: the member decompresses to the data, and carries the time *)
(* ===================================================================== *)

Module GzipFacts.
Import Gzip.

Lemma Z_of_byte_of_Z z : Z_of_byte (byte_of_Z z) = z mod 256.
Proof.
  unfold Z_of_byte, byte_of_Z.
  pose proof (Z.mod_pos_bound z 256 ltac:(lia)) as Hb.
  destruct (Byte.of_N (Z.to_N (z mod 256))) as [b|] eqn:Hof.
  - apply Byte.to_of_N in Hof. rewrite Hof. lia.
  - apply Byte.of_N_None_iff in Hof. lia.
Qed.

Lemma Z_of_byte_range b : 0 <= Z_of_byte b < 256.
Proof. unfold Z_of_byte. pose proof (Byte.to_N_bounded b). lia. Qed.

Lemma le32_decode_le32 z : le32_decode (le32 z) = Some (z mod 2 ^ 32).
Proof.
  unfold le32, le32_decode. rewrite !Z_of_byte_of_Z. f_equal.
  rewrite !Z.shiftr_div_pow2, !Z.shiftl_mul_pow2 by lia.
  change (2 ^ 8) with 256. change (2 ^ 16) with (256 * 256).
  change (2 ^ 24) with (256 * 256 * 256).
  change (2 ^ 32) with (256 * (256 * (256 * 256))).
  rewrite <- !Z.div_div by lia.
  rewrite (Z.rem_mul_r z 256 (256 * (256 * 256))) by lia.
  rewrite (Z.rem_mul_r (z / 256) 256 (256 * 256)) by lia.
  rewrite (Z.rem_mul_r (z / 256 / 256) 256 256) by lia.
  lia.
Qed.

Lemma length_le32 z : length (le32 z) = 4%nat.
Proof. reflexivity. Qed.

Lemma length_header t : length (header t) = 10%nat.
Proof. reflexivity. Qed.

Lemma log2_lt_32 a : 0 <= a < 2 ^ 32 -> Z.log2 a < 32.
Proof.
  intros H. destruct (Z.eq_dec a 0) as [->|]; [reflexivity|].
  apply Z.log2_lt_pow2; lia.
Qed.

Lemma lxor_bound a b :
  0 <= a < 2 ^ 32 -> 0 <= b < 2 ^ 32 -> 0 <= Z.lxor a b < 2 ^ 32.
Proof.
  intros Ha Hb.
  assert (H0 : 0 <= Z.lxor a b) by (apply Z.lxor_nonneg; lia).
  split; [exact H0|].
  destruct (Z.eq_dec (Z.lxor a b) 0) as [->|Hne]; [lia|].
  apply Z.log2_lt_pow2; [lia|].
  eapply Z.le_lt_trans; [apply Z.log2_lxor; lia|].
  apply Z.max_lub_lt; apply log2_lt_32; assumption.
Qed.

Lemma shiftr1_bound c : 0 <= c < 2 ^ 32 -> 0 <= Z.shiftr c 1 < 2 ^ 32.
Proof.
  intros H. rewrite Z.shiftr_div_pow2 by lia. change (2 ^ 1) with 2.
  split; [apply Z.div_pos; lia|].
  apply Z.div_lt_upper_bound; lia.
Qed.

Lemma crc_step_bound c : 0 <= c < 2 ^ 32 -> 0 <= crc_step c < 2 ^ 32.
Proof.
  intros H. unfold crc_step. pose proof (shiftr1_bound c H).
  destruct (Z.testbit c 0); [|assumption].
  apply lxor_bound; lia.
Qed.

Lemma crc_byte_bound c b : 0 <= c < 2 ^ 32 -> 0 <= crc_byte c b < 2 ^ 32.
Proof.
  intros H. unfold crc_byte.
  assert (H0 : 0 <= Z.lxor c (Z_of_byte b) < 2 ^ 32).
  { apply lxor_bound; [lia|]. pose proof (Z_of_byte_range b). lia. }
  generalize dependent (Z.lxor c (Z_of_byte b)). intros x Hx.
  do 8 (apply crc_step_bound in Hx). exact Hx.
Qed.

Lemma crc32_bound data : 0 <= crc32 data < 2 ^ 32.
Proof.
  unfold crc32. apply lxor_bound; [|lia].
  assert (H : 0 <= 4294967295 < 2 ^ 32) by lia.
  generalize dependent 4294967295. induction data as [|b data IH]; intros c Hc.
  - exact Hc.
  - simpl. apply IH. apply crc_byte_bound. exact Hc.
Qed.

(** What [gzip.decompress] returns for a member [GzipFile] wrote. *)
Lemma decompress_compress zl t data :
  zlib_correct zl -> decompress zl (compress zl t data) = Some data.
Proof.
  intros Hzl. unfold compress.
  set (rest := deflate zl data ++ trailer data).
  unfold header, decompress. cbn [app le32].
  rewrite !Byte.byte_dec_lb by reflexivity. cbn [andb].
  assert (Hlen : (length rest - 8 = length (deflate zl data))%nat).
  { subst rest. unfold trailer. rewrite !length_app, !length_le32. lia. }
  rewrite Hlen. subst rest.
  rewrite firstn_app, Nat.sub_diag, firstn_all. cbn [firstn]. rewrite app_nil_r.
  rewrite Hzl.
  rewrite skipn_app, Nat.sub_diag, skipn_all. cbn [skipn app].
  unfold trailer. change (skipn 0 ?l) with l.
  rewrite firstn_app, length_le32. cbn [Nat.sub firstn]. rewrite app_nil_r.
  rewrite (firstn_all2 (n := 4)) by (rewrite length_le32; lia).
  rewrite skipn_app, length_le32. cbn [Nat.sub skipn].
  rewrite (skipn_all2 (n := 4)) by (rewrite length_le32; lia). cbn [app].
  change (skipn 0 ?l) with l.
  rewrite !le32_decode_le32.
  rewrite (Z.mod_small (crc32 data)) by apply crc32_bound.
  rewrite !Z.eqb_refl. reflexivity.
Qed.

(** The member carries the clock reading in bytes 4 to 7. *)
Lemma mtime_of_compress zl t data :
  mtime_of (compress zl t data) = Some (t mod 2 ^ 32).
Proof.
  unfold mtime_of, compress, header. cbn [app skipn].
  change (skipn 0 ?l) with l. rewrite <- app_assoc.
  rewrite firstn_app, length_le32. cbn [Nat.sub firstn]. rewrite app_nil_r.
  rewrite (firstn_all2 (n := 4)) by (rewrite length_le32; lia).
  apply le32_decode_le32.
Qed.

End GzipFacts.

(* ===================================================================== *)
(** * The stored-block coder is a DEFLATE coder *)
(* ===================================================================== *)

Module StoredFacts.
Import Stored.

Lemma le16_decode_le16 z :
  0 <= z <= block_max ->
  match le16 z with
  | [b0; b1] => le16_decode b0 b1 = z
  | _ => False
  end.
Proof.
  unfold block_max. intros Hz. unfold le16, le16_decode.
  rewrite !GzipFacts.Z_of_byte_of_Z.
  rewrite Z.shiftr_div_pow2, Z.shiftl_mul_pow2 by lia. change (2 ^ 8) with 256.
  rewrite (Z.mod_small (z / 256)).
  - pose proof (Z.div_mod z 256 ltac:(lia)). lia.
  - split; [apply Z.div_pos; lia|]. apply Z.div_lt_upper_bound; lia.
Qed.

Lemma length_le16 z : length (le16 z) = 2%nat.
Proof. reflexivity. Qed.

Lemma unblocks_blocks fuel data fuel' :
  (length data < fuel)%nat -> (length (blocks fuel data) <= fuel')%nat ->
  unblocks fuel' (blocks fuel data) = Some data.
Proof.
  assert (Hbm : block_max = 65535) by reflexivity.
  revert data fuel'. induction fuel as [|fuel IH]; intros data fuel' Hd Hb; [lia|].
  cbn [blocks] in *.
  destruct (Z.leb_spec (Z.of_nat (length data)) block_max) as [Hle|Hgt].
  - pose proof (le16_decode_le16 (Z.of_nat (length data)) ltac:(lia)) as H1.
    pose proof (le16_decode_le16 (block_max - Z.of_nat (length data))
                  ltac:(lia)) as H2.
    destruct (le16 (Z.of_nat (length data))) as [|l0 [|l1 [|? ?]]]; try contradiction.
    destruct (le16 (block_max - Z.of_nat (length data))) as [|n0 [|n1 [|? ?]]];
      try contradiction.
    cbn [app length] in *. destruct fuel' as [|fuel']; [lia|].
    cbn [unblocks]. rewrite H1, H2.
    replace (Z.of_nat (length data) + (block_max - Z.of_nat (length data)) =? block_max)
      with true by (symmetry; apply Z.eqb_eq; lia).
    cbn [negb]. rewrite Byte.byte_dec_lb by reflexivity.
    rewrite Z.eqb_refl. reflexivity.
  - pose proof (le16_decode_le16 block_max ltac:(unfold block_max; lia)) as H1.
    pose proof (le16_decode_le16 0 ltac:(unfold block_max; lia)) as H2.
    destruct (le16 block_max) as [|l0 [|l1 [|? ?]]]; try contradiction.
    destruct (le16 0) as [|n0 [|n1 [|? ?]]]; try contradiction.
    set (m := Z.to_nat block_max) in *.
    assert (Hm : (m < length data)%nat) by (subst m; lia).
    assert (Hm' : Z.of_nat m = block_max) by (subst m; lia).
    assert (Hf : length (firstn m data) = m) by (rewrite length_firstn; lia).
    cbn [app length] in *. rewrite length_app in Hb.
    destruct fuel' as [|fuel']; [lia|].
    cbn [unblocks]. rewrite H1, H2.
    replace (block_max + 0 =? block_max) with true
      by (symmetry; apply Z.eqb_eq; lia).
    cbn [negb].
    replace (Byte.eqb x00 x01) with false by reflexivity.
    rewrite Byte.byte_dec_lb by reflexivity.
    destruct (Z.leb_spec block_max
                (Z.of_nat (length (firstn m data ++ blocks fuel (skipn m data)))))
      as [_|Hbad]; [|rewrite length_app in Hbad; lia].
    fold m.
    rewrite firstn_app, Hf, Nat.sub_diag, (firstn_all2 (n := m)) by lia.
    cbn [firstn]. rewrite app_nil_r.
    rewrite skipn_app, Hf, Nat.sub_diag, (skipn_all2 (n := m)) by lia.
    cbn [skipn app]. change (skipn 0 ?l) with l.
    rewrite IH.
    + cbn [option_map]. rewrite firstn_skipn. reflexivity.
    + rewrite length_skipn. lia.
    + lia.
Qed.

Lemma stored_correct : zlib_correct zlib.
Proof.
  intros data. unfold zlib. simpl.
  unfold Stored.inflate, Stored.deflate. apply unblocks_blocks; lia.
Qed.

End StoredFacts.

(* ===================================================================== *)
(** * create_gzipped_csv_stream_from_df *)
(* ===================================================================== *)

Lemma create_eq zl env df w :
  create_gzipped_csv_stream_from_df zl env df w
  = (tick w, Ok (Gzip.compress zl (time env (ticks w))
                   (list_byte_of_string (Csv.to_csv df)))).
Proof. reflexivity. Qed.

(** C6 (as amended).  The buffer is a gzip member whose decompressed
    content is the CSV text of the frame, and that text reads back as the
    frame: the labels in the first line, no index column, strings in
    quotes and numbers bare; it is well-formed UTF-8 when the labels and
    the string cells are.  Nothing is sent, written or logged and no
    frame is touched; the clock is read once, and the buffer carries that
    reading in its MTIME field.  Two calls on the same frame return the
    same buffer when they read the same time. *)
Theorem create_gzipped_csv_stream_from_df_spec zl env df w :
  zlib_correct zl ->
  exists buf,
    create_gzipped_csv_stream_from_df zl env df w = (tick w, Ok buf) /\
    option_map string_of_list_byte (Gzip.decompress zl buf) = Some (Csv.to_csv df) /\
    CsvReader.read (Csv.to_csv df) = Some df /\
    (Utf8.valid_frame df -> Utf8.valid (Csv.to_csv df)) /\
    Gzip.mtime_of buf = Some (time env (ticks w) mod 2 ^ 32) /\
    trace (tick w) = trace w /\ heap (tick w) = heap w /\
    handlers (tick w) = handlers w /\
    forall w', time env (ticks w') = time env (ticks w) ->
               snd (create_gzipped_csv_stream_from_df zl env df w') = Ok buf.
Proof.
  intros Hzl. eexists. split; [apply create_eq|].
  split; [|split; [|split; [|split; [|split; [|split; [|split]]]]]];
    try reflexivity.
  - rewrite GzipFacts.decompress_compress by exact Hzl. simpl.
    rewrite string_of_list_byte_of_string. reflexivity.
  - apply CsvFacts.read_to_csv.
  - apply Utf8Facts.valid_to_csv.
  - apply GzipFacts.mtime_of_compress.
  - intros w' Ht. rewrite create_eq. simpl. rewrite Ht. reflexivity.
Qed.

Lemma create_gzipped_csv_stream_from_df_spec_witness :
  exists buf,
    create_gzipped_csv_stream_from_df Stored.zlib (constant_server 200)
      (counting_frame 2) empty_world = (tick empty_world, Ok buf) /\
    option_map string_of_list_byte (Gzip.decompress Stored.zlib buf)
      = Some (Csv.to_csv (counting_frame 2)) /\
    CsvReader.read (Csv.to_csv (counting_frame 2)) = Some (counting_frame 2) /\
    (Utf8.valid_frame (counting_frame 2) -> Utf8.valid (Csv.to_csv (counting_frame 2))) /\
    Gzip.mtime_of buf
      = Some (time (constant_server 200) (ticks empty_world) mod 2 ^ 32) /\
    trace (tick empty_world) = trace empty_world /\
    heap (tick empty_world) = heap empty_world /\
    handlers (tick empty_world) = handlers empty_world /\
    forall w', time (constant_server 200) (ticks w')
               = time (constant_server 200) (ticks empty_world) ->
               snd (create_gzipped_csv_stream_from_df Stored.zlib (constant_server 200)
                      (counting_frame 2) w') = Ok buf.
Proof.
  apply (create_gzipped_csv_stream_from_df_spec Stored.zlib (constant_server 200)
           (counting_frame 2) empty_world).
  exact StoredFacts.stored_correct.
Defined.

(** C6, as stated, fails: the same frame serialized twice in a row gives
    two different buffers, because the clock moved in between. *)
Lemma create_gzipped_csv_stream_twice_differs :
  let env := constant_server 200 in
  let first := create_gzipped_csv_stream_from_df Stored.zlib env (counting_frame 2)
                 empty_world in
  let second := create_gzipped_csv_stream_from_df Stored.zlib env (counting_frame 2)
                  (fst first) in
  snd first <> snd second.
Proof. vm_compute. intros H. discriminate H. Qed.

(* ===================================================================== *)
(** * The chunk loops *)
(* ===================================================================== *)

Section Loops.

Variable zl : Zlib.
Variable env : Env.

Lemma world_eq w h hs tr t :
  heap w = h -> handlers w = hs -> trace w = tr -> ticks w = t ->
  w = {| heap := h; handlers := hs; trace := tr; ticks := t |}.
Proof. destruct w. simpl. intros; subst. reflexivity. Qed.

(** The loop of [read_and_upload_file_to_dash] in a dry run: a file per
    chunk, numbered from [i] on; the responses stay as they are. *)
Lemma file_loop_dry table org key modify dir chunks i responses w :
  for_each (read_and_upload_file_to_dash_body zl env table org key modify (Some dir))
    chunks (i, responses) w
  = ({| heap := heap w; handlers := handlers w;
        trace := trace w ++ List.map file_event
                   (chunk_files zl env dir table i (ticks w)
                      (List.map (modified modify) chunks));
        ticks := ticks w + length chunks |},
     Ok (i + Z.of_nat (length chunks), responses)).
Proof.
  revert i w. induction chunks as [|chunk chunks IH]; intros i w.
  - simpl. unfold ret. f_equal.
    + apply world_eq; simpl; auto using app_nil_r.
    + do 2 f_equal. lia.
  - cbn [for_each]. unfold bind at 1.
    unfold read_and_upload_file_to_dash_body at 1.
    unfold bind at 1. rewrite create_eq.
    unfold bind at 1. unfold bind at 1. unfold write_file, ret.
    rewrite IH. f_equal.
    + apply world_eq; simpl; try reflexivity.
      * rewrite <- app_assoc. reflexivity.
      * lia.
    + do 2 f_equal. simpl length. lia.
Qed.

Lemma upload_ticks_failed stride q r :
  failed (q, r) = true -> upload_ticks stride [Sent q r] = 1%nat.
Proof. intros H. unfold upload_ticks. simpl. rewrite H. simpl. lia. Qed.

Lemma upload_ticks_accepted stride q r logs evs :
  failed (q, r) = false -> sent logs = [] -> (1 <= stride)%nat ->
  upload_ticks stride ((Sent q r :: logs) ++ evs)
  = (stride + upload_ticks stride evs)%nat.
Proof.
  intros H Hlogs Hs. unfold upload_ticks.
  change ((Sent q r :: logs) ++ evs) with (Sent q r :: (logs ++ evs)).
  change (sent (Sent q r :: logs ++ evs)) with ((q, r) :: sent (logs ++ evs)).
  rewrite sent_app, Hlogs. cbn [app List.filter length]. rewrite H. cbn [negb length].
  nia.
Qed.

Lemma upload_error_failed q r :
  failed (q, r) = true -> upload_error [Sent q r] = Some (HTTPError (status_code r)).
Proof. intros H. unfold upload_error. simpl. rewrite H. reflexivity. Qed.

Lemma upload_error_accepted q r logs evs :
  failed (q, r) = false -> sent logs = [] ->
  upload_error ((Sent q r :: logs) ++ evs) = upload_error evs.
Proof.
  intros H Hlogs. unfold upload_error.
  change ((Sent q r :: logs) ++ evs) with (Sent q r :: (logs ++ evs)).
  change (sent (Sent q r :: logs ++ evs)) with ((q, r) :: sent (logs ++ evs)).
  rewrite sent_app, Hlogs. cbn [app List.find]. rewrite H. reflexivity.
Qed.

Lemma sent_accepted q r logs evs :
  sent logs = [] -> sent ((Sent q r :: logs) ++ evs) = (q, r) :: sent evs.
Proof.
  intros Hlogs.
  change ((Sent q r :: logs) ++ evs) with (Sent q r :: (logs ++ evs)).
  change (sent (Sent q r :: logs ++ evs)) with ((q, r) :: sent (logs ++ evs)).
  rewrite sent_app, Hlogs. reflexivity.
Qed.

(** The loop of [read_and_upload_file_to_dash] when it uploads: a request
    per chunk until one fails; the bodies of the accepted ones are
    collected. *)
Lemma file_loop_upload table org key modify chunks i responses w :
  for_each (read_and_upload_file_to_dash_body zl env table org key modify None)
    chunks (i, responses) w
  = let evs := upload_events zl env org key table no_logs 1 (trace w) (ticks w)
                 (List.map (modified modify) chunks) in
    ({| heap := heap w; handlers := handlers w;
        trace := trace w ++ evs;
        ticks := ticks w + upload_ticks 1 evs |},
     match upload_error evs with
     | Some e => Raise e
     | None => Ok (i + Z.of_nat (length chunks),
                   responses ++ List.map (fun x => text (snd x)) (sent evs))
     end).
Proof.
  revert i responses w. induction chunks as [|chunk chunks IH]; intros i responses w.
  - simpl. unfold ret. f_equal.
    + apply world_eq; simpl; auto using app_nil_r.
    + unfold upload_error. simpl. rewrite app_nil_r. do 2 f_equal. lia.
  - cbn [for_each]. unfold bind at 1.
    unfold read_and_upload_file_to_dash_body at 1.
    unfold bind at 1. rewrite create_eq.
    unfold bind at 1. unfold bind at 1. rewrite upload_csv_to_dash_eq.
    cbn [List.map upload_events]. cbn zeta.
    change (Gzip.compress zl (time env (ticks w))
              (list_byte_of_string (Csv.to_csv (modified modify chunk))))
      with (payload zl env (ticks w) (modified modify chunk)).
    change (match modify with Some f => f chunk | None => chunk end)
      with (modified modify chunk).
    change (Gzip.compress zl (time env (ticks w))
              (list_byte_of_string (Csv.to_csv (modified modify chunk))))
      with (payload zl env (ticks w) (modified modify chunk)).
    set (q := dash_request org key table (payload zl env (ticks w) (modified modify chunk))).
    change (trace (tick w)) with (trace w).
    set (r := server env (trace w) q).
    destruct (is_error (status_code r)) eqn:Herr.
    + rewrite upload_ticks_failed, upload_error_failed by exact Herr.
      f_equal. apply world_eq; simpl; try reflexivity. lia.
    + unfold ret. rewrite IH. cbn zeta.
      change (trace (emit [Sent q r] (tick w))) with (trace w ++ [Sent q r]).
      change (ticks (emit [Sent q r] (tick w))) with (S (ticks w)).
      change (no_logs (ticks w) r) with (@nil Event).
      replace (ticks w + 1)%nat with (S (ticks w)) by lia.
      set (evs := upload_events zl env org key table no_logs 1
                    (trace w ++ [Sent q r]) (S (ticks w))
                    (List.map (modified modify) chunks)).
      rewrite (upload_ticks_accepted 1 q r [] evs), (upload_error_accepted q r [] evs),
        (sent_accepted q r [] evs) by (auto; lia).
      f_equal.
      * apply world_eq; simpl; try reflexivity.
        -- rewrite <- app_assoc. reflexivity.
        -- lia.
      * destruct (upload_error evs); [reflexivity|].
        cbn [List.map snd text]. rewrite <- app_assoc. cbn [app].
        do 2 f_equal. simpl length. lia.
Qed.

Lemma enumerate_from_cons {A} i (x : A) l :
  combine (List.map Z.of_nat (List.seq i (length (x :: l)))) (x :: l)
  = (Z.of_nat i, x) :: combine (List.map Z.of_nat (List.seq (S i) (length l))) l.
Proof. reflexivity. Qed.

(** The loop of [upload_dataframe] in a dry run. *)
Lemma frame_loop_dry table org key dir chunks i w :
  for_each (upload_dataframe_body zl env table org key (Some dir))
    (combine (List.map Z.of_nat (List.seq i (length chunks))) chunks) tt w
  = ({| heap := heap w; handlers := handlers w;
        trace := trace w ++ List.map file_event
                   (chunk_files zl env dir table (Z.of_nat i) (ticks w) chunks);
        ticks := ticks w + length chunks |},
     Ok tt).
Proof.
  revert i w. induction chunks as [|chunk chunks IH]; intros i w.
  - simpl. unfold ret. f_equal. apply world_eq; simpl; auto using app_nil_r.
  - rewrite enumerate_from_cons. cbn [for_each]. unfold bind at 1.
    unfold upload_dataframe_body at 1.
    unfold bind at 1. rewrite create_eq. unfold write_file.
    rewrite IH. f_equal.
    apply world_eq; simpl; try reflexivity.
    + rewrite <- app_assoc. cbn [app].
      replace (Z.of_nat i + 1) with (Z.of_nat (S i)) by lia. reflexivity.
    + lia.
Qed.

Lemma sent_info_logs hs t r : sent (info_logs env hs t r) = [].
Proof. unfold info_logs. apply sent_log_lines. Qed.

(** The loop of [upload_dataframe] when it uploads: the body of every
    accepted response is logged to every handler. *)
Lemma frame_loop_upload table org key chunks i w :
  for_each (upload_dataframe_body zl env table org key None)
    (combine (List.map Z.of_nat (List.seq i (length chunks))) chunks) tt w
  = let evs := upload_events zl env org key table (info_logs env (handlers w)) 2
                 (trace w) (ticks w) chunks in
    ({| heap := heap w; handlers := handlers w;
        trace := trace w ++ evs;
        ticks := ticks w + upload_ticks 2 evs |},
     match upload_error evs with
     | Some e => Raise e
     | None => Ok tt
     end).
Proof.
  revert i w. induction chunks as [|chunk chunks IH]; intros i w.
  - simpl. unfold ret. f_equal. apply world_eq; simpl; auto using app_nil_r.
  - rewrite enumerate_from_cons. cbn [for_each]. unfold bind at 1.
    unfold upload_dataframe_body at 1.
    unfold bind at 1. rewrite create_eq.
    unfold bind at 1. rewrite upload_csv_to_dash_eq.
    cbn [upload_events]. cbn zeta.
    change (Gzip.compress zl (time env (ticks w))
              (list_byte_of_string (Csv.to_csv chunk)))
      with (payload zl env (ticks w) chunk).
    set (q := dash_request org key table (payload zl env (ticks w) chunk)).
    change (trace (tick w)) with (trace w).
    set (r := server env (trace w) q).
    destruct (is_error (status_code r)) eqn:Herr.
    + rewrite upload_ticks_failed, upload_error_failed by exact Herr.
      f_equal. apply world_eq; simpl; try reflexivity. lia.
    + unfold logger_info, bind, datetime_now.
      change (ticks (emit [Sent q r] (tick w))) with (S (ticks w)).
      change (handlers (tick (emit [Sent q r] (tick w)))) with (handlers w).
      fold (info_logs env (handlers w) (ticks w) r).
      set (logs := info_logs env (handlers w) (ticks w) r).
      rewrite IH. cbn zeta.
      change (handlers (emit logs (tick (emit [Sent q r] (tick w))))) with (handlers w).
      change (heap (emit logs (tick (emit [Sent q r] (tick w))))) with (heap w).
      change (trace (emit logs (tick (emit [Sent q r] (tick w)))))
        with ((trace w ++ [Sent q r]) ++ logs).
      change (ticks (emit logs (tick (emit [Sent q r] (tick w))))) with (S (S (ticks w))).
      replace ((trace w ++ [Sent q r]) ++ logs) with (trace w ++ Sent q r :: logs)
        by (rewrite <- app_assoc; reflexivity).
      replace (ticks w + 2)%nat with (S (S (ticks w))) by lia.
      set (evs := upload_events zl env org key table (info_logs env (handlers w)) 2
                    (trace w ++ Sent q r :: logs) (S (S (ticks w))) chunks).
      rewrite (upload_ticks_accepted 2 q r logs evs Herr (sent_info_logs _ _ _) ltac:(lia)),
        (upload_error_accepted q r logs evs Herr (sent_info_logs _ _ _)).
      f_equal. apply world_eq; simpl; try reflexivity.
      * rewrite <- app_assoc. reflexivity.
      * lia.
Qed.

End Loops.

(* ===================================================================== *)
(** * The entry points, in full *)
(* ===================================================================== *)

Section EntryPoints.

Variable zl : Zlib.
Variable env : Env.

Lemma read_and_upload_bad_chunksize file table org key c modify path w :
  c < 1 ->
  read_and_upload_file_to_dash zl env file table org key c modify path w
  = (w, Raise ValueError).
Proof.
  intros Hc. unfold read_and_upload_file_to_dash, bind, lift, read_csv.
  destruct (Z.ltb_spec c 1); [reflexivity|lia].
Qed.

Lemma read_and_upload_dry file table org key c modify dir w r :
  read_csv file c = Ok r ->
  read_and_upload_file_to_dash zl env file table org key c modify (Some dir) w
  = ({| heap := heap w; handlers := handlers w;
        trace := trace w ++ List.map file_event
                   (chunk_files zl env dir table 1 (ticks w)
                      (List.map (modified modify) (reader_chunks r)));
        ticks := ticks w + length (reader_chunks r) |},
     Ok []).
Proof.
  intros Hr. unfold read_and_upload_file_to_dash. unfold bind at 1, lift.
  rewrite Hr. unfold bind. rewrite file_loop_dry. reflexivity.
Qed.

Lemma read_and_upload_upload file table org key c modify w r :
  read_csv file c = Ok r ->
  read_and_upload_file_to_dash zl env file table org key c modify None w
  = let evs := upload_events zl env org key table no_logs 1 (trace w) (ticks w)
                 (List.map (modified modify) (reader_chunks r)) in
    ({| heap := heap w; handlers := handlers w;
        trace := trace w ++ evs;
        ticks := ticks w + upload_ticks 1 evs |},
     match upload_error evs with
     | Some e => Raise e
     | None => Ok (List.map (fun x => text (snd x)) (sent evs))
     end).
Proof.
  intros Hr. unfold read_and_upload_file_to_dash. unfold bind at 1, lift.
  rewrite Hr. unfold bind. rewrite file_loop_upload. cbn zeta.
  destruct (upload_error _); reflexivity.
Qed.

(** [upload_dataframe] up to its loop: the clock is read, the log file
    is opened and its handler attached, the frame is prepared, and the
    loop runs over the chunks of the prepared frame. *)
Lemma upload_dataframe_eq ref table org key dtypes c path snap w :
  upload_dataframe zl env ref table org key dtypes c path snap w
  = let ts := now env (ticks w) in
    let log := log_file_name table ts in
    let w1 := add_handler log (emit [LogOpened log] (tick w)) in
    match prepared ts dtypes snap (frame_at ref w) with
    | Raise e => (w1, Raise e)
    | Ok df' =>
        let w2 := set_heap (heap_prepared ref dtypes snap df' (heap w)) w1 in
        match data_chunks df' c with
        | Raise e => (w2, Raise e)
        | Ok chunks =>
            for_each (upload_dataframe_body zl env table org key path)
              (Py.enumerate chunks) tt w2
        end
    end.
Proof.
  cbn zeta. unfold upload_dataframe, prepared, heap_prepared.
  unfold bind at 1. unfold datetime_now at 1.
  unfold bind at 1. unfold logger_addHandler at 1.
  fold (log_file_name table (now env (ticks w))).
  set (ts := now env (ticks w)). set (log := log_file_name table ts).
  set (w1 := add_handler log (emit [LogOpened log] (tick w))).
  change (snapshot_format) with "%Y-%m-%d %H:%M:%S.%f"%string.
  fold (snapshot_value ts).
  assert (Hheap : heap w1 = heap w) by reflexivity.
  assert (Hframe : forall r, frame_at r w1 = frame_at r w) by reflexivity.
  destruct (truthy dtypes) as [d|].
  - unfold bind at 1. unfold bind at 1. unfold heap_get at 1.
    fold (frame_at ref w1). rewrite Hframe.
    unfold bind at 1. unfold lift at 1.
    destruct (astype d (frame_at ref w)) as [df1|e]; [|reflexivity].
    cbn [rbind]. unfold heap_new at 1. rewrite Hheap.
    set (ref' := fresh (dom (heap w))).
    destruct snap.
    + unfold bind at 1. unfold bind at 1. unfold heap_get at 1.
      cbn [heap set_heap]. rewrite lookup_insert_eq. cbn [default].
      unfold heap_set at 1. cbn [heap set_heap]. rewrite insert_insert_eq.
      unfold bind at 1. unfold heap_get at 1.
      cbn [heap set_heap]. rewrite lookup_insert_eq. cbn [default].
      unfold bind at 1. unfold lift at 1.
      reflexivity.
    + unfold bind at 1. unfold ret at 1.
      unfold bind at 1. unfold heap_get at 1.
      cbn [heap set_heap]. rewrite lookup_insert_eq. cbn [default].
      unfold bind at 1. unfold lift at 1. reflexivity.
  - unfold bind at 1. unfold ret at 1. cbn [rbind].
    destruct snap.
    + unfold bind at 1. unfold bind at 1. unfold heap_get at 1.
      fold (frame_at ref w1). rewrite Hframe.
      unfold heap_set at 1. rewrite Hheap.
      unfold bind at 1. unfold heap_get at 1.
      cbn [heap set_heap]. rewrite lookup_insert_eq. cbn [default].
      unfold bind at 1. unfold lift at 1. reflexivity.
    + unfold bind at 1. unfold ret at 1.
      unfold bind at 1. unfold heap_get at 1.
      fold (frame_at ref w1). rewrite Hframe.
      unfold bind at 1. unfold lift at 1.
      replace (set_heap (heap w) w1) with w1 by (destruct w; reflexivity).
      reflexivity.
Qed.

End EntryPoints.

(* ===================================================================== *)
(** * Runs of uploads and dry-run files, position by position *)
(* ===================================================================== *)

Section RunFacts.

Variable zl : Zlib.
Variable env : Env.

Lemma chunk_files_length dir table i t chunks :
  length (chunk_files zl env dir table i t chunks) = length chunks.
Proof.
  revert i t. induction chunks as [|c chunks IH]; intros i t; simpl; auto.
Qed.

Lemma chunk_files_lookup dir table i t chunks k chunk :
  chunks !! k = Some chunk ->
  chunk_files zl env dir table i t chunks !! k
  = Some (Py.join dir (table +:+ "." +:+ Py.str (i + Z.of_nat k) +:+ ".csv.gz"),
          payload zl env (t + k) chunk).
Proof.
  revert i t k. induction chunks as [|c chunks IH]; intros i t k Hk; [discriminate|].
  destruct k as [|k]; simpl in *.
  - injection Hk as ->. rewrite Z.add_0_r, Nat.add_0_r. reflexivity.
  - rewrite (IH _ _ _ Hk).
    replace (i + 1 + Z.of_nat k) with (i + Z.of_nat (S k)) by lia.
    replace (S t + k)%nat with (t + S k)%nat by lia. reflexivity.
Qed.

Lemma files_written_file_events fs : files_written (List.map file_event fs) = fs.
Proof.
  induction fs as [|[p b] fs IH]; [reflexivity|].
  change (files_written (List.map file_event ((p, b) :: fs)))
    with ((p, b) :: files_written (List.map file_event fs)).
  rewrite IH. reflexivity.
Qed.

Section Uploads.

Variables org key table : string.
Variable logs : nat -> Response -> list Event.
Variable stride : nat.
Hypothesis logs_send_nothing : forall t r, sent (logs t r) = [].
Hypothesis stride_pos : (1 <= stride)%nat.

Let run := upload_events zl env org key table logs stride.

Lemma run_cons tr t chunk chunks :
  let q := dash_request org key table (payload zl env t chunk) in
  let r := server env tr q in
  run tr t (chunk :: chunks)
  = if failed (q, r) then [Sent q r]
    else (Sent q r :: logs t r) ++ run (tr ++ Sent q r :: logs t r) (t + stride) chunks.
Proof. reflexivity. Qed.

(** The requests of a run never outnumber the chunks. *)
Lemma run_length tr t chunks : (length (sent (run tr t chunks)) <= length chunks)%nat.
Proof.
  revert tr t. induction chunks as [|c chunks IH]; intros tr t; [simpl; lia|].
  rewrite run_cons. cbn zeta. destruct (failed _).
  - simpl. lia.
  - rewrite sent_accepted by apply logs_send_nothing. simpl. specialize (IH (tr ++
      Sent (dash_request org key table (payload zl env t c))
           (server env tr (dash_request org key table (payload zl env t c)))
      :: logs t (server env tr (dash_request org key table (payload zl env t c))))
      (t + stride)%nat). lia.
Qed.

(** The k-th request of a run carries the k-th chunk, serialized at the
    k-th stride of the clock, and every request before it was accepted. *)
Lemma run_lookup tr t chunks k q r :
  sent (run tr t chunks) !! k = Some (q, r) ->
  exists chunk,
    chunks !! k = Some chunk /\
    q = dash_request org key table (payload zl env (t + k * stride) chunk) /\
    forall j x, (j < k)%nat -> sent (run tr t chunks) !! j = Some x -> failed x = false.
Proof.
  revert tr t k. induction chunks as [|c chunks IH]; intros tr t k Hk; [discriminate|].
  rewrite run_cons in *. cbn zeta in *.
  set (q0 := dash_request org key table (payload zl env t c)) in *.
  set (r0 := server env tr q0) in *.
  destruct (failed (q0, r0)) eqn:Hf.
  - destruct k as [|k]; [|discriminate]. simpl in Hk. injection Hk as <- <-.
    exists c. split; [reflexivity|]. split; [f_equal; f_equal; lia|]. intros; lia.
  - rewrite sent_accepted in * by apply logs_send_nothing.
    destruct k as [|k].
    + simpl in Hk. injection Hk as <- <-.
      exists c. split; [reflexivity|]. split; [f_equal; f_equal; lia|]. intros; lia.
    + simpl in Hk. destruct (IH _ _ _ Hk) as (chunk & Hc & Hq & Hprev).
      exists chunk. split; [exact Hc|]. split.
      * rewrite Hq. do 2 f_equal. lia.
      * intros [|j] x Hj Hx; simpl in Hx.
        -- injection Hx as <-. exact Hf.
        -- eapply Hprev; [|exact Hx]. lia.
Qed.

(** A request that fails is the last of its run and decides how the run
    ends. *)
Lemma run_failed_last tr t chunks k x :
  sent (run tr t chunks) !! k = Some x -> failed x = true ->
  length (sent (run tr t chunks)) = S k /\
  upload_error (run tr t chunks) = Some (HTTPError (status_code (snd x))) /\
  upload_ticks stride (run tr t chunks) = (k * stride + 1)%nat.
Proof.
  revert tr t k. induction chunks as [|c chunks IH]; intros tr t k Hk Hx; [discriminate|].
  rewrite run_cons in *. cbn zeta in *.
  set (q0 := dash_request org key table (payload zl env t c)) in *.
  set (r0 := server env tr q0) in *.
  destruct (failed (q0, r0)) eqn:Hf.
  - destruct k as [|k]; [|discriminate]. simpl in Hk. injection Hk as <-.
    split; [reflexivity|]. split.
    + apply upload_error_failed. exact Hf.
    + rewrite upload_ticks_failed by exact Hf. reflexivity.
  - rewrite upload_error_accepted, upload_ticks_accepted
      by (auto using logs_send_nothing).
    rewrite sent_accepted in * by apply logs_send_nothing.
    destruct k as [|k]; simpl in Hk.
    + injection Hk as <-. congruence.
    + destruct (IH _ _ _ Hk Hx) as (Hl & He & Ht).
      split; [simpl; lia|]. split; [exact He|]. fold run. rewrite Ht. lia.
Qed.

(** A run that does not fail has a request for every chunk. *)
Lemma run_complete tr t chunks :
  upload_error (run tr t chunks) = None ->
  length (sent (run tr t chunks)) = length chunks /\
  upload_ticks stride (run tr t chunks) = (length chunks * stride)%nat /\
  forall x, In x (sent (run tr t chunks)) -> failed x = false.
Proof.
  revert tr t. induction chunks as [|c chunks IH]; intros tr t He.
  - split; [reflexivity|]. split; [unfold upload_ticks; simpl; lia|]. intros x [].
  - rewrite run_cons in *. cbn zeta in *.
    set (q0 := dash_request org key table (payload zl env t c)) in *.
    set (r0 := server env tr q0) in *.
    destruct (failed (q0, r0)) eqn:Hf.
    + rewrite upload_error_failed in He by exact Hf. discriminate.
    + rewrite upload_error_accepted in He by (auto using logs_send_nothing).
      rewrite upload_ticks_accepted by (auto using logs_send_nothing).
      rewrite sent_accepted by apply logs_send_nothing.
      destruct (IH _ _ He) as (Hl & Ht & Hall).
      split; [simpl; lia|]. split; [fold run; rewrite Ht; simpl; lia|].
      intros x [<-|Hin]; [exact Hf|]. apply Hall. exact Hin.
Qed.

(** A run that fails does so at some request. *)
Lemma run_error tr t chunks e :
  upload_error (run tr t chunks) = Some e ->
  exists k x, sent (run tr t chunks) !! k = Some x /\ failed x = true /\
              e = HTTPError (status_code (snd x)).
Proof.
  unfold upload_error. intros He.
  destruct (List.find failed (sent (run tr t chunks))) as [x|] eqn:Hfind; [|discriminate].
  injection He as <-. apply find_some in Hfind as [Hin Hx].
  apply list_elem_of_In, list_elem_of_lookup in Hin as [k Hk].
  exists k, x. auto.
Qed.

Lemma run_files tr t chunks :
  (forall t r, files_written (logs t r) = []) ->
  files_written (run tr t chunks) = [].
Proof.
  intros Hlogs. revert tr t. induction chunks as [|c chunks IH]; intros tr t; [reflexivity|].
  rewrite run_cons. cbn zeta. destruct (failed _); [reflexivity|].
  rewrite files_written_app. fold run. rewrite IH. simpl.
  change (omap _ (logs t ?r)) with (files_written (logs t r)).
  rewrite Hlogs. reflexivity.
Qed.

End Uploads.

End RunFacts.

(* ===================================================================== *)
(** * read_and_upload_file_to_dash: what is returned *)
(* ===================================================================== *)

Lemma read_csv_cases file c :
  (c < 1 /\ read_csv file c = Raise ValueError) \/
  (1 <= c /\ exists r, read_csv file c = Ok r).
Proof.
  unfold read_csv. destruct (Z.ltb_spec c 1); [left|right]; eauto.
Qed.

(** C9.  A call that returns gives back the bodies of the responses, one
    per chunk and in the order of the chunks: the k-th body answers the
    request that carried the k-th chunk.  In a dry run the list is
    empty. *)
Theorem read_and_upload_returns_the_response_bodies
    zl env file table org key c modify path w res :
  snd (read_and_upload_file_to_dash zl env file table org key c modify path w) = Ok res ->
  match path with
  | Some _ => res = []
  | None =>
      exists r exchanges,
        read_csv file c = Ok r /\
        sent (trace (fst (read_and_upload_file_to_dash zl env file table org key c
                            modify None w)))
          = sent (trace w) ++ exchanges /\
        res = List.map (fun x => text (snd x)) exchanges /\
        length res = length (reader_chunks r) /\
        forall k chunk,
          reader_chunks r !! k = Some chunk ->
          exists resp,
            exchanges !! k
              = Some (dash_request org key table
                        (payload zl env (ticks w + k) (modified modify chunk)), resp) /\
            res !! k = Some (text resp)
  end.
Proof.
  intros Hres.
  destruct (read_csv_cases file c) as [[Hc _]|[_ [r Hr]]].
  { rewrite read_and_upload_bad_chunksize in Hres by exact Hc. discriminate. }
  destruct path as [dir|].
  - rewrite (read_and_upload_dry _ _ _ _ _ _ _ _ _ _ _ Hr) in Hres.
    simpl in Hres. congruence.
  - rewrite (read_and_upload_upload _ _ _ _ _ _ _ _ _ _ Hr) in *. cbn zeta in *.
    cbn [fst snd trace] in *.
    set (evs := upload_events zl env org key table no_logs 1 (trace w) (ticks w)
                  (List.map (modified modify) (reader_chunks r))) in *.
    destruct (upload_error evs) eqn:He; [discriminate|]. injection Hres as <-.
    destruct (run_complete zl env org key table no_logs 1
                ltac:(reflexivity) ltac:(lia) _ _ _ He) as (Hlen & _ & _).
    fold evs in Hlen. rewrite length_map in Hlen.
    exists r, (sent evs). split; [exact Hr|]. split; [apply sent_app|].
    split; [reflexivity|]. split; [rewrite length_map; exact Hlen|].
    intros k chunk Hk.
    assert (Hlt : (k < length (sent evs))%nat)
      by (rewrite Hlen; eapply lookup_lt_Some; exact Hk).
    destruct (lookup_lt_is_Some_2 _ _ Hlt) as [[q resp] Hx].
    destruct (run_lookup zl env org key table no_logs 1 ltac:(reflexivity) ltac:(lia)
                _ _ _ _ _ _ Hx) as (chunk' & Hc' & Hq & _).
    rewrite list_lookup_fmap, Hk in Hc'. injection Hc' as <-.
    exists resp. split.
    + rewrite Hx, Hq. do 4 f_equal. lia.
    + rewrite list_lookup_fmap, Hx. reflexivity.
Qed.

Lemma read_and_upload_returns_the_response_bodies_witness :
  exists r exchanges,
    read_csv (counting_frame 3) 2 = Ok r /\
    sent (trace (fst (read_and_upload_file_to_dash Stored.zlib (failing_after 5)
                        (counting_frame 3) "table" "org" "key" 2 None None
                        empty_world)))
      = sent (trace empty_world) ++ exchanges /\
    ["ok 0"; "ok 1"] = List.map (fun x => text (snd x)) exchanges /\
    length ["ok 0"; "ok 1"] = length (reader_chunks r) /\
    forall k chunk,
      reader_chunks r !! k = Some chunk ->
      exists resp,
        exchanges !! k
          = Some (dash_request "org" "key" "table"
                    (payload Stored.zlib (failing_after 5) (ticks empty_world + k)
                       (modified None chunk)), resp) /\
        ["ok 0"; "ok 1"] !! k = Some (text resp).
Proof.
  apply (read_and_upload_returns_the_response_bodies Stored.zlib (failing_after 5)
           (counting_frame 3) "table" "org" "key" 2 None None empty_world
           ["ok 0"; "ok 1"]).
  vm_compute. reflexivity.
Defined.

(* ===================================================================== *)
(** * upload_dataframe after its preparation *)
(* ===================================================================== *)

Section Prepared.

Variable zl : Zlib.
Variable env : Env.

Lemma upload_dataframe_prepared ref table org key dtypes c path snap w df' chunks :
  prepared (now env (ticks w)) dtypes snap (frame_at ref w) = Ok df' ->
  data_chunks df' c = Ok chunks ->
  upload_dataframe zl env ref table org key dtypes c path snap w
  = let w2 := world_prepared env ref table dtypes snap df' w in
    match path with
    | Some dir =>
        ({| heap := heap w2; handlers := handlers w2;
            trace := trace w2 ++ List.map file_event
                       (chunk_files zl env dir table 0 (ticks w2) chunks);
            ticks := ticks w2 + length chunks |},
         Ok tt)
    | None =>
        let evs := upload_events zl env org key table (info_logs env (handlers w2)) 2
                     (trace w2) (ticks w2) chunks in
        ({| heap := heap w2; handlers := handlers w2;
            trace := trace w2 ++ evs;
            ticks := ticks w2 + upload_ticks 2 evs |},
         match upload_error evs with
         | Some e => Raise e
         | None => Ok tt
         end)
    end.
Proof.
  intros Hp Hc. rewrite upload_dataframe_eq. cbn zeta. rewrite Hp, Hc.
  change (set_heap (heap_prepared ref dtypes snap df' (heap w))
            (add_handler (log_file_name table (now env (ticks w)))
               (emit [LogOpened (log_file_name table (now env (ticks w)))] (tick w))))
    with (world_prepared env ref table dtypes snap df' w).
  unfold Py.enumerate. destruct path as [dir|].
  - apply (frame_loop_dry zl env table org key dir chunks 0).
  - apply (frame_loop_upload zl env table org key chunks 0).
Qed.



End Prepared.

Lemma requests_since_app tr evs : requests_since tr (tr ++ evs) = sent evs.
Proof.
  unfold requests_since. rewrite sent_app. apply drop_app_length.
Qed.

Lemma files_since_app tr evs : files_since tr (tr ++ evs) = files_written evs.
Proof.
  unfold files_since. rewrite files_written_app. apply drop_app_length.
Qed.


(* ===================================================================== *)
(** * A failed upload ends the call *)
(* ===================================================================== *)

Lemma run_logged zl env org key table hs tr t chunks j x p :
  sent (upload_events zl env org key table (info_logs env hs) 2 tr t chunks) !! j = Some x ->
  failed x = false -> In p hs ->
  In (LogLine p (format_record (now env (S (t + j * 2))) "INFO" (text (snd x))))
     (upload_events zl env org key table (info_logs env hs) 2 tr t chunks).
Proof.
  revert tr t j. induction chunks as [|c chunks IH]; intros tr t j Hj Hx Hp; [discriminate|].
  rewrite (run_cons zl env org key table (info_logs env hs) 2) in *. cbn zeta in *.
  set (q0 := dash_request org key table (payload zl env t c)) in *.
  set (r0 := server env tr q0) in *.
  destruct (failed (q0, r0)) eqn:Hf.
  - destruct j as [|j]; [|discriminate]. simpl in Hj. injection Hj as <-. congruence.
  - rewrite sent_accepted in Hj by apply sent_info_logs.
    apply in_or_app. destruct j as [|j]; simpl in Hj.
    + injection Hj as <-. left. right. unfold info_logs.
      rewrite Nat.add_0_r. apply in_map_iff. exists p. split; [reflexivity|exact Hp].
    + right. specialize (IH _ _ _ Hj Hx Hp).
      replace (S (t + S j * 2)) with (S (t + 2 + j * 2)) by lia. exact IH.
Qed.

Lemma in_log_lines p line evs : In (LogLine p line) evs -> In (p, line) (log_lines evs).
Proof.
  induction evs as [|ev evs IH]; [intros []|].
  intros [->|Hin].
  - left. reflexivity.
  - destruct ev; simpl; auto.
Qed.




(* ===================================================================== *)
(** * Dry run: where the chunks are written *)
(* ===================================================================== *)






(* ===================================================================== *)
(** * Frames: setitem, astype, slices *)
(* ===================================================================== *)

Lemma has_column_spec key df : has_column key df = true <-> In key (df_columns df).
Proof.
  unfold has_column. rewrite existsb_exists. split.
  - intros (c & Hin & Heq). apply String.eqb_eq in Heq. subst. exact Hin.
  - intros Hin. exists key. split; [exact Hin|apply String.eqb_refl].
Qed.

Lemma setitem_columns key v df :
  df_columns (setitem key v df)
  = if has_column key df then df_columns df else df_columns df ++ [key].
Proof. unfold setitem. destruct (has_column key df); reflexivity. Qed.


Lemma length_overwrite key v cols r : length (overwrite key v cols r) = length r.
Proof.
  revert r. induction cols as [|c cols IH]; intros [|x r]; simpl; auto.
Qed.

Lemma overwrite_lookup key v cols r j :
  length r = length cols -> cols !! j = Some key ->
  overwrite key v cols r !! j = Some v.
Proof.
  revert r j. induction cols as [|c cols IH]; intros [|x r] j Hlen Hj;
    try discriminate.
  destruct j as [|j]; simpl in *.
  - injection Hj as ->. rewrite String.eqb_refl. reflexivity.
  - apply IH; [lia|exact Hj].
Qed.

Lemma overwrite_other key v cols r j c :
  cols !! j = Some c -> c <> key -> overwrite key v cols r !! j = r !! j.
Proof.
  revert r j. induction cols as [|c0 cols IH]; intros [|x r] j Hj Hne;
    try discriminate; try reflexivity.
  destruct j as [|j]; simpl in *.
  - injection Hj as ->. destruct (String.eqb_spec c key); [contradiction|reflexivity].
  - apply IH; assumption.
Qed.

Lemma setitem_well_formed key v df : well_formed df -> well_formed (setitem key v df).
Proof.
  unfold well_formed, setitem. intros Hwf.
  destruct (has_column key df); simpl.
  - apply List.Forall_forall. intros r Hin. apply in_map_iff in Hin as (r0 & <- & Hin).
    rewrite length_overwrite. rewrite List.Forall_forall in Hwf. auto.
  - apply List.Forall_forall. intros r Hin. apply in_map_iff in Hin as (r0 & <- & Hin).
    rewrite !length_app. simpl. rewrite List.Forall_forall in Hwf.
    rewrite (Hwf r0 Hin). reflexivity.
Qed.

(** After [df[key] = v] every row holds [v] under [key]. *)
Lemma setitem_cell key v df row j :
  well_formed df ->
  In row (df_rows (setitem key v df)) ->
  df_columns (setitem key v df) !! j = Some key ->
  row !! j = Some v.
Proof.
  unfold well_formed. rewrite List.Forall_forall. intros Hwf Hrow Hj.
  unfold setitem in *. destruct (has_column key df) eqn:Hhas; simpl in *.
  - apply in_map_iff in Hrow as (r0 & <- & Hin).
    apply overwrite_lookup; auto.
  - apply in_map_iff in Hrow as (r0 & <- & Hin).
    assert (Hjl : j = length (df_columns df)).
    { destruct (Nat.lt_ge_cases j (length (df_columns df))) as [Hlt|Hge].
      - rewrite lookup_app_l in Hj by exact Hlt.
        assert (In key (df_columns df))
          by (apply list_elem_of_In, list_elem_of_lookup; eauto).
        apply has_column_spec in H. congruence.
      - apply lookup_lt_Some in Hj. rewrite length_app in Hj. simpl in Hj. lia. }
    subst j. rewrite <- (Hwf r0 Hin).
    rewrite lookup_app_r by lia. rewrite Nat.sub_diag. reflexivity.
Qed.

(** The cells of the other columns stay as they are. *)
Lemma setitem_other key v df k r j c :
  well_formed df ->
  df_rows df !! k = Some r -> df_columns df !! j = Some c -> c <> key ->
  exists r', df_rows (setitem key v df) !! k = Some r' /\ r' !! j = r !! j.
Proof.
  unfold well_formed. rewrite List.Forall_forall. intros Hwf Hk Hj Hne.
  assert (Hin : In r (df_rows df)) by (apply list_elem_of_In, list_elem_of_lookup; eauto).
  unfold setitem. destruct (has_column key df); simpl.
  - exists (overwrite key v (df_columns df) r). split.
    + rewrite list_lookup_fmap, Hk. reflexivity.
    + eapply overwrite_other; eauto.
  - exists (r ++ [v]). split.
    + rewrite list_lookup_fmap, Hk. reflexivity.
    + apply lookup_app_l. rewrite (Hwf r Hin). eapply lookup_lt_Some. exact Hj.
Qed.

Lemma setitem_row_count key v df :
  length (df_rows (setitem key v df)) = length (df_rows df).
Proof. unfold setitem. destruct (has_column key df); simpl; apply length_map. Qed.

Lemma rmap_ok {A B} (f : A -> result B) l l' :
  rmap f l = Ok l' -> Forall2 (fun a b => f a = Ok b) l l'.
Proof.
  revert l'. induction l as [|a l IH]; intros l' H; simpl in H.
  - injection H as <-. constructor.
  - destruct (f a) as [b|e] eqn:Hf; [|discriminate]. simpl in H.
    destruct (rmap f l) as [bs|e]; [|discriminate]. simpl in H.
    injection H as <-. constructor; auto.
Qed.

Lemma cast_column_lengths j t rs rs' :
  cast_column j t rs = Ok rs' -> Forall2 (fun r r' => length r' = length r) rs rs'.
Proof.
  intros H. apply rmap_ok in H. induction H as [|r r' rs rs' Hr _ IH]; constructor; auto.
  destruct (r !! j) as [v|]; [|congruence].
  destruct (cast t v) as [v'|e]; [|discriminate]. simpl in Hr. injection Hr as <-.
  apply length_insert.
Qed.

Lemma astype_columns_lengths dtype j cols rs rs' :
  astype_columns dtype j cols rs = Ok rs' ->
  Forall2 (fun r r' => length r' = length r) rs rs'.
Proof.
  revert j rs. induction cols as [|c cols IH]; intros j rs H; simpl in H.
  - injection H as <-. induction rs; constructor; auto.
  - destruct (dtype !! c) as [t|].
    + destruct (cast_column j t rs) as [rs1|e] eqn:Hc; [|discriminate]. simpl in H.
      apply cast_column_lengths in Hc. apply IH in H.
      clear -Hc H. revert rs' H. induction Hc as [|r r1 rs rs1 Hr _ IHc]; intros rs' H.
      * exact H.
      * inversion H as [|? r' ? rs2 Hr' Hrest]; subst. constructor; [congruence|auto].
    + eapply IH. exact H.
Qed.

(** A cast keeps the labels, the number of rows and their lengths. *)
Lemma astype_shape dtype df df1 :
  astype dtype df = Ok df1 ->
  df_columns df1 = df_columns df /\
  length (df_rows df1) = length (df_rows df) /\
  (well_formed df -> well_formed df1).
Proof.
  unfold astype. destruct (forallb _ _); [|discriminate].
  destruct (astype_columns dtype 0 (df_columns df) (df_rows df)) as [rs|e] eqn:H;
    [|discriminate].
  simpl. intros [= <-]. simpl. apply astype_columns_lengths in H.
  split; [reflexivity|]. split.
  - symmetry. eapply Forall2_length. exact H.
  - unfold well_formed. simpl. intros Hwf. clear -H Hwf.
    induction H as [|r r' rs rs' Hr _ IH]; [constructor|].
    inversion Hwf; subst. constructor; [congruence|auto].
Qed.

Lemma in_slice {A} (l : list A) i j x : In x (Py.slice l i j) -> In x l.
Proof.
  unfold Py.slice. intros H.
  apply list_elem_of_In in H. apply list_elem_of_In.
  apply subseteq_take in H. apply subseteq_drop in H. exact H.
Qed.

(** A chunk has the labels of the frame it is cut from and rows of it. *)
Lemma data_chunks_sub df c chunks chunk :
  data_chunks df c = Ok chunks -> In chunk chunks ->
  df_columns chunk = df_columns df /\
  forall row, In row (df_rows chunk) -> In row (df_rows df).
Proof.
  unfold data_chunks. destruct (Py.range 0 (shape0 df) c) as [starts|]; [|discriminate].
  intros [= <-] Hin. apply in_map_iff in Hin as (i & <- & _). simpl.
  split; [reflexivity|]. intros row. apply in_slice.
Qed.

(* ===================================================================== *)
(** * upload_dataframe: the snapshot column *)
(* ===================================================================== *)

Lemma prepared_with_snapshot ts dtypes df df1 :
  prepared ts dtypes false df = Ok df1 ->
  prepared ts dtypes true df
  = Ok (setitem "snapshot_timestamp" (snapshot_value ts) df1).
Proof.
  unfold prepared. destruct (truthy dtypes) as [d|].
  - destruct (astype d df); simpl; congruence.
  - simpl. congruence.
Qed.

Lemma prepared_well_formed ts dtypes df df1 :
  well_formed df -> prepared ts dtypes false df = Ok df1 -> well_formed df1.
Proof.
  unfold prepared. intros Hwf. destruct (truthy dtypes) as [d|].
  - destruct (astype d df) as [df2|e] eqn:Ha; simpl; [|discriminate].
    intros [= <-]. apply (astype_shape _ _ _ Ha). exact Hwf.
  - simpl. intros [= <-]. exact Hwf.
Qed.

Lemma upload_dataframe_loop zl env ref table org key dtypes c path snap w df' chunks :
  prepared (now env (ticks w)) dtypes snap (frame_at ref w) = Ok df' ->
  data_chunks df' c = Ok chunks ->
  upload_dataframe zl env ref table org key dtypes c path snap w
  = for_each (upload_dataframe_body zl env table org key path)
      (Py.enumerate chunks) tt (world_prepared env ref table dtypes snap df' w).
Proof.
  intros Hp Hc. rewrite upload_dataframe_eq. cbn zeta. rewrite Hp, Hc. reflexivity.
Qed.

(** C5 (as amended).  With include_snapshot the frame that is cut into
    chunks has the column snapshot_timestamp: appended as the last column
    when the frame had no column of that name, and otherwise the column
    of that name overwritten, no column being added.  The other cells and
    the number of rows stay.  Every row of every chunk of the call holds
    under that name the time read at the start of the call, formatted
    with %Y-%m-%d %H:%M:%S.%f.  [df1] is the frame after the cast, if
    one was asked for. *)
Theorem snapshot_column_is_constant zl env ref table org key dtypes c path w df1 :
  well_formed (frame_at ref w) ->
  prepared (now env (ticks w)) dtypes false (frame_at ref w) = Ok df1 ->
  let stamp := VStr (strftime (now env (ticks w)) "%Y-%m-%d %H:%M:%S.%f") in
  let df' := setitem "snapshot_timestamp" stamp df1 in
  df_columns df' = (if has_column "snapshot_timestamp" df1 then df_columns df1
                    else df_columns df1 ++ ["snapshot_timestamp"]) /\
  length (df_rows df') = length (df_rows df1) /\
  (forall k r j col,
     df_rows df1 !! k = Some r -> df_columns df1 !! j = Some col ->
     col <> "snapshot_timestamp" ->
     exists r', df_rows df' !! k = Some r' /\ r' !! j = r !! j) /\
  forall chunks,
    data_chunks df' c = Ok chunks ->
    upload_dataframe zl env ref table org key dtypes c path true w
    = for_each (upload_dataframe_body zl env table org key path)
        (Py.enumerate chunks) tt (world_prepared env ref table dtypes true df' w) /\
    forall chunk row j,
      In chunk chunks -> In row (df_rows chunk) ->
      df_columns chunk !! j = Some "snapshot_timestamp" ->
      row !! j = Some stamp.
Proof.
  intros Hwf Hp stamp df'.
  pose proof (prepared_well_formed _ _ _ _ Hwf Hp) as Hwf1.
  split; [apply setitem_columns|]. split; [apply setitem_row_count|].
  split; [intros k r j col; apply setitem_other; exact Hwf1|].
  intros chunks Hc. split.
  - apply upload_dataframe_loop; [|exact Hc].
    apply prepared_with_snapshot. exact Hp.
  - intros chunk row j Hchunk Hrow Hj.
    destruct (data_chunks_sub _ _ _ _ Hc Hchunk) as [Hcols Hrows].
    rewrite Hcols in Hj. apply Hrows in Hrow.
    eapply setitem_cell; eauto.
Qed.

Lemma snapshot_column_is_constant_witness :
  let env := constant_server 200 in
  let w := world_with 7 (counting_frame 3) in
  let stamp := VStr "2024-03-09 07:05:00.000042" in
  let df' := setitem "snapshot_timestamp" stamp (counting_frame 3) in
  df_columns df' = ["a"; "snapshot_timestamp"] /\
  length (df_rows df') = 3%nat /\
  exists chunks,
    data_chunks df' 2 = Ok chunks /\ length chunks = 2%nat /\
    upload_dataframe Stored.zlib env 7 "table" "org" "key" None 2 (Some "out") true w
    = for_each (upload_dataframe_body Stored.zlib env "table" "org" "key" (Some "out"))
        (Py.enumerate chunks) tt (world_prepared env 7 "table" None true df' w) /\
    forall chunk row j,
      In chunk chunks -> In row (df_rows chunk) ->
      df_columns chunk !! j = Some "snapshot_timestamp" ->
      row !! j = Some stamp.
Proof.
  intros env w stamp df'.
  destruct (snapshot_column_is_constant Stored.zlib env 7 "table" "org" "key" None 2
              (Some "out") w (counting_frame 3))
    as (Hcols & Hlen & _ & Hchunks).
  - unfold well_formed. vm_compute. repeat constructor.
  - reflexivity.
  - split; [exact Hcols|]. split; [exact Hlen|].
    eexists. split; [reflexivity|]. split; [reflexivity|].
    apply Hchunks. reflexivity.
Defined.

(** C5, as stated, fails: a frame that already has a column
    snapshot_timestamp keeps its number of columns.  It is what a second
    call on the same frame object meets, the first call having added the
    column to the caller's frame. *)
Lemma snapshot_column_second_call_adds_none :
  let env := constant_server 200 in
  let w0 := world_with 7 (counting_frame 2) in
  let w1 := fst (upload_dataframe Stored.zlib env 7 "table" "org" "key" None 2
                   (Some "out") true w0) in
  let w2 := fst (upload_dataframe Stored.zlib env 7 "table" "org" "key" None 2
                   (Some "out") true w1) in
  df_columns (frame_at 7 w0) = ["a"] /\
  df_columns (frame_at 7 w1) = ["a"; "snapshot_timestamp"] /\
  df_columns (frame_at 7 w2) = ["a"; "snapshot_timestamp"].
Proof. vm_compute. repeat split. Qed.

(* ===================================================================== *)
(** * upload_dataframe: the cast and the caller's frame *)
(* ===================================================================== *)

Lemma truthy_nonempty d : d <> ∅ -> truthy (Some d) = Some d.
Proof. intros H. unfold truthy. destruct (decide (d = ∅)); [contradiction|reflexivity]. Qed.

Lemma truthy_none dtypes : dtypes = None \/ dtypes = Some ∅ -> truthy dtypes = None.
Proof. intros [->| ->]; reflexivity. Qed.

(** C8.  With a coercion map that is not empty the frame is cast first:
    when the cast fails the call raises at once, with nothing serialized,
    sent or written; when it succeeds the snapshot column is added to the
    cast frame and the chunks are cut from the result.  For
    [{"a": "int"}] on a string column [a] holding "1" and "2" the text
    written has 1 and 2 bare and the other string column in quotes; and a
    map that names snapshot_timestamp fails on a frame without that
    column, the column being added only after the cast. *)
Theorem dtypes_are_cast_first zl env ref table org key d c path snap w :
  d <> ∅ ->
  let out := upload_dataframe zl env ref table org key (Some d) c path snap w in
  let ts := now env (ticks w) in
  (forall e,
     astype d (frame_at ref w) = Raise e ->
     snd out = Raise e /\
     trace (fst out) = trace w ++ [LogOpened (log_file_name table ts)] /\
     heap (fst out) = heap w /\ ticks (fst out) = S (ticks w)) /\
  (forall df1,
     astype d (frame_at ref w) = Ok df1 ->
     let df' := if snap
                then setitem "snapshot_timestamp"
                       (VStr (strftime ts "%Y-%m-%d %H:%M:%S.%f")) df1
                else df1 in
     forall chunks,
       data_chunks df' c = Ok chunks ->
       out = for_each (upload_dataframe_body zl env table org key path)
               (Py.enumerate chunks) tt
               (world_prepared env ref table (Some d) snap df' w)) /\
  texts_written Stored.zlib
    (fst (upload_dataframe Stored.zlib (constant_server 200) 7 "table" "org" "key"
            (Some {["a" := DInt]}) 30000 (Some "out") false
            (world_with 7 digits_frame)))
  = [("out/table.0.csv.gz",
      Some (lines [in_quotes "a" +:+ "," +:+ in_quotes "b";
                   "1," +:+ in_quotes "x";
                   "2," +:+ in_quotes "y"]))] /\
  snd (upload_dataframe Stored.zlib (constant_server 200) 7 "table" "org" "key"
         (Some {["snapshot_timestamp" := DStr]}) 30000 (Some "out") true
         (world_with 7 digits_frame))
  = Raise KeyError.
Proof.
  intros Hd out ts. split; [|split; [|split]].
  - intros e He. subst out. rewrite upload_dataframe_eq. cbn zeta.
    unfold prepared. rewrite (truthy_nonempty d Hd), He. simpl. auto.
  - intros df1 Ha df' chunks Hc. subst out.
    apply upload_dataframe_loop; [|exact Hc].
    unfold prepared. rewrite (truthy_nonempty d Hd), Ha. reflexivity.
  - vm_compute. reflexivity.
  - vm_compute. reflexivity.
Qed.

Lemma dtypes_are_cast_first_witness :
  let env := constant_server 200 in
  let w := world_with 7 digits_frame in
  (let out := upload_dataframe Stored.zlib env 7 "table" "org" "key"
                (Some {["b" := DInt]}) 1 None true w in
   snd out = Raise ValueError /\
   trace (fst out) = trace w ++ [LogOpened (log_file_name "table" (now env (ticks w)))] /\
   heap (fst out) = heap w /\ ticks (fst out) = S (ticks w)) /\
  (let out := upload_dataframe Stored.zlib env 7 "table" "org" "key"
                (Some {["a" := DInt]}) 1 None true w in
   exists df1 chunks,
     astype {["a" := DInt]} (frame_at 7 w) = Ok df1 /\
     data_chunks (setitem "snapshot_timestamp"
                    (VStr (strftime (now env (ticks w)) "%Y-%m-%d %H:%M:%S.%f")) df1) 1
     = Ok chunks /\
     out = for_each (upload_dataframe_body Stored.zlib env "table" "org" "key" None)
             (Py.enumerate chunks) tt
             (world_prepared env 7 "table" (Some {["a" := DInt]}) true
                (setitem "snapshot_timestamp"
                   (VStr (strftime (now env (ticks w)) "%Y-%m-%d %H:%M:%S.%f")) df1) w)).
Proof.
  intros env w. split.
  - intros out.
    refine (proj1 (dtypes_are_cast_first Stored.zlib env 7 "table" "org" "key"
                     {["b" := DInt]} 1 None true w _) ValueError _).
    + intros H. apply (f_equal (fun m => m !! "b")) in H. vm_compute in H. discriminate.
    + reflexivity.
  - intros out. eexists _, _. split; [reflexivity|]. split; [reflexivity|].
    refine (proj1 (proj2 (dtypes_are_cast_first Stored.zlib env 7 "table" "org" "key"
                            {["a" := DInt]} 1 None true w _)) _ _ _ _).
    + intros H. apply (f_equal (fun m => m !! "a")) in H. vm_compute in H. discriminate.
    + reflexivity.
    + reflexivity.
Defined.

Lemma heap_for_each_body zl env table org key path chunks w :
  heap (fst (for_each (upload_dataframe_body zl env table org key path)
               (Py.enumerate chunks) tt w)) = heap w.
Proof.
  unfold Py.enumerate. destruct path as [dir|].
  - rewrite (frame_loop_dry zl env table org key dir chunks 0). reflexivity.
  - rewrite (frame_loop_upload zl env table org key chunks 0). reflexivity.
Qed.

(** The frame objects after a call, whatever its outcome. *)
Lemma heap_after_upload_dataframe zl env ref table org key dtypes c path snap w :
  heap (fst (upload_dataframe zl env ref table org key dtypes c path snap w))
  = match prepared (now env (ticks w)) dtypes snap (frame_at ref w) with
    | Ok df' => heap_prepared ref dtypes snap df' (heap w)
    | Raise _ => heap w
    end.
Proof.
  rewrite upload_dataframe_eq. cbn zeta.
  destruct (prepared _ dtypes snap (frame_at ref w)) as [df'|e]; [|reflexivity].
  destruct (data_chunks df' c) as [chunks|e]; [|reflexivity].
  rewrite heap_for_each_body. reflexivity.
Qed.



(* ===================================================================== *)
(** * Further properties of the two entry points *)
(* ===================================================================== *)

Lemma log_events_app tr1 tr2 : log_events (tr1 ++ tr2) = log_events tr1 ++ log_events tr2.
Proof. apply List.filter_app. Qed.

Lemma log_events_file_events fs : log_events (List.map file_event fs) = [].
Proof. induction fs as [|f fs IH]; [reflexivity|exact IH]. Qed.

Lemma log_events_uploads zl env org key table stride tr t chunks :
  log_events (upload_events zl env org key table no_logs stride tr t chunks) = [].
Proof.
  revert tr t. induction chunks as [|c chunks IH]; intros tr t; [reflexivity|].
  rewrite (run_cons zl env org key table no_logs stride). cbn zeta.
  destruct (failed _); [reflexivity|].
  rewrite log_events_app. rewrite IH. reflexivity.
Qed.

(** X1.  Whatever its arguments and its outcome, a call of
    [read_and_upload_file_to_dash] leaves the frame objects and the
    logger's handlers as they are and adds no event of the logging
    module to the trace. *)
Theorem read_and_upload_leaves_frames_and_logger
    zl env file table org key c modify path w :
  let out := read_and_upload_file_to_dash zl env file table org key c modify path w in
  heap (fst out) = heap w /\
  handlers (fst out) = handlers w /\
  log_events (trace (fst out)) = log_events (trace w).
Proof.
  cbn zeta. destruct (read_csv_cases file c) as [[Hc _]|[_ [r Hr]]].
  - rewrite read_and_upload_bad_chunksize by exact Hc. auto.
  - destruct path as [dir|].
    + rewrite (read_and_upload_dry zl env _ _ _ _ _ _ _ _ _ Hr). cbn [fst heap handlers trace].
      rewrite log_events_app, log_events_file_events, app_nil_r. auto.
    + rewrite (read_and_upload_upload zl env _ _ _ _ _ _ _ _ Hr). cbn zeta.
      cbn [fst heap handlers trace].
      rewrite log_events_app, log_events_uploads, app_nil_r. auto.
Qed.

Lemma log_lines_since_app tr evs : log_lines_since tr (tr ++ evs) = log_lines evs.
Proof. unfold log_lines_since. rewrite log_lines_app. apply drop_app_length. Qed.

Lemma log_lines_file_events fs : log_lines (List.map file_event fs) = [].
Proof. induction fs as [|f fs IH]; [reflexivity|exact IH]. Qed.

Lemma log_lines_info_logs env hs t r :
  length (log_lines (info_logs env hs t r)) = length hs.
Proof. unfold info_logs. induction hs as [|p hs IH]; simpl; auto. Qed.

(** A run of uploads logs one line per handler for every accepted
    request. *)
Lemma run_log_lines zl env org key table hs tr t chunks :
  length (log_lines (upload_events zl env org key table (info_logs env hs) 2 tr t chunks))
  = (length (accepted (sent (upload_events zl env org key table (info_logs env hs) 2
                               tr t chunks))) * length hs)%nat.
Proof.
  revert tr t. induction chunks as [|c chunks IH]; intros tr t; [reflexivity|].
  rewrite (run_cons zl env org key table (info_logs env hs) 2). cbn zeta.
  set (q0 := dash_request org key table (payload zl env t c)).
  set (r0 := server env tr q0).
  destruct (failed (q0, r0)) eqn:Hf.
  - unfold accepted. simpl. rewrite Hf. reflexivity.
  - rewrite sent_accepted by apply sent_info_logs.
    change ((Sent q0 r0 :: info_logs env hs t r0) ++ ?l)
      with ([Sent q0 r0] ++ (info_logs env hs t r0 ++ l)).
    rewrite !log_lines_app, !length_app, log_lines_info_logs, IH.
    unfold accepted. cbn [List.filter]. rewrite Hf. cbn [negb length]. simpl. lia.
Qed.

Lemma handlers_after_upload_dataframe zl env ref table org key dtypes c path snap w :
  handlers (fst (upload_dataframe zl env ref table org key dtypes c path snap w))
  = handlers w ++ [log_file_name table (now env (ticks w))].
Proof.
  rewrite upload_dataframe_eq. cbn zeta.
  destruct (prepared _ dtypes snap (frame_at ref w)) as [df'|e]; [|reflexivity].
  destruct (data_chunks df' c) as [chunks|e]; [|reflexivity].
  unfold Py.enumerate. destruct path as [dir|].
  - rewrite (frame_loop_dry zl env table org key dir chunks 0). reflexivity.
  - rewrite (frame_loop_upload zl env table org key chunks 0). reflexivity.
Qed.

(** The trace of a call of [upload_dataframe]: the log file is opened,
    then come the events of the loop, if the loop is reached. *)
Lemma trace_after_upload_dataframe zl env ref table org key dtypes c path snap w :
  exists evs,
    trace (fst (upload_dataframe zl env ref table org key dtypes c path snap w))
    = trace w ++ LogOpened (log_file_name table (now env (ticks w))) :: evs /\
    match path with
    | Some dir => sent evs = [] /\ log_lines evs = []
    | None =>
        files_written evs = [] /\
        length (log_lines evs)
        = (length (accepted (sent evs)) * S (length (handlers w)))%nat
    end.
Proof.
  rewrite upload_dataframe_eq. cbn zeta.
  set (log := log_file_name table (now env (ticks w))).
  assert (Hnone : match path with
                  | Some _ => sent (@nil Event) = [] /\ log_lines (@nil Event) = []
                  | None => files_written (@nil Event) = [] /\
                            length (log_lines (@nil Event))
                            = (length (accepted (sent (@nil Event)))
                               * S (length (handlers w)))%nat
                  end) by (destruct path; split; reflexivity).
  destruct (prepared _ dtypes snap (frame_at ref w)) as [df'|e];
    [|exists []; split; [reflexivity|exact Hnone]].
  destruct (data_chunks df' c) as [chunks|e];
    [|exists []; split; [reflexivity|exact Hnone]].
  unfold Py.enumerate. destruct path as [dir|].
  - rewrite (frame_loop_dry zl env table org key dir chunks 0). eexists.
    split.
    { cbn [fst trace set_heap add_handler emit tick]. rewrite <- app_assoc. reflexivity. }
    split.
    + clear. match goal with |- context [List.map file_event ?l] => generalize l end.
      intros fs. induction fs as [|f fs IH]; [reflexivity|exact IH].
    + apply log_lines_file_events.
  - rewrite (frame_loop_upload zl env table org key chunks 0). cbn zeta. eexists.
    split.
    { cbn [fst trace set_heap add_handler emit tick]. rewrite <- app_assoc. reflexivity. }
    split.
    + apply run_files. intros t r. unfold info_logs. apply files_written_log_lines.
    + rewrite run_log_lines. cbn [handlers set_heap add_handler emit tick].
      rewrite length_app. simpl. f_equal. lia.
Qed.

(** X2.  A call of [upload_dataframe] that returns, or that ends with
    the HTTPError of a refused chunk, has opened a log file named after
    the table and the minute of the call and leaves one more handler on
    the module's logger; none is removed.  The lines such a call logs
    number one per accepted request and per handler attached, those of
    earlier calls included; a dry run logs none.  (A call that ends
    otherwise, as when the log file cannot be opened, is not spoken
    of.) *)
Theorem upload_dataframe_handlers_accumulate
    zl env ref table org key dtypes c path snap w :
  let out := upload_dataframe zl env ref table org key dtypes c path snap w in
  let log := log_file_name table (now env (ticks w)) in
  returned_or_refused (snd out) ->
  handlers (fst out) = handlers w ++ [log] /\
  In (LogOpened log) (trace (fst out)) /\
  length (log_lines_since (trace w) (trace (fst out)))
  = (length (accepted (requests_since (trace w) (trace (fst out))))
     * S (length (handlers w)))%nat /\
  match path with
  | Some _ => log_lines (trace (fst out)) = log_lines (trace w)
  | None => True
  end.
Proof.
  cbn zeta. intros _. split; [apply handlers_after_upload_dataframe|].
  destruct (trace_after_upload_dataframe zl env ref table org key dtypes c path snap w)
    as (evs & -> & Hevs).
  split; [apply in_or_app; right; left; reflexivity|].
  rewrite log_lines_since_app, requests_since_app.
  change (log_lines (LogOpened ?p :: ?l)) with (log_lines l).
  change (sent (LogOpened ?p :: ?l)) with (sent l).
  destruct path as [dir|].
  - destruct Hevs as [Hs Hl]. rewrite Hs, Hl. split; [reflexivity|].
    rewrite log_lines_app. simpl.
    change (log_lines (LogOpened ?p :: ?l)) with (log_lines l).
    rewrite Hl. apply app_nil_r.
  - destruct Hevs as [_ Hl]. split; [exact Hl|exact I].
Qed.

Lemma upload_dataframe_handlers_accumulate_witness :
  let env := failing_after 1 in
  let w := world_with 7 stock_frame in
  let out := upload_dataframe Stored.zlib env 7 "stock" "org" "key" None 2 None true w in
  let log := log_file_name "stock" (now env (ticks w)) in
  returned_or_refused (snd out) /\
  handlers (fst out) = handlers w ++ [log] /\
  In (LogOpened log) (trace (fst out)) /\
  length (log_lines_since (trace w) (trace (fst out)))
  = (length (accepted (requests_since (trace w) (trace (fst out))))
     * S (length (handlers w)))%nat /\
  True.
Proof.
  intros env w out log. subst log out w env.
  assert (Hout : returned_or_refused
                   (snd (upload_dataframe Stored.zlib (failing_after 1) 7 "stock" "org"
                           "key" None 2 None true (world_with 7 stock_frame))))
    by (right; exists 500; vm_compute; reflexivity).
  split; [exact Hout|].
  exact (upload_dataframe_handlers_accumulate Stored.zlib (failing_after 1) 7 "stock"
           "org" "key" None 2 None true (world_with 7 stock_frame) Hout).
Defined.

Lemma sent_world_prepared env ref table dtypes snap df' w evs :
  requests_since (trace w)
    (trace (world_prepared env ref table dtypes snap df' w) ++ evs) = sent evs.
Proof.
  unfold world_prepared. cbn [trace set_heap add_handler emit tick].
  rewrite <- app_assoc. rewrite requests_since_app. reflexivity.
Qed.

(** X3.  When a call of [upload_dataframe] that uploads returns, every
    chunk of the prepared frame was sent, in order, one request per chunk,
    each answered without an error status; the payload of chunk [j] was
    stamped at the clock reading [1 + 2 j] after the call's start, the body
    of its response was logged to every handler attached, the new one
    included, and no file was written. *)
Theorem upload_dataframe_uploads_every_chunk
    zl env ref table org key dtypes c snap w :
  let out := upload_dataframe zl env ref table org key dtypes c None snap w in
  let made := requests_since (trace w) (trace (fst out)) in
  let log := log_file_name table (now env (ticks w)) in
  snd out = Ok tt ->
  exists df' chunks,
    prepared (now env (ticks w)) dtypes snap (frame_at ref w) = Ok df' /\
    data_chunks df' c = Ok chunks /\
    length made = length chunks /\
    ticks (fst out) = (ticks w + 1 + 2 * length chunks)%nat /\
    files_written (trace (fst out)) = files_written (trace w) /\
    forall j chunk, chunks !! j = Some chunk ->
      exists resp,
        made !! j = Some (dash_request org key table
                            (payload zl env (ticks w + 1 + 2 * j) chunk), resp) /\
        is_error (status_code resp) = false /\
        forall p, In p (handlers w ++ [log]) ->
          In (p, format_record (now env (ticks w + 2 + 2 * j)) "INFO" (text resp))
             (log_lines (trace (fst out))).
Proof.
  cbn zeta. intros Hok.
  destruct (prepared (now env (ticks w)) dtypes snap (frame_at ref w)) as [df'|e] eqn:Hp;
    [|rewrite upload_dataframe_eq in Hok; cbn zeta in Hok; rewrite Hp in Hok;
      discriminate].
  destruct (data_chunks df' c) as [chunks|e] eqn:Hc;
    [|rewrite upload_dataframe_eq in Hok; cbn zeta in Hok; rewrite Hp, Hc in Hok;
      discriminate].
  rewrite (upload_dataframe_prepared zl env ref table org key dtypes c None snap w
             df' chunks Hp Hc) in *.
  cbn zeta in *. cbn [fst snd trace ticks] in *.
  set (w2 := world_prepared env ref table dtypes snap df' w) in *.
  set (hs := handlers w2) in *.
  assert (Hhs : hs = handlers w ++ [log_file_name table (now env (ticks w))])
    by reflexivity.
  assert (Ht2 : ticks w2 = S (ticks w)) by reflexivity.
  set (evs := upload_events zl env org key table (info_logs env hs) 2
                (trace w2) (ticks w2) chunks) in *.
  destruct (upload_error evs) as [e|] eqn:He; [discriminate|].
  destruct (run_complete zl env org key table (info_logs env hs) 2
              (sent_info_logs env hs) ltac:(lia) (trace w2) (ticks w2) chunks He)
    as (Hlen & Hticks & Hall).
  fold evs in Hlen, Hticks, Hall.
  exists df', chunks.
  split; [first [exact Hp|reflexivity]|]. split; [first [exact Hc|reflexivity]|].
  assert (Hmade : requests_since (trace w) (trace w2 ++ evs) = sent evs)
    by apply sent_world_prepared.
  rewrite Hmade.
  split; [exact Hlen|]. split; [rewrite Hticks, Ht2; lia|].
  split.
  { rewrite files_written_app. unfold evs.
    rewrite (run_files zl env org key table (info_logs env hs) 2)
      by (intros t r; unfold info_logs; apply files_written_log_lines).
    rewrite app_nil_r. unfold w2, world_prepared.
    cbn [trace set_heap add_handler emit tick]. rewrite files_written_app.
    apply app_nil_r. }
  intros j chunk Hj.
  assert (Hlt : (j < length (sent evs))%nat)
    by (rewrite Hlen; eapply lookup_lt_Some; exact Hj).
  destruct (lookup_lt_is_Some_2 _ _ Hlt) as [[q resp] Hx].
  destruct (run_lookup zl env org key table (info_logs env hs) 2
              (sent_info_logs env hs) ltac:(lia) (trace w2) (ticks w2) chunks j q resp Hx)
    as (chunk' & Hc' & Hq & _).
  assert (chunk' = chunk) by congruence. subst chunk'.
  assert (Hacc : failed (q, resp) = false)
    by (apply Hall; apply list_elem_of_In; eapply list_elem_of_lookup_2; exact Hx).
  exists resp. split.
  { rewrite Hx, Hq, Ht2. do 4 f_equal. lia. }
  split; [exact Hacc|].
  intros p Hin. rewrite <- Hhs in Hin.
  rewrite log_lines_app. apply in_or_app. right. apply in_log_lines.
  pose proof (run_logged zl env org key table hs (trace w2) (ticks w2) chunks j
                (q, resp) p Hx Hacc Hin) as Hlog.
  rewrite Ht2 in Hlog. cbn [snd] in Hlog.
  replace (ticks w + 2 + 2 * j)%nat with (S (S (ticks w) + j * 2)) by lia.
  exact Hlog.
Qed.

Lemma upload_dataframe_uploads_every_chunk_witness :
  let env := constant_server 200 in
  let w := world_with 7 stock_frame in
  let out := upload_dataframe Stored.zlib env 7 "stock" "org" "key" None 2 None true w in
  let made := requests_since (trace w) (trace (fst out)) in
  let log := log_file_name "stock" (now env (ticks w)) in
  snd out = Ok tt /\
  exists df' chunks,
    prepared (now env (ticks w)) None true (frame_at 7 w) = Ok df' /\
    data_chunks df' 2 = Ok chunks /\
    length made = length chunks /\
    ticks (fst out) = (ticks w + 1 + 2 * length chunks)%nat /\
    files_written (trace (fst out)) = files_written (trace w) /\
    forall j chunk, chunks !! j = Some chunk ->
      exists resp,
        made !! j = Some (dash_request "org" "key" "stock"
                            (payload Stored.zlib env (ticks w + 1 + 2 * j) chunk), resp) /\
        is_error (status_code resp) = false /\
        forall p, In p (handlers w ++ [log]) ->
          In (p, format_record (now env (ticks w + 2 + 2 * j)) "INFO" (text resp))
             (log_lines (trace (fst out))).
Proof.
  intros env w out made log. subst log made out w env.
  assert (Hok : snd (upload_dataframe Stored.zlib (constant_server 200) 7 "stock" "org"
                       "key" None 2 None true (world_with 7 stock_frame)) = Ok tt)
    by (vm_compute; reflexivity).
  split; [exact Hok|].
  exact (upload_dataframe_uploads_every_chunk Stored.zlib (constant_server 200) 7
           "stock" "org" "key" None 2 true (world_with 7 stock_frame) Hok).
Defined.



(* ===================================================================== *)
(** * The frame objects across calls *)
(* ===================================================================== *)

(** X5.  [upload_dataframe] never changes a frame object other than the
    caller's, and without include_snapshot it changes none: an object that
    exists before the call holds the same table afterwards, whatever the
    outcome.  Without include_snapshot and without a coercion map (None or
    empty) the frame objects are exactly those there were. *)
Theorem upload_dataframe_keeps_other_frames
    zl env ref table org key dtypes c path snap w :
  let after := heap (fst (upload_dataframe zl env ref table org key dtypes c path snap w)) in
  (forall other df, other <> ref -> heap w !! other = Some df ->
                    after !! other = Some df) /\
  (snap = false ->
   forall other df, heap w !! other = Some df -> after !! other = Some df) /\
  (snap = false -> dtypes = None \/ dtypes = Some ∅ -> after = heap w).
Proof.
  cbn zeta. rewrite heap_after_upload_dataframe.
  assert (Hfresh : forall other df, heap w !! other = Some df ->
                                    fresh (dom (heap w)) <> other).
  { intros other df Ho Heq.
    apply (is_fresh (dom (heap w))). rewrite Heq. apply elem_of_dom. eauto. }
  destruct (prepared _ dtypes snap (frame_at ref w)) as [df'|e];
    [|split; [|split]; auto].
  unfold heap_prepared. split; [|split].
  - intros other df Hne Ho. destruct (truthy dtypes).
    + rewrite lookup_insert_ne by (eapply Hfresh; exact Ho). exact Ho.
    + destruct snap; [|exact Ho].
      rewrite lookup_insert_ne by congruence. exact Ho.
  - intros -> other df Ho. destruct (truthy dtypes); [|exact Ho].
    rewrite lookup_insert_ne by (eapply Hfresh; exact Ho). exact Ho.
  - intros -> Hd. rewrite (truthy_none dtypes Hd). reflexivity.
Qed.

Lemma upload_dataframe_keeps_other_frames_witness :
  let w := world_with 7 stock_frame in
  let after := heap (fst (upload_dataframe Stored.zlib (constant_server 200) 7 "stock"
                            "org" "key" (Some ∅) 2 None false w)) in
  heap w !! 7%nat = Some stock_frame /\
  after !! 7%nat = Some stock_frame /\
  after = heap w.
Proof.
  intros w after. subst after w.
  pose proof (upload_dataframe_keeps_other_frames Stored.zlib (constant_server 200) 7
                "stock" "org" "key" (Some ∅) 2 None false (world_with 7 stock_frame))
    as (_ & Hsame & Hall).
  assert (H7 : heap (world_with 7 stock_frame) !! 7%nat = Some stock_frame)
    by reflexivity.
  split; [exact H7|]. split.
  - exact (Hsame eq_refl 7%nat stock_frame H7).
  - exact (Hall eq_refl (or_intror eq_refl)).
Defined.


Lemma overwrite_absent key v cols r :
  existsb (String.eqb key) cols = false -> overwrite key v cols r = r.
Proof.
  revert r. induction cols as [|c cols IH]; intros [|x r] H; try reflexivity.
  simpl in *. apply orb_false_iff in H as [Hc Hcols].
  rewrite String.eqb_sym, Hc, IH by exact Hcols. reflexivity.
Qed.










(* ===================================================================== *)
(** * What leaves the program is the dataset *)
(* ===================================================================== *)

Lemma text_of_payload zl env t chunk :
  zlib_correct zl -> text_of zl (payload zl env t chunk) = Some (Csv.to_csv chunk).
Proof.
  intros Hzl. unfold text_of, payload.
  rewrite GzipFacts.decompress_compress by exact Hzl. cbn [option_map].
  rewrite string_of_list_byte_of_string. reflexivity.
Qed.


(** The requests of a run carry the first chunks, as many as were sent. *)
Lemma run_texts zl env org key table logs stride tr t chunks :
  zlib_correct zl ->
  (forall t r, sent (logs t r) = []) ->
  let made := sent (upload_events zl env org key table logs stride tr t chunks) in
  bodies_texts zl made
  = List.map (fun chunk => Some (Csv.to_csv chunk)) (take (length made) chunks).
Proof.
  intros Hzl Hlogs. cbn zeta. revert tr t.
  induction chunks as [|c chunks IH]; intros tr t; [reflexivity|].
  cbn [upload_events].
  set (q0 := dash_request org key table (payload zl env t c)).
  set (r0 := server env tr q0).
  destruct (is_error (status_code r0)).
  - unfold bodies_texts. simpl. rewrite text_of_payload by exact Hzl. reflexivity.
  - change ((Sent q0 r0 :: logs t r0) ++ ?l) with ([Sent q0 r0] ++ (logs t r0 ++ l)).
    rewrite !sent_app, Hlogs. cbn [app].
    change (sent [Sent q0 r0]) with [(q0, r0)]. cbn [app length take].
    unfold bodies_texts in *. cbn [List.map fst req_data q0 dash_request].
    rewrite text_of_payload by exact Hzl. rewrite IH. reflexivity.
Qed.

Lemma cuts_all_rows df c cs : cuts df c cs -> all_rows df cs.
Proof.
  intros (Hall & _ & Hcat). split; [|exact Hcat].
  eapply Forall_impl; [exact Hall|]. intros chunk [H _]. exact H.
Qed.

Lemma all_rows_initial df cs n : all_rows df cs -> initial_rows df (take n cs).
Proof.
  intros [Hcols Hcat]. split.
  - apply Forall_take. exact Hcols.
  - exists (concat (List.map df_rows (drop n cs))).
    rewrite <- concat_app, <- List.map_app, take_drop. exact Hcat.
Qed.

Lemma reader_chunks_all_rows df c r :
  read_csv df c = Ok r -> all_rows df (reader_chunks r).
Proof.
  intros Hr. rewrite (reader_chunks_eq df c r Hr).
  assert (Hc : 0 < c).
  { unfold read_csv in Hr. destruct (Z.ltb_spec c 1); [discriminate|lia]. }
  destruct (df_rows df) as [|x l] eqn:Hrows.
  - split; [repeat constructor|]. rewrite Hrows. reflexivity.
  - rewrite <- Hrows. apply (cuts_all_rows df c). apply cuts_nth_chunks. exact Hc.
Qed.

Lemma data_chunks_all_rows df c :
  0 < c -> exists cs, data_chunks df c = Ok cs /\ all_rows df cs.
Proof.
  intros Hc. eexists. split; [apply data_chunks_eq; exact Hc|].
  apply (cuts_all_rows df c). apply cuts_nth_chunks. exact Hc.
Qed.



(** The requests of a run carry the first chunks, as many as were sent,
    and all of them when the run ends without an exception. *)
Lemma run_frames zl env org key table logs stride tr t chunks :
  zlib_correct zl ->
  (forall t r, sent (logs t r) = []) ->
  (0 < stride)%nat ->
  let evs := upload_events zl env org key table logs stride tr t chunks in
  bodies_texts zl (sent evs)
  = List.map (fun chunk => Some (Csv.to_csv chunk)) (take (length (sent evs)) chunks) /\
  (upload_error evs = None -> length (sent evs) = length chunks).
Proof.
  intros Hzl Hlogs Hstride. cbn zeta.
  split; [apply run_texts; assumption|].
  intros He.
  destruct (run_complete zl env org key table logs stride Hlogs Hstride tr t chunks He)
    as (Hlen & _).
  exact Hlen.
Qed.

(** X9.  An upload sends the rows in order and none twice: with a chunk
    size of at least 1 the requests of a call carry, in the order sent,
    the gzipped CSV texts of chunks of the dataset, each as modify_lambda
    left it; these chunks have the columns of the dataset and their rows,
    put end to end, are an initial stretch of its rows, whatever the
    outcome of the call, and all its rows when the call returns.  For
    [read_and_upload_file_to_dash] the dataset is the source file, for
    [upload_dataframe] the frame after the cast and the snapshot
    column. *)
Theorem uploads_send_the_rows_in_order zl env table org key c w :
  zlib_correct zl ->
  0 < c ->
  (forall file modify,
     let out := read_and_upload_file_to_dash zl env file table org key c modify None w in
     exists chunks,
       initial_rows file chunks /\
       bodies_texts zl (requests_since (trace w) (trace (fst out)))
       = List.map (fun chunk => Some (Csv.to_csv (modified modify chunk))) chunks /\
       (forall res, snd out = Ok res -> all_rows file chunks)) /\
  (forall ref dtypes snap df',
     prepared (now env (ticks w)) dtypes snap (frame_at ref w) = Ok df' ->
     let out := upload_dataframe zl env ref table org key dtypes c None snap w in
     exists chunks,
       initial_rows df' chunks /\
       bodies_texts zl (requests_since (trace w) (trace (fst out)))
       = List.map (fun chunk => Some (Csv.to_csv chunk)) chunks /\
       (snd out = Ok tt -> all_rows df' chunks)).
Proof.
  intros Hzl Hc. split.
  - intros file modify. cbn zeta.
    destruct (read_csv_ok file c Hc) as [r Hr].
    pose proof (reader_chunks_all_rows file c r Hr) as Hall.
    rewrite (read_and_upload_upload zl env _ _ _ _ _ _ _ _ Hr). cbn zeta.
    cbn [fst snd trace]. rewrite requests_since_app.
    destruct (run_frames zl env org key table no_logs 1 (trace w) (ticks w)
                (List.map (modified modify) (reader_chunks r)) Hzl
                ltac:(reflexivity) ltac:(lia)) as (Hread & Hok).
    set (evs := upload_events zl env org key table no_logs 1 (trace w) (ticks w)
                  (List.map (modified modify) (reader_chunks r))) in *.
    exists (take (length (sent evs)) (reader_chunks r)).
    split; [apply all_rows_initial; exact Hall|]. split.
    + rewrite Hread, List.firstn_map. apply List.map_map.
    + intros res Hres.
      rewrite Hok by (destruct (upload_error evs); [discriminate|reflexivity]).
      rewrite length_map, firstn_all. exact Hall.
  - intros ref dtypes snap df' Hp. cbn zeta.
    destruct (data_chunks_all_rows df' c Hc) as (chunks & Hchunks & Hall).
    rewrite (upload_dataframe_prepared zl env _ _ _ _ _ _ None _ _ _ _ Hp Hchunks).
    cbn zeta. cbn [fst snd trace]. rewrite sent_world_prepared.
    destruct (run_frames zl env org key table
                (info_logs env (handlers (world_prepared env ref table dtypes snap df' w)))
                2 (trace (world_prepared env ref table dtypes snap df' w))
                (ticks (world_prepared env ref table dtypes snap df' w))
                chunks Hzl (sent_info_logs env _) ltac:(lia)) as (Hread & Hok).
    match type of Hread with
    | bodies_texts _ (sent ?l) = _ => set (evs := l) in *
    end.
    exists (take (length (sent evs)) chunks).
    split; [apply all_rows_initial; exact Hall|]. split; [exact Hread|].
    intros Hres.
    rewrite Hok by (destruct (upload_error evs); [discriminate|reflexivity]).
    rewrite firstn_all. exact Hall.
Qed.

Lemma uploads_send_the_rows_in_order_witness :
  let env := failing_after 1 in
  let w := world_with 7 stock_frame in
  zlib_correct Stored.zlib /\ 0 < 2 /\
  (let out := read_and_upload_file_to_dash Stored.zlib env stock_frame "stock" "org"
                "key" 2 None None w in
   exists chunks,
     initial_rows stock_frame chunks /\
     bodies_texts Stored.zlib (requests_since (trace w) (trace (fst out)))
     = List.map (fun chunk => Some (Csv.to_csv (modified None chunk))) chunks /\
     (forall res, snd out = Ok res -> all_rows stock_frame chunks)) /\
  (let out := upload_dataframe Stored.zlib env 7 "stock" "org" "key" None 2 None false w in
   exists chunks,
     initial_rows stock_frame chunks /\
     bodies_texts Stored.zlib (requests_since (trace w) (trace (fst out)))
     = List.map (fun chunk => Some (Csv.to_csv chunk)) chunks /\
     (snd out = Ok tt -> all_rows stock_frame chunks)).
Proof.
  intros env w. subst w env.
  assert (Hc : 0 < 2) by lia.
  split; [exact StoredFacts.stored_correct|]. split; [exact Hc|].
  split.
  - exact (proj1 (uploads_send_the_rows_in_order Stored.zlib (failing_after 1) "stock"
                    "org" "key" 2 (world_with 7 stock_frame)
                    StoredFacts.stored_correct Hc)
             stock_frame None).
  - exact (proj2 (uploads_send_the_rows_in_order Stored.zlib (failing_after 1) "stock"
                    "org" "key" 2 (world_with 7 stock_frame)
                    StoredFacts.stored_correct Hc)
             7%nat None false stock_frame eq_refl).
Defined.

(* ===================================================================== *)
(** * The files of a dry run *)
(* ===================================================================== *)

Lemma str_inj i j : Py.str i = Py.str j -> i = j.
Proof.
  intros H. pose proof (CsvFacts.number_str i) as Hi.
  rewrite H, CsvFacts.number_str in Hi. congruence.
Qed.

Lemma append_inv_head s a b : s +:+ a = s +:+ b -> a = b.
Proof.
  induction s as [|ch s IH]; [rewrite !append_nil_l; auto|].
  rewrite !append_cons. intros [= H]. auto.
Qed.

Lemma list_ascii_of_append a b :
  list_ascii_of_string (a +:+ b) = list_ascii_of_string a ++ list_ascii_of_string b.
Proof.
  induction a as [|ch a IH]; [rewrite append_nil_l; reflexivity|].
  rewrite append_cons. cbn [list_ascii_of_string app]. rewrite IH. reflexivity.
Qed.

Lemma append_inv_tail s a b : a +:+ s = b +:+ s -> a = b.
Proof.
  intros H. apply (f_equal list_ascii_of_string) in H.
  rewrite !list_ascii_of_append in H. apply app_inv_tail in H.
  rewrite <- (string_of_list_ascii_of_string a), <- (string_of_list_ascii_of_string b).
  rewrite H. reflexivity.
Qed.

Lemma startswith_sep_chunk_file table i j :
  Py.startswith_sep (table +:+ "." +:+ Py.str i +:+ ".csv.gz")
  = Py.startswith_sep (table +:+ "." +:+ Py.str j +:+ ".csv.gz").
Proof.
  destruct table as [|ch table]; [rewrite !append_nil_l|rewrite !append_cons];
    reflexivity.
Qed.

(** Chunk files with different numbers have different paths. *)
Lemma join_chunk_file_inj dir table i j :
  Py.join dir (table +:+ "." +:+ Py.str i +:+ ".csv.gz")
  = Py.join dir (table +:+ "." +:+ Py.str j +:+ ".csv.gz") ->
  i = j.
Proof.
  assert (Hname : table +:+ "." +:+ Py.str i +:+ ".csv.gz"
                  = table +:+ "." +:+ Py.str j +:+ ".csv.gz" -> i = j).
  { intros H. apply append_inv_head in H. rewrite !append_cons, !append_nil_l in H.
    injection H as H. apply append_inv_tail in H. apply str_inj. exact H. }
  unfold Py.join. rewrite (startswith_sep_chunk_file table i j).
  destruct (Py.startswith_sep _); [exact Hname|].
  destruct (String.eqb dir EmptyString || Py.endswith_sep dir)%bool; intros H.
  - apply append_inv_head in H. auto.
  - apply append_inv_head in H. rewrite !append_cons, !append_nil_l in H.
    injection H as H. auto.
Qed.

Lemma chunk_files_paths_distinct zl env dir table i t chunks :
  NoDup (List.map fst (chunk_files zl env dir table i t chunks)).
Proof.
  apply NoDup_alt. intros a b p Ha Hb.
  rewrite list_lookup_fmap in Ha, Hb.
  destruct (chunk_files zl env dir table i t chunks !! a) as [fa|] eqn:Hfa;
    [|discriminate].
  destruct (chunk_files zl env dir table i t chunks !! b) as [fb|] eqn:Hfb;
    [|discriminate].
  pose proof (lookup_lt_Some _ _ _ Hfa) as Hla.
  pose proof (lookup_lt_Some _ _ _ Hfb) as Hlb.
  rewrite chunk_files_length in Hla, Hlb.
  destruct (lookup_lt_is_Some_2 chunks a Hla) as [ca Hca].
  destruct (lookup_lt_is_Some_2 chunks b Hlb) as [cb Hcb].
  rewrite (chunk_files_lookup zl env dir table i t chunks a ca Hca) in Hfa.
  rewrite (chunk_files_lookup zl env dir table i t chunks b cb Hcb) in Hfb.
  injection Hfa as <-. injection Hfb as <-. cbn [fmap option_fmap option_map fst] in Ha, Hb.
  injection Ha as Ha. injection Hb as Hb. rewrite <- Hb in Ha.
  apply join_chunk_file_inj in Ha. lia.
Qed.

(** X10.  Within one dry run no chunk file is written over another: the
    paths of the files a call writes are pairwise different, for every
    directory and table name and whatever the outcome of the call. *)
Theorem dry_run_paths_are_distinct
    zl env file ref table org key c modify dtypes snap dir w :
  NoDup (List.map fst
           (files_since (trace w)
              (trace (fst (read_and_upload_file_to_dash zl env file table org key c
                             modify (Some dir) w))))) /\
  NoDup (List.map fst
           (files_since (trace w)
              (trace (fst (upload_dataframe zl env ref table org key dtypes c
                             (Some dir) snap w))))).
Proof.
  assert (Hnone : NoDup (List.map fst (files_since (trace w) (trace w)))).
  { rewrite <- (app_nil_r (trace w)) at 2. rewrite files_since_app. constructor. }
  split.
  - destruct (read_csv_cases file c) as [[Hc _]|[_ [r Hr]]].
    + rewrite read_and_upload_bad_chunksize by exact Hc. exact Hnone.
    + rewrite (read_and_upload_dry zl env _ _ _ _ _ _ _ _ _ Hr). cbn [fst trace].
      rewrite files_since_app, files_written_file_events.
      apply chunk_files_paths_distinct.
  - rewrite upload_dataframe_eq. cbn zeta.
    destruct (prepared _ dtypes snap (frame_at ref w)) as [df'|e];
      [|cbn [fst trace add_handler emit tick]; rewrite files_since_app; constructor].
    destruct (data_chunks df' c) as [chunks|e];
      [|cbn [fst trace add_handler emit tick set_heap]; rewrite files_since_app;
        constructor].
    unfold Py.enumerate.
    rewrite (frame_loop_dry zl env table org key dir chunks 0).
    cbn [fst trace add_handler emit tick set_heap].
    rewrite <- app_assoc, files_since_app.
    change (files_written ([LogOpened ?p] ++ ?l)) with (files_written l).
    rewrite files_written_file_events. apply chunk_files_paths_distinct.
Qed.

(* ===================================================================== *)
(** * Where an HTTPError comes from *)
(* ===================================================================== *)

Lemma data_chunks_raise df c e : data_chunks df c = Raise e -> c = 0 /\ e = ValueError.
Proof.
  unfold data_chunks, Py.range, Py.range_len.
  destruct (Z.eqb_spec c 0) as [->|Hne]; [intros [= <-]; auto|].
  destruct (0 <? c); discriminate.
Qed.

Lemma prepared_raise ts dtypes snap df e :
  prepared ts dtypes snap df = Raise e ->
  exists d, dtypes = Some d /\ d <> ∅ /\ astype d df = Raise e.
Proof.
  unfold prepared, truthy. destruct dtypes as [d|]; [|discriminate].
  destruct (decide (d = ∅)) as [->|Hd]; [discriminate|].
  destruct (astype d df) as [df1|e'] eqn:Ha; [discriminate|].
  intros [= <-]. exists d. auto.
Qed.

Lemma cast_raise t v e : cast t v = Raise e -> is_http_error e = false.
Proof.
  destruct t, v; cbn [cast]; try discriminate.
  destruct (PyInt.parse s) as [z|]; [|intros [= <-]; reflexivity].
  destruct ((int64_min <=? z) && (z <=? int64_max))%bool; [discriminate|].
  intros [= <-]. reflexivity.
Qed.

Lemma rmap_raise {A B} (f : A -> result B) (P : Exn -> Prop) l e :
  (forall a e, f a = Raise e -> P e) -> rmap f l = Raise e -> P e.
Proof.
  intros Hf. induction l as [|a l IH]; [discriminate|].
  cbn [rmap]. destruct (f a) as [b|e1] eqn:Ha.
  - cbn [rbind]. destruct (rmap f l) as [bs|e2]; [discriminate|].
    cbn [rbind]. intros [= <-]. apply IH. reflexivity.
  - cbn [rbind]. intros [= <-]. eapply Hf. exact Ha.
Qed.

Lemma cast_column_raise j t rs e :
  cast_column j t rs = Raise e -> is_http_error e = false.
Proof.
  unfold cast_column.
  apply (rmap_raise _ (fun e => is_http_error e = false)). intros r e1.
  destruct (r !! j) as [v|]; [|discriminate].
  destruct (cast t v) as [v'|e2] eqn:Hc; [discriminate|].
  cbn [rbind]. intros [= <-]. eapply cast_raise. exact Hc.
Qed.

Lemma astype_columns_raise dtype j cols rs e :
  astype_columns dtype j cols rs = Raise e -> is_http_error e = false.
Proof.
  revert j rs. induction cols as [|c cols IH]; intros j rs; [discriminate|].
  cbn [astype_columns]. destruct (dtype !! c) as [t|]; [|apply IH].
  destruct (cast_column j t rs) as [rs'|e1] eqn:Hc.
  - cbn [rbind]. apply IH.
  - cbn [rbind]. intros [= <-]. eapply cast_column_raise. exact Hc.
Qed.

(** A cast never fails with an HTTPError. *)
Lemma astype_raise dtype df e : astype dtype df = Raise e -> is_http_error e = false.
Proof.
  unfold astype. destruct (forallb _ _); [|intros [= <-]; reflexivity].
  destruct (astype_columns dtype 0 (df_columns df) (df_rows df)) as [rs|e1] eqn:Ha;
    [discriminate|].
  cbn [rbind]. intros [= <-]. eapply astype_columns_raise. exact Ha.
Qed.

(** A run that ends with an exception ends with the request that was
    refused, and that request is the only one refused. *)
Lemma run_error_last zl env org key table logs stride tr t chunks e :
  (forall t r, sent (logs t r) = []) ->
  (0 < stride)%nat ->
  upload_error (upload_events zl env org key table logs stride tr t chunks) = Some e ->
  exists s,
    e = HTTPError s /\
    refused_last s (sent (upload_events zl env org key table logs stride tr t chunks)).
Proof.
  intros Hlogs Hstride He.
  destruct (run_error zl env org key table logs stride tr t chunks e He)
    as (k & [q resp] & Hk & Hx & ->).
  destruct (run_failed_last zl env org key table logs stride Hlogs Hstride tr t chunks
              k (q, resp) Hk Hx) as (Hlen & _).
  destruct (run_lookup zl env org key table logs stride Hlogs Hstride tr t chunks
              k q resp Hk) as (_ & _ & _ & Hbefore).
  exists (status_code resp). split; [reflexivity|]. split; [exact Hx|]. split.
  - exists q, resp. split; [|reflexivity]. rewrite last_lookup, Hlen. exact Hk.
  - intros j x Hj Hlt. rewrite Hlen in Hlt. apply (Hbefore j x); [lia|exact Hj].
Qed.

(** X11.  Where an HTTPError comes from.  When a call of
    [read_and_upload_file_to_dash] (without modify_lambda) or of
    [upload_dataframe] ends with the HTTPError of [raise_for_status] for
    a status [s], the call was not a dry run, [s] is in 400..599, the
    last request the call sent is the one answered with [s], and every
    request it sent before was answered without an error status: the
    exception always tells of the chunk sent last, and neither the cast
    nor the chunking raises it. *)
Theorem http_error_is_of_the_last_request zl env table org key c w s :
  (forall file path,
     let out := read_and_upload_file_to_dash zl env file table org key c None path w in
     snd out = Raise (HTTPError s) ->
     path = None /\
     refused_last s (requests_since (trace w) (trace (fst out)))) /\
  (forall ref dtypes path snap,
     let out := upload_dataframe zl env ref table org key dtypes c path snap w in
     snd out = Raise (HTTPError s) ->
     path = None /\
     refused_last s (requests_since (trace w) (trace (fst out)))).
Proof.
  split.
  - intros file path. cbn zeta. intros He.
    destruct (read_csv_cases file c) as [[Hc _]|[_ [r Hr]]].
    { rewrite read_and_upload_bad_chunksize in He by exact Hc. discriminate. }
    destruct path as [dir|].
    { rewrite (read_and_upload_dry zl env _ _ _ _ _ _ _ _ _ Hr) in He. discriminate. }
    split; [reflexivity|].
    rewrite (read_and_upload_upload zl env _ _ _ _ _ _ _ _ Hr) in *. cbn zeta in *.
    cbn [fst snd trace] in *. rewrite requests_since_app.
    destruct (upload_error _) as [e'|] eqn:Herr; [|discriminate].
    injection He as ->.
    destruct (run_error_last zl env org key table no_logs 1 _ _ _ _
                ltac:(reflexivity) ltac:(lia) Herr) as (s' & [= <-] & Hlast).
    exact Hlast.
  - intros ref dtypes path snap. cbn zeta. intros He.
    destruct (prepared (now env (ticks w)) dtypes snap (frame_at ref w)) as [df'|e1]
      eqn:Hp.
    2:{ rewrite upload_dataframe_eq in He. cbn zeta in He. rewrite Hp in He.
        injection He as ->.
        destruct (prepared_raise _ _ _ _ _ Hp) as (d & _ & _ & Ha).
        apply astype_raise in Ha. discriminate. }
    destruct (data_chunks df' c) as [chunks|e1] eqn:Hc.
    2:{ rewrite upload_dataframe_eq in He. cbn zeta in He. rewrite Hp, Hc in He.
        injection He as ->.
        destruct (data_chunks_raise _ _ _ Hc) as [_ [=]]. }
    rewrite (upload_dataframe_prepared zl env ref table org key dtypes c path snap w
               df' chunks Hp Hc) in *.
    cbn zeta in *. destruct path as [dir|]; [discriminate|].
    split; [reflexivity|]. cbn [fst snd trace] in *.
    rewrite sent_world_prepared.
    destruct (upload_error _) as [e'|] eqn:Herr; [|discriminate].
    injection He as ->.
    destruct (run_error_last zl env org key table _ 2 _ _ _ _
                (sent_info_logs env _) ltac:(lia) Herr) as (s' & [= <-] & Hlast).
    exact Hlast.
Qed.

Lemma http_error_is_of_the_last_request_witness :
  let env := failing_after 1 in
  let w := world_with 7 stock_frame in
  (let out := read_and_upload_file_to_dash Stored.zlib env stock_frame "stock" "org"
                "key" 2 None None w in
   snd out = Raise (HTTPError 500) /\
   @None string = None /\
   refused_last 500 (requests_since (trace w) (trace (fst out)))) /\
  (let out := upload_dataframe Stored.zlib env 7 "stock" "org" "key" None 2 None true w in
   snd out = Raise (HTTPError 500) /\
   @None string = None /\
   refused_last 500 (requests_since (trace w) (trace (fst out)))).
Proof.
  intros env w. subst w env. split.
  - assert (He : snd (read_and_upload_file_to_dash Stored.zlib (failing_after 1)
                        stock_frame "stock" "org" "key" 2 None None
                        (world_with 7 stock_frame)) = Raise (HTTPError 500))
      by (vm_compute; reflexivity).
    split; [exact He|].
    exact (proj1 (http_error_is_of_the_last_request Stored.zlib (failing_after 1)
                    "stock" "org" "key" 2 (world_with 7 stock_frame) 500)
             stock_frame None He).
  - assert (He : snd (upload_dataframe Stored.zlib (failing_after 1) 7 "stock" "org"
                        "key" None 2 None true (world_with 7 stock_frame))
                 = Raise (HTTPError 500))
      by (vm_compute; reflexivity).
    split; [exact He|].
    exact (proj2 (http_error_is_of_the_last_request Stored.zlib (failing_after 1)
                    "stock" "org" "key" 2 (world_with 7 stock_frame) 500)
             7%nat None None true He).
Defined.

(* ===================================================================== *)
(** * Where the requests go *)
(* ===================================================================== *)

Lemma run_to_dash zl env org key table logs stride tr t chunks :
  (forall t r, sent (logs t r) = []) ->
  Forall (fun x => to_dash org key table (fst x))
    (sent (upload_events zl env org key table logs stride tr t chunks)).
Proof.
  intros Hlogs. revert tr t. induction chunks as [|c chunks IH]; intros tr t;
    [constructor|].
  cbn [upload_events].
  set (q0 := dash_request org key table (payload zl env t c)).
  set (r0 := server env tr q0).
  assert (Hq : to_dash org key table q0) by (repeat split).
  destruct (is_error (status_code r0)).
  - constructor; [exact Hq|constructor].
  - change ((Sent q0 r0 :: logs t r0) ++ ?l) with ([Sent q0 r0] ++ (logs t r0 ++ l)).
    rewrite !sent_app, Hlogs. constructor; [exact Hq|apply IH].
Qed.

(** X12.  Every request either entry point sends, in every call and
    whatever its outcome, is a POST to
    https://api.comodash.io/v1/data-input-file with the five headers of
    the call's organisation, API key and table: the key goes nowhere
    else, and no chunk is sent under another table's name. *)
Theorem every_request_goes_to_dash
    zl env file ref table org key c modify dtypes path snap w :
  Forall (fun x => to_dash org key table (fst x))
    (requests_since (trace w)
       (trace (fst (read_and_upload_file_to_dash zl env file table org key c modify
                      path w)))) /\
  Forall (fun x => to_dash org key table (fst x))
    (requests_since (trace w)
       (trace (fst (upload_dataframe zl env ref table org key dtypes c path snap w)))).
Proof.
  split.
  - destruct (read_csv_cases file c) as [[Hc _]|[_ [r Hr]]].
    { rewrite read_and_upload_bad_chunksize by exact Hc. cbn [fst].
      rewrite <- (app_nil_r (trace w)) at 2. rewrite requests_since_app. constructor. }
    destruct path as [dir|].
    + rewrite (read_and_upload_dry zl env _ _ _ _ _ _ _ _ _ Hr). cbn [fst trace].
      rewrite requests_since_app.
      match goal with |- context [List.map file_event ?l] => generalize l end.
      intros fs. induction fs as [|f fs IH]; [constructor|exact IH].
    + rewrite (read_and_upload_upload zl env _ _ _ _ _ _ _ _ Hr). cbn zeta.
      cbn [fst trace]. rewrite requests_since_app.
      apply run_to_dash. reflexivity.
  - destruct (trace_after_upload_dataframe zl env ref table org key dtypes c path snap w)
      as (evs & Htr & Hevs).
    rewrite Htr, requests_since_app.
    change (sent (LogOpened ?p :: ?l)) with (sent l).
    destruct path as [dir|]; [destruct Hevs as [-> _]; constructor|].
    clear Hevs. revert Htr.
    rewrite upload_dataframe_eq. cbn zeta.
    destruct (prepared _ dtypes snap (frame_at ref w)) as [df'|e].
    2:{ cbn [fst trace add_handler emit tick]. intros H.
        apply app_inv_head in H. injection H as <-. constructor. }
    destruct (data_chunks df' c) as [chunks|e].
    2:{ cbn [fst trace add_handler emit tick set_heap]. intros H.
        apply app_inv_head in H. injection H as <-. constructor. }
    unfold Py.enumerate. rewrite (frame_loop_upload zl env table org key chunks 0).
    cbn zeta. cbn [fst trace add_handler emit tick set_heap handlers].
    rewrite <- app_assoc. intros H. apply app_inv_head in H.
    cbn [app] in H. injection H as <-.
    apply run_to_dash. apply sent_info_logs.
Qed.

(* ===================================================================== *)
(** * A dataset without rows *)
(* ===================================================================== *)



